(** * process-monitor: a shallow embedding of [process_monitor.py]

    The development models the sampling engine ([ProcessMonitor]) and the
    statistics step ([PerformanceReportTemplate.analyze_data]) of
    [src/process_monitor.py] and proves properties of them.

    Conventions of the embedding:
    - Python [str] is [string]; the string primitives ([lower], [strip],
      [split], [endswith], [isdigit], [int], [float]) are modelled on ASCII
      text.
    - Python [int] is [Z]; Python [float] is modelled by exact rationals [Q]
      (the rounding error of binary floating point, infinities and NaN are
      outside the model).
    - Values that [json.load] can produce are the inductive type [json];
      the dictionaries held in memory by [ProcessMonitor] have a fixed key
      set and are the record [Sample] with two optional fields.
    - [self.data] is a [defaultdict(list)]: a map from target to a *list
      object*.  List objects live in a heap so that aliasing between the
      store and the dictionary returned by [get_data] is visible.
    - Everything the operating system answers during one sampling cycle is
      collected in a record [World]; the loop consumes one world per
      iteration.  Printing and logging are not modelled, except that
      printing the live table may raise.
    - A function that may raise returns an [option] (or a Boolean with the
      state reached), [None] standing for the exception. *)

From Stdlib Require Import ZArith QArith Qround Qminmax Lqa String Ascii List Lia DecimalString.
From stdpp Require Import gmap strings list fin_maps.

Local Open Scope string_scope.
Local Open Scope list_scope.

(** ** Python string primitives *)

Module PyStr.

Definition is_upper (c : ascii) : bool :=
  (65 <=? nat_of_ascii c)%nat && (nat_of_ascii c <=? 90)%nat.

Definition lower_char (c : ascii) : ascii :=
  if is_upper c then ascii_of_nat (nat_of_ascii c + 32) else c.

(** [s.lower()] *)
Fixpoint lower (s : string) : string :=
  match s with
  | EmptyString => EmptyString
  | String c r => String (lower_char c) (lower r)
  end.

(** The characters [str.strip()] removes: tab, line feed, vertical tab,
    form feed, carriage return, the separators 28..31 and the space. *)
Definition is_space (c : ascii) : bool :=
  let n := nat_of_ascii c in
  ((9 <=? n)%nat && (n <=? 13)%nat) || ((28 <=? n)%nat && (n <=? 32)%nat).

Fixpoint lstrip (s : string) : string :=
  match s with
  | EmptyString => EmptyString
  | String c r => if is_space c then lstrip r else s
  end.

(** Removes trailing white space: a character is dropped when it is a
    space and everything after it has been dropped too. *)
Fixpoint rstrip (s : string) : string :=
  match s with
  | EmptyString => EmptyString
  | String c r =>
      match rstrip r with
      | EmptyString => if is_space c then EmptyString else String c EmptyString
      | r' => String c r'
      end
  end.

(** [s.strip()] *)
Definition strip (s : string) : string := rstrip (lstrip s).

(** [s.endswith(suffix)]: the last [len(suffix)] characters of [s] are
    [suffix]. *)
Fixpoint endswith (s suffix : string) : bool :=
  if String.eqb s suffix then true
  else match s with
       | EmptyString => false
       | String _ r => endswith r suffix
       end.

Definition is_digit (c : ascii) : bool :=
  (48 <=? nat_of_ascii c)%nat && (nat_of_ascii c <=? 57)%nat.

Fixpoint all_digits (s : string) : bool :=
  match s with
  | EmptyString => true
  | String c r => is_digit c && all_digits r
  end.

(** [s.isdigit()]: non-empty and only digits. *)
Definition isdigit (s : string) : bool :=
  match s with
  | EmptyString => false
  | _ => all_digits s
  end.

Definition digit_val (c : ascii) : Z := Z.of_nat (nat_of_ascii c) - 48.

(** Value of a digit string read left to right with accumulator [acc]. *)
Fixpoint digits_val (acc : Z) (s : string) : Z :=
  match s with
  | EmptyString => acc
  | String c r => digits_val (10 * acc + digit_val c) r
  end.

(** [int(s)] for a string: optional surrounding white space, an optional
    sign, then decimal digits (the underscores Python allows between digits
    are not modelled).  [None] is [ValueError]. *)
Definition int (s : string) : option Z :=
  match strip s with
  | String "-" r => if isdigit r then Some (- digits_val 0 r)%Z else None
  | String "+" r => if isdigit r then Some (digits_val 0 r) else None
  | r => if isdigit r then Some (digits_val 0 r) else None
  end.

(** [s.split()]: the maximal runs of characters that are not white space;
    [cur] is the run being read. *)
Fixpoint words_from (cur s : string) : list string :=
  match s with
  | EmptyString => if String.eqb cur "" then [] else [cur]
  | String c r =>
      if is_space c
      then (if String.eqb cur "" then words_from "" r else cur :: words_from "" r)
      else words_from (cur +:+ String c "") r
  end.

Definition words (s : string) : list string := words_from "" s.

(** The part of [s] before the first ["."] and, when there is one, the
    part after it. *)
Fixpoint split_point (s : string) : string * option string :=
  match s with
  | EmptyString => (EmptyString, None)
  | String c r =>
      if Ascii.eqb c "." then (EmptyString, Some r)
      else let '(i, f) := split_point r in (String c i, f)
  end.

(** An unsigned decimal numeral: digits, optionally a point and digits,
    with a digit on at least one side of the point. *)
Definition decimal (s : string) : option Q :=
  match split_point s with
  | (i, None) => if isdigit i then Some (inject_Z (digits_val 0 i)) else None
  | (i, Some f) =>
      if all_digits i && all_digits f && negb (String.eqb (i +:+ f) "")
      then Some (Qred (inject_Z (digits_val 0 (i +:+ f))
                       / inject_Z (10 ^ Z.of_nat (String.length f))))
      else None
  end.

(** [float(s)] for a string in decimal notation: optional surrounding
    white space, an optional sign, a decimal numeral (exponents, [inf] and
    [nan] are not modelled).  [None] is [ValueError]. *)
Definition float (s : string) : option Q :=
  match strip s with
  | String "-" r => option_map Qopp (decimal r)
  | String "+" r => decimal r
  | r => decimal r
  end.

(** [s.split(sep)] for a one-character separator. *)
Fixpoint split (sep : ascii) (s : string) : list string :=
  match s with
  | EmptyString => [EmptyString]
  | String c r =>
      if Ascii.eqb c sep then EmptyString :: split sep r
      else match split sep r with
           | [] => [String c EmptyString]
           | w :: ws => String c w :: ws
           end
  end.


End PyStr.

(** ** Values produced by [json.load] *)

(** [JInt] is a Python [int], [JFloat] a Python [float]; [JObj] is a [dict]
    with string keys, kept in insertion order. *)
#[warnings="-register-all"]
Inductive json : Type :=
| JNull
| JBool (b : bool)
| JInt (z : Z)
| JFloat (q : Q)
| JStr (s : string)
| JArr (items : list json)
| JObj (members : list (string * json)).

(** [d[k]] on an ordered dictionary; [None] is [KeyError]. *)
Fixpoint dict_get {V : Type} (k : string) (d : list (string * V)) : option V :=
  match d with
  | [] => None
  | (k', v) :: r => if String.eqb k' k then Some v else dict_get k r
  end.

(** [d[k] = v]: the value is replaced in place when the key exists, else
    the pair is added at the end. *)
Fixpoint dict_set {V : Type} (k : string) (v : V) (d : list (string * V))
  : list (string * V) :=
  match d with
  | [] => [(k, v)]
  | (k', v') :: r =>
      if String.eqb k' k then (k', v) :: r else (k', v') :: dict_set k v r
  end.

(** [item[k]] for a string key: only a [dict] supports it; [None] stands for
    the [KeyError] or [TypeError] raised otherwise. *)
Definition subscript (item : json) (k : string) : option json :=
  match item with
  | JObj members => dict_get k members
  | _ => None
  end.

(** [k in item] for a [dict]. *)
Definition has_key (item : json) (k : string) : bool :=
  match subscript item k with Some _ => true | None => false end.

(** [item.get(k, dflt)]; [None] is the [AttributeError] of a value that is
    not a [dict]. *)
Definition get_default (item : json) (k : string) (dflt : json) : option json :=
  match item with
  | JObj members => Some (default dflt (dict_get k members))
  | _ => None
  end.

(** Truth value of a Python object ([bool(v)]). *)
Definition truthy (v : json) : bool :=
  match v with
  | JNull => false
  | JBool b => b
  | JInt z => negb (z =? 0)%Z
  | JFloat q => negb (Qeq_bool q 0%Q)
  | JStr s => negb (String.eqb s "")
  | JArr items => match items with [] => false | _ => true end
  | JObj members => match members with [] => false | _ => true end
  end.

(** The number a value stands for in arithmetic ([bool] is a subclass of
    [int]); [None] for values arithmetic raises [TypeError] on. *)
Definition as_number (v : json) : option Q :=
  match v with
  | JInt z => Some (inject_Z z)
  | JFloat q => Some q
  | JBool b => Some (if b then 1%Q else 0%Q)
  | _ => None
  end.

(** What a [for] loop iterates over: the elements of a list, the characters
    of a string, the keys of a dictionary; [None] is the [TypeError] of a
    value that is not iterable. *)
Fixpoint chars (s : string) : list json :=
  match s with
  | EmptyString => []
  | String c r => JStr (String c EmptyString) :: chars r
  end.

Definition iterate (v : json) : option (list json) :=
  match v with
  | JArr items => Some items
  | JStr s => Some (chars s)
  | JObj members => Some (map (fun kv => JStr (fst kv)) members)
  | _ => None
  end.

(** ** [datetime] and its textual encoding *)

Record datetime := {
  year : N; month : N; day : N;
  hour : N; minute : N; second : N; microsecond : N
}.

Definition is_leap (y : N) : bool :=
  ((y mod 4 =? 0) && negb (y mod 100 =? 0) || (y mod 400 =? 0))%N.

Definition days_in_month (y m : N) : N :=
  (if m =? 2 then (if is_leap y then 29 else 28)
   else if (m =? 4) || (m =? 6) || (m =? 9) || (m =? 11) then 30
   else 31)%N.

(** The field ranges every [datetime] object satisfies. *)
Definition valid_datetime (t : datetime) : bool :=
  ((1 <=? year t) && (year t <=? 9999) &&
   (1 <=? month t) && (month t <=? 12) &&
   (1 <=? day t) && (day t <=? days_in_month (year t) (month t)) &&
   (hour t <? 24) && (minute t <? 60) && (second t <? 60) &&
   (microsecond t <? 1000000))%N.

Definition digit_char (d : N) : ascii := ascii_of_N (48 + d).

(** [n] written with exactly [k] decimal digits, zero padded. *)
Fixpoint pad (k : nat) (n : N) : string :=
  match k with
  | O => EmptyString
  | S k' => String (digit_char ((n / 10 ^ N.of_nat k') mod 10)) (pad k' n)
  end.

(** [t.isoformat()]: [YYYY-MM-DDTHH:MM:SS], followed by [.ffffff] when the
    microsecond field is not zero. *)
Definition isoformat (t : datetime) : string :=
  pad 4 (year t) +:+ "-" +:+ pad 2 (month t) +:+ "-" +:+ pad 2 (day t) +:+ "T" +:+
  pad 2 (hour t) +:+ ":" +:+ pad 2 (minute t) +:+ ":" +:+ pad 2 (second t) +:+
  (if (microsecond t =? 0)%N then "" else "." +:+ pad 6 (microsecond t)).

(** Reads exactly [k] digits. *)
Fixpoint read_digits (k : nat) (acc : N) (s : string) : option (N * string) :=
  match k with
  | O => Some (acc, s)
  | S k' =>
      match s with
      | String c r =>
          if PyStr.is_digit c
          then read_digits k' (10 * acc + (N_of_ascii c - 48)) r
          else None
      | EmptyString => None
      end
  end.

Definition expect (c : ascii) (s : string) : option string :=
  match s with
  | String c' r => if Ascii.eqb c c' then Some r else None
  | EmptyString => None
  end.

Definition skip_char (s : string) : option string :=
  match s with
  | String _ r => Some r
  | EmptyString => None
  end.

(** [datetime.fromisoformat(s)] on the two shapes [isoformat] writes for a
    datetime without time zone (any single character may separate date and
    time); [None] is [ValueError].  The further shapes the library accepts
    (date only, partial time, UTC offset) are not modelled. *)
Definition fromisoformat (s : string) : option datetime :=
  '(y, s) ← read_digits 4 0 s;
  s ← expect "-" s;
  '(mo, s) ← read_digits 2 0 s;
  s ← expect "-" s;
  '(d, s) ← read_digits 2 0 s;
  s ← skip_char s;
  '(h, s) ← read_digits 2 0 s;
  s ← expect ":" s;
  '(mi, s) ← read_digits 2 0 s;
  s ← expect ":" s;
  '(sec, s) ← read_digits 2 0 s;
  '(us, s) ← match s with
             | EmptyString => Some (0%N, EmptyString)
             | _ => s ← expect "." s; read_digits 6 0 s
             end;
  let t := {| year := y; month := mo; day := d;
              hour := h; minute := mi; second := sec; microsecond := us |} in
  match s with
  | EmptyString => if valid_datetime t then Some t else None
  | _ => None
  end.

(** Days before January 1st of year [y] and before the first of month [m],
    as in [datetime.toordinal]. *)
Definition days_before_year (y : N) : N :=
  (let p := y - 1 in p * 365 + p / 4 - p / 100 + p / 400)%N.

Definition days_before_month (y m : N) : N :=
  fold_right (fun i acc => (days_in_month y i + acc)%N) 0%N
             (map N.of_nat (seq 1 (N.to_nat m - 1))).

Definition toordinal (t : datetime) : N :=
  (days_before_year (year t) + days_before_month (year t) (month t) + day t)%N.

(** [(b - a).total_seconds()] *)
Definition total_seconds (b a : datetime) : Q :=
  let secs (t : datetime) : Z :=
    (((Z.of_N (toordinal t) * 24 + Z.of_N (hour t)) * 60
      + Z.of_N (minute t)) * 60 + Z.of_N (second t))%Z in
  inject_Z (secs b - secs a)
  + (inject_Z (Z.of_N (microsecond b) - Z.of_N (microsecond a)) / 1000000).

(** ** Samples, process information and the operating system *)

(** One record of a series.  The dictionaries built by
    [collect_data_for_target], [create_zero_data] and [load_data_from_file]
    all have these thirteen keys, and [fd_count] / [thread_count] when the
    metric is enabled or was present in the file.  [load_data_from_file]
    copies field values without checking them, so fields other than the
    timestamp hold arbitrary values. *)
Record Sample := {
  timestamp : datetime;
  target : json;
  target_name : json;
  pid : json;
  cpu_percent : json;
  memory_percent : json;
  memory_mb : json;
  rss_kb : json;
  vsz_kb : json;
  command : json;
  args : json;
  system_load : json;
  system_mem_available_mb : json;
  fd_count : option json;
  thread_count : option json
}.

(** The dictionary [get_process_info] returns for a live process. *)
Record ProcessInfo := {
  pi_pid : Z; pi_ppid : Z;
  pi_cpu_percent : Q; pi_memory_percent : Q;
  pi_rss_kb : Z; pi_vsz_kb : Z;
  pi_etime : string; pi_comm : string; pi_args : string
}.

(** The dictionary [get_system_info] returns. *)
Record SystemInfo := {
  load_1min : Q; load_5min : Q; load_15min : Q;
  mem_total_kb : Z; mem_available_kb : Z; mem_free_kb : Z
}.

(** Outcome of one [subprocess.run(..., timeout=...)]. *)
Inductive CompletedProcess :=
| Completed (returncode : Z) (stdout : string)
| TimeoutExpired
| Failed.

(** What the operating system answers during one sampling cycle.
    [pgrep_x name] and [pgrep_f name] are the two [pgrep] calls of
    [find_process_by_name], [ps_comm pid] the [ps] call of
    [verify_process_executable] and [ps_info pid] the [ps] call of
    [get_process_info].  [get_system_info], [get_file_descriptors_info] and
    [get_thread_count_info] catch every exception themselves; the fields of
    that name are their results.  [unexpected] marks
    the targets for which an exception escapes inside the [try] block of
    [collect_data_for_target].  The last four fields drive the loop:
    [elapsed] is the time collection and display take, [display_raises] is
    an exception raised while printing the live table, [stop_requested] is
    a call of [stop_monitoring] during the iteration.  [now t] is the
    reading of [datetime.now()] when the sample of target [t] is built. *)
Record World := {
  pgrep_x : string -> CompletedProcess;
  pgrep_f : string -> CompletedProcess;
  ps_comm : Z -> CompletedProcess;
  ps_info : Z -> CompletedProcess;
  get_system_info : option SystemInfo;
  get_file_descriptors_info : Z -> Z;
  get_thread_count_info : Z -> Z;
  now : string -> datetime;
  unexpected : string -> bool;
  elapsed : Q;
  display_raises : bool;
  stop_requested : bool
}.

(** [self.monitor_config], after the merge with the defaults. *)
Record Config := {
  cfg_cpu_percent : bool;
  cfg_memory_percent : bool;
  cfg_memory_mb : bool;
  cfg_file_descriptors : bool;
  cfg_thread_count : bool
}.

Definition default_config : Config :=
  {| cfg_cpu_percent := true; cfg_memory_percent := true; cfg_memory_mb := true;
     cfg_file_descriptors := false; cfg_thread_count := false |}.

(** List objects are identified by their address. *)
Abbreviation loc := positive.

(** The fields of a [ProcessMonitor] object.  [data] maps a target to the
    list object holding its series; [heap] holds the list objects. *)
Record Monitor := {
  targets : list string;
  monitor_config : Config;
  monitoring : bool;
  report_dir : option string;
  data : gmap string loc;
  heap : gmap loc (list Sample)
}.

Definition set_monitoring (b : bool) (m : Monitor) : Monitor :=
  {| targets := targets m; monitor_config := monitor_config m;
     monitoring := b; report_dir := report_dir m;
     data := data m; heap := heap m |}.

Definition set_store (d : gmap string loc) (h : gmap loc (list Sample))
  (m : Monitor) : Monitor :=
  {| targets := targets m; monitor_config := monitor_config m;
     monitoring := monitoring m; report_dir := report_dir m;
     data := d; heap := h |}.

(** The list a reference points to. *)
Definition deref (h : gmap loc (list Sample)) (l : loc) : list Sample :=
  default [] (h !! l).

(** The series of a target as seen through a dictionary [d] of list
    references: [d[t]] read in heap [h], empty for a missing key. *)
Definition read_series (d : gmap string loc) (h : gmap loc (list Sample))
  (t : string) : list Sample :=
  match d !! t with
  | Some l => deref h l
  | None => []
  end.

(** The series the store holds for a target. *)
Definition series (m : Monitor) (t : string) : list Sample :=
  read_series (data m) (heap m) t.

(** [self.data[t].append(s)] on the [defaultdict(list)]: a missing key gets
    a new, empty list object first. *)
Definition append_sample (t : string) (s : Sample) (m : Monitor) : Monitor :=
  match data m !! t with
  | Some l => set_store (data m) (<[l := deref (heap m) l ++ [s]]> (heap m)) m
  | None =>
      let l := fresh (dom (heap m)) in
      set_store (<[t := l]> (data m)) (<[l := [s]]> (heap m)) m
  end.

(** ** Target resolution *)

(** [is_pid]: [int(target)] does not raise [ValueError]. *)
Definition is_pid (t : string) : bool :=
  match PyStr.int t with Some _ => true | None => false end.

Definition str (z : Z) : string := NilZero.string_of_int (Z.to_int z).

Definition newline : ascii := "010"%char.

Definition verify_process_executable (w : World) (p : Z) (process_name : string)
  : bool :=
  match ps_comm w p with
  | Completed returncode stdout =>
      if (returncode =? 0)%Z && negb (String.eqb (PyStr.strip stdout) "") then
        let comm := PyStr.strip stdout in
        if String.eqb (PyStr.lower comm) (PyStr.lower process_name) then true
        else if PyStr.endswith comm ("/" +:+ process_name)
                || PyStr.endswith comm ("\" +:+ process_name) then true
        else false
      else false
  | TimeoutExpired => false
  | Failed => false
  end.

(** The loop over the lines printed by [pgrep]. *)
Fixpoint valid_pids (w : World) (process_name : string) (pids : list string)
  : list Z :=
  match pids with
  | [] => []
  | p :: r =>
      if PyStr.isdigit p then
        if verify_process_executable w (PyStr.digits_val 0 p) process_name
        then PyStr.digits_val 0 p :: valid_pids w process_name r
        else valid_pids w process_name r
      else valid_pids w process_name r
  end.

Definition found (c : CompletedProcess) : option string :=
  match c with
  | Completed returncode stdout =>
      if (returncode =? 0)%Z && negb (String.eqb (PyStr.strip stdout) "")
      then Some (PyStr.strip stdout) else None
  | _ => None
  end.

Definition raised (c : CompletedProcess) : bool :=
  match c with Completed _ _ => false | _ => true end.

Definition find_process_by_name (w : World) (process_name : string) : list Z :=
  if raised (pgrep_x w process_name) then []
  else match found (pgrep_x w process_name) with
       | Some out => valid_pids w process_name (PyStr.split newline out)
       | None =>
           if raised (pgrep_f w process_name) then []
           else match found (pgrep_f w process_name) with
                | Some out => valid_pids w process_name (PyStr.split newline out)
                | None => []
                end
       end.

(** ** Process information *)

(** The dictionary built from the second line of the [ps] output: eight
    columns at least, the arguments being everything after the eighth. *)
Definition parse_process_line (line : string) : option ProcessInfo :=
  let parts := PyStr.words line in
  if (8 <=? length parts)%nat then
    let full_args :=
      if (8 <? length parts)%nat then String.concat " " (drop 8 parts)
      else nth 7 parts "" in
    v_pid ← PyStr.int (nth 0 parts "");
    v_ppid ← PyStr.int (nth 1 parts "");
    v_cpu ← PyStr.float (nth 2 parts "");
    v_mem ← PyStr.float (nth 3 parts "");
    v_rss ← PyStr.int (nth 4 parts "");
    v_vsz ← PyStr.int (nth 5 parts "");
    Some {| pi_pid := v_pid; pi_ppid := v_ppid;
            pi_cpu_percent := v_cpu; pi_memory_percent := v_mem;
            pi_rss_kb := v_rss; pi_vsz_kb := v_vsz;
            pi_etime := nth 6 parts ""; pi_comm := nth 7 parts "";
            pi_args := full_args |}
  else None.

(** [get_process_info(pid)]: [None] when the process does not exist, when
    [ps] timed out or failed, when the output has no second line or fewer
    than eight columns, and when a number does not parse. *)
Definition get_process_info (w : World) (p : Z) : option ProcessInfo :=
  match ps_info w p with
  | Completed returncode stdout =>
      if (returncode =? 0)%Z && negb (String.eqb (PyStr.strip stdout) "") then
        let lines := PyStr.split newline (PyStr.strip stdout) in
        if (2 <=? length lines)%nat then parse_process_line (nth 1 lines "")
        else None
      else None
  | TimeoutExpired => None
  | Failed => None
  end.

(** ** Collection of one sample per target *)

Definition system_load_of (w : World) : json :=
  match get_system_info w with
  | Some si => JFloat (load_1min si)
  | None => JFloat 0
  end.

Definition system_mem_available_mb_of (w : World) : json :=
  match get_system_info w with
  | Some si => JFloat (Qred (inject_Z (mem_available_kb si) / 1024))
  | None => JFloat 0
  end.

(** [create_zero_data(target, target_name, pid)]; [p] is [None] for the
    Python [None]. *)
Definition create_zero_data (w : World) (cfg : Config)
  (t tname : string) (p : option Z) : Sample :=
  {| timestamp := now w t;
     target := JStr t;
     target_name := JStr tname;
     pid := JInt (match p with Some z => z | None => 0 end);
     cpu_percent := JFloat 0;
     memory_percent := JFloat 0;
     memory_mb := JFloat 0;
     rss_kb := JInt 0;
     vsz_kb := JInt 0;
     command := JStr "";
     args := JStr "";
     system_load := system_load_of w;
     system_mem_available_mb := system_mem_available_mb_of w;
     fd_count := if cfg_file_descriptors cfg then Some (JInt 0) else None;
     thread_count := if cfg_thread_count cfg then Some (JInt 0) else None |}.

(** The dictionary built for a process whose information was obtained. *)
Definition real_data (w : World) (cfg : Config)
  (t tname : string) (p : Z) (info : ProcessInfo) : Sample :=
  {| timestamp := now w t;
     target := JStr t;
     target_name := JStr tname;
     pid := JInt p;
     cpu_percent := JFloat (pi_cpu_percent info);
     memory_percent := JFloat (pi_memory_percent info);
     memory_mb := JFloat (Qred (inject_Z (pi_rss_kb info) / 1024));
     rss_kb := JInt (pi_rss_kb info);
     vsz_kb := JInt (pi_vsz_kb info);
     command := JStr (pi_comm info);
     args := JStr (pi_args info);
     system_load := system_load_of w;
     system_mem_available_mb := system_mem_available_mb_of w;
     fd_count := if cfg_file_descriptors cfg
                 then Some (JInt (get_file_descriptors_info w p)) else None;
     thread_count := if cfg_thread_count cfg
                     then Some (JInt (get_thread_count_info w p)) else None |}.

(** [collect_data_for_target]; [None] is the value returned by the
    [except] clause. *)
Definition collect_data_for_target (w : World) (cfg : Config) (t : string)
  : option Sample :=
  if unexpected w t then None
  else
    match PyStr.int t with
    | Some p =>
        match get_process_info w p with
        | None => Some (create_zero_data w cfg t ("PID_" +:+ str p) (Some p))
        | Some info => Some (real_data w cfg t ("PID_" +:+ str p) p info)
        end
    | None =>
        match find_process_by_name w t with
        | [] => Some (create_zero_data w cfg t t None)
        | p :: _ =>
            match get_process_info w p with
            | None => Some (create_zero_data w cfg t t (Some p))
            | Some info => Some (real_data w cfg t t p info)
            end
        end
    end.

(** The sample [collect_all_data] stores for one target. *)
Definition sample_for (w : World) (cfg : Config) (t : string) : Sample :=
  match collect_data_for_target w cfg t with
  | Some d => d
  | None => create_zero_data w cfg t t None
  end.

(** [collect_all_data]: the dictionary [all_data], in insertion order. *)
Definition collect_all_data (w : World) (m : Monitor) : list (string * Sample) :=
  fold_left (fun all_data t => dict_set t (sample_for w (monitor_config m) t) all_data)
            (targets m) [].

(** ** The sampling loop *)

(** One entry per iteration of the loop body: how long collection and
    display took, and the argument of [time.sleep] ([None] when the
    iteration left the loop without sleeping). *)
Record CycleLog := { collection_time : Q; slept : option Q }.

(** The monitor together with the clock ([time.time()]), the local
    [sample_count] of [monitor_loop] and the log of iterations. *)
Record Run := {
  mon : Monitor;
  clock : Q;
  sample_count : nat;
  log : list CycleLog
}.

(** The [with self.data_lock] block: every pair of [all_data] is appended
    to the series of its target. *)
Definition store_batch (all_data : list (string * Sample)) (m : Monitor)
  : Monitor :=
  fold_left (fun m' ts => append_sample (fst ts) (snd ts) m') all_data m.

(** [duration and (time.time() - start_time) >= duration] *)
Definition duration_reached (duration : option Q) (start_time t : Q) : bool :=
  match duration with
  | Some d => negb (Qeq_bool d 0) && Qle_bool d (t - start_time)
  | None => false
  end.

(** One iteration of [while self.monitoring]. *)
Definition iteration (interval : Q) (duration : option Q) (start_time : Q)
  (w : World) (r : Run) : Run :=
  let all_data := collect_all_data w (mon r) in
  let m1 := match all_data with
            | [] => mon r
            | _ => store_batch all_data (mon r)
            end in
  let m2 := if stop_requested w then set_monitoring false m1 else m1 in
  let t1 := (clock r + elapsed w)%Q in
  if display_raises w then
    {| mon := m2; clock := (t1 + interval)%Q; sample_count := sample_count r;
       log := log r ++ [{| collection_time := elapsed w; slept := Some interval |}] |}
  else
    let n := match all_data with
             | [] => sample_count r
             | _ => S (sample_count r)
             end in
    if duration_reached duration start_time t1 then
      {| mon := set_monitoring false m2; clock := t1; sample_count := n;
         log := log r ++ [{| collection_time := elapsed w; slept := None |}] |}
    else
      {| mon := m2; clock := (t1 + interval)%Q; sample_count := n;
         log := log r ++ [{| collection_time := elapsed w; slept := Some interval |}] |}.

(** The [while] loop, run against the worlds of the successive cycles. *)
Fixpoint loop (interval : Q) (duration : option Q) (start_time : Q)
  (ws : list World) (r : Run) : Run :=
  match ws with
  | [] => r
  | w :: ws' =>
      if monitoring (mon r)
      then loop interval duration start_time ws' (iteration interval duration start_time w r)
      else r
  end.

(** [start_monitoring]: nothing happens when monitoring is already running;
    otherwise the report directory [dir] is created, the store is replaced
    by a new empty [defaultdict] and the loop starts at clock reading [t0]. *)
Definition start_monitoring (dir : string) (t0 : Q) (m : Monitor) : option Run :=
  if monitoring m then None
  else Some {| mon := {| targets := targets m; monitor_config := monitor_config m;
                         monitoring := true; report_dir := Some dir;
                         data := ∅; heap := heap m |};
               clock := t0; sample_count := O; log := [] |}.

Definition monitor_loop (interval : Q) (duration : option Q)
  (ws : list World) (r : Run) : Run :=
  loop interval duration (clock r) ws r.

(** [get_data]: [dict(self.data)], a new dictionary holding the same list
    references. *)
Definition get_data (m : Monitor) : gmap string loc := data m.

(** ** Persistence *)

(** A file holds the JSON document [json.dump] wrote to it ([json.load] of
    that text gives the document back), or text that is not JSON. *)
Inductive file :=
| Doc (j : json)
| Garbage.

(** The files that exist, and the names [open(name, 'w')] succeeds on. *)
Record FileSystem := {
  files : gmap string file;
  writable : string -> bool
}.

(** [strftime("%Y%m%d_%H%M%S")] *)
Definition strftime_compact (t : datetime) : string :=
  pad 4 (year t) +:+ pad 2 (month t) +:+ pad 2 (day t) +:+ "_" +:+
  pad 2 (hour t) +:+ pad 2 (minute t) +:+ pad 2 (second t).

(** The dictionary [save_item] built for one sample. *)
Definition save_item (item : Sample) : json :=
  JObj ([ ("timestamp", JStr (isoformat (timestamp item)));
          ("target", target item);
          ("target_name", target_name item);
          ("pid", pid item);
          ("cpu_percent", cpu_percent item);
          ("memory_percent", memory_percent item);
          ("memory_mb", memory_mb item);
          ("rss_kb", rss_kb item);
          ("vsz_kb", vsz_kb item);
          ("command", command item);
          ("args", args item);
          ("system_load", system_load item);
          ("system_mem_available_mb", system_mem_available_mb item) ]
        ++ match fd_count item with Some v => [("fd_count", v)] | None => [] end
        ++ match thread_count item with Some v => [("thread_count", v)] | None => [] end).

(** [data_to_save]: every target of the store with its converted series. *)
Definition data_to_save (m : Monitor) : list (string * json) :=
  map (fun tl => (fst tl, JArr (map save_item (deref (heap m) (snd tl)))))
      (map_to_list (data m)).

(** [save_data_to_file(filename)]: the name of the written file, or [None]
    after an exception, and the file system afterwards.  [today] is the
    reading of [datetime.now()] used for the default name. *)
Definition save_data_to_file (today : datetime) (filename : option string)
  (m : Monitor) (fs : FileSystem) : option string * FileSystem :=
  let name :=
    match filename with
    | Some f => if String.eqb f "" then None else Some f
    | None => None
    end in
  let name :=
    match name with
    | Some f => f
    | None =>
        match report_dir m with
        | Some d =>
            if String.eqb d ""
            then "process_monitor_data_" +:+ strftime_compact today +:+ ".json"
            else d +:+ "/" +:+ "monitor_data_" +:+ strftime_compact today +:+ ".json"
        | None => "process_monitor_data_" +:+ strftime_compact today +:+ ".json"
        end
    end in
  if writable fs name
  then (Some name,
        {| files := <[name := Doc (JObj (data_to_save m))]> (files fs);
           writable := writable fs |})
  else (None, fs).

(** The dictionary [load_item] built from one record of the file; [None]
    is an exception ([KeyError], [TypeError] or [ValueError]). *)
Definition load_item (item : json) : option Sample :=
  ts ← subscript item "timestamp";
  ts ← match ts with JStr s => fromisoformat s | _ => None end;
  v_target ← subscript item "target";
  v_target_name ← subscript item "target_name";
  v_pid ← subscript item "pid";
  v_cpu_percent ← subscript item "cpu_percent";
  v_memory_percent ← subscript item "memory_percent";
  v_memory_mb ← subscript item "memory_mb";
  v_rss_kb ← subscript item "rss_kb";
  v_vsz_kb ← subscript item "vsz_kb";
  v_command ← subscript item "command";
  v_args ← subscript item "args";
  v_system_load ← subscript item "system_load";
  v_system_mem ← subscript item "system_mem_available_mb";
  Some {| timestamp := ts;
          target := v_target;
          target_name := v_target_name;
          pid := v_pid;
          cpu_percent := v_cpu_percent;
          memory_percent := v_memory_percent;
          memory_mb := v_memory_mb;
          rss_kb := v_rss_kb;
          vsz_kb := v_vsz_kb;
          command := v_command;
          args := v_args;
          system_load := v_system_load;
          system_mem_available_mb := v_system_mem;
          fd_count := if has_key item "fd_count"
                      then subscript item "fd_count" else None;
          thread_count := if has_key item "thread_count"
                          then subscript item "thread_count" else None |}.

(** The inner loop of [load_data_from_file] over the records of one
    target.  The Boolean is [false] when a record raised; the monitor is
    the state reached at that point. *)
Fixpoint load_items (t : string) (items : list json) (m : Monitor)
  : bool * Monitor :=
  match items with
  | [] => (true, m)
  | item :: r =>
      match load_item item with
      | Some s => load_items t r (append_sample t s m)
      | None => (false, m)
      end
  end.

(** The outer loop over the targets of the document. *)
Fixpoint load_members (members : list (string * json)) (m : Monitor)
  : bool * Monitor :=
  match members with
  | [] => (true, m)
  | (t, target_data) :: r =>
      match iterate target_data with
      | Some items =>
          match load_items t items m with
          | (true, m') => load_members r m'
          | (false, m') => (false, m')
          end
      | None => (false, m)
      end
  end.

(** [load_data_from_file(filename)]: the Boolean returned and the monitor
    afterwards. *)
Definition load_data_from_file (filename : string) (m : Monitor)
  (fs : FileSystem) : bool * Monitor :=
  match files fs !! filename with
  | Some (Doc j) =>
      let m0 := set_store ∅ (heap m) m in
      match j with
      | JObj members => load_members members m0
      | _ => (false, m0)
      end
  | Some Garbage => (false, m)
  | None => (false, m)
  end.

(** ** Statistics *)

(** [sum(xs)] *)
Definition total (xs : list Q) : Q := fold_right Qplus 0%Q xs.

Definition count (xs : list Q) : Q := inject_Z (Z.of_nat (length xs)).

(** [statistics.mean(xs)]; [None] is [StatisticsError] on an empty list.
    The library computes the quotient exactly before converting it. *)
Definition mean (xs : list Q) : option Q :=
  match xs with
  | [] => None
  | _ => Some (total xs / count xs)%Q
  end.

(** [max(xs)]: the first largest element; [None] is [ValueError]. *)
Definition py_max (xs : list Q) : option Q :=
  match xs with
  | [] => None
  | x :: r => Some (fold_left (fun m y => if Qle_bool y m then m else y) r x)
  end.

(** [min(xs)]: the first smallest element. *)
Definition py_min (xs : list Q) : option Q :=
  match xs with
  | [] => None
  | x :: r => Some (fold_left (fun m y => if Qle_bool m y then m else y) r x)
  end.

(** The sample variance of [statistics.variance]: squared deviations from
    the mean, divided by [n - 1]. *)
Definition variance (xs : list Q) : Q :=
  let mu := (total xs / count xs)%Q in
  (total (map (fun x => (x - mu) * (x - mu))%Q xs) / (count xs - 1))%Q.

(** Rounding to the nearest integer, ties to the even one. *)
Definition round_half_even (x : Q) : Z :=
  let f := Qfloor x in
  match Qcompare (x - inject_Z f) (1 # 2) with
  | Lt => f
  | Gt => (f + 1)%Z
  | Eq => if Z.even f then f else (f + 1)%Z
  end.

(** [round(x, 2)] *)
Definition round2 (x : Q) : Q :=
  Qred (inject_Z (round_half_even (x * 100)) / 100).

(** The statistics of one metric: the dictionary with the keys [avg],
    [max], [min], [std] and [data]. *)
Record MetricStats := {
  st_avg : Q; st_max : Q; st_min : Q; st_std : Q; st_data : list json
}.

(** The analysis of one target: an entry of [self.report_data]. *)
Record Analysis := {
  process_name : string;
  a_pid : json; a_command : json; a_args : json;
  data_points : nat;
  test_duration : Q;
  start_time : datetime; end_time : datetime;
  cpu : MetricStats;
  a_memory_percent : MetricStats;
  a_memory_mb : MetricStats;
  a_rss_kb : json; a_vsz_kb : json;
  disk_io : option (MetricStats * MetricStats);
  network_io : option (MetricStats * MetricStats);
  context_switches : option (MetricStats * MetricStats);
  a_thread_count : option MetricStats
}.

(** What [analyze_data] does: it raises, or returns a Boolean and leaves
    [self.report_data]. *)
Inductive outcome :=
| Raised
| Returned (ok : bool) (report_data : list (string * Analysis)).

(** [any(vs)] *)
Definition any (vs : list json) : bool := existsb truthy vs.

(** [[item[k] for item in process_data]] *)
Definition column (k : string) (process_data : list json) : option (list json) :=
  mapM (fun item => subscript item k) process_data.

(** [[item.get(k, 0) for item in process_data]] *)
Definition column_default (k : string) (process_data : list json)
  : option (list json) :=
  mapM (fun item => get_default item k (JInt 0)) process_data.

(** [[datetime.fromisoformat(item['timestamp']) for item in process_data]] *)
Definition timestamps_of (process_data : list json) : option (list datetime) :=
  mapM (fun item =>
          ts ← subscript item "timestamp";
          match ts with JStr s => fromisoformat s | _ => None end)
       process_data.

Section Analysis.

(** The square root used by [statistics.stdev]. *)
Variable sqrt : Q -> Q.

(** [statistics.stdev(xs)], called on lists of at least two numbers. *)
Definition stdev (xs : list Q) : Q := sqrt (variance xs).

(** The four rounded statistics of a list of values; [None] when a
    library function raises (empty list, value that is not a number). *)
Definition metric_stats (vs : list json) : option MetricStats :=
  xs ← mapM as_number vs;
  a ← mean xs;
  hi ← py_max xs;
  lo ← py_min xs;
  Some {| st_avg := round2 a;
          st_max := round2 hi;
          st_min := round2 lo;
          st_std := round2 (if (1 <? length xs)%nat then stdev xs else 0);
          st_data := vs |}.

(** An optional group of two metrics, present when a value of either list
    is true. *)
Definition optional_pair (xs ys : list json)
  : option (option (MetricStats * MetricStats)) :=
  if any xs || any ys then
    sx ← metric_stats xs; sy ← metric_stats ys; Some (Some (sx, sy))
  else Some None.

Definition optional_single (xs : list json) : option (option MetricStats) :=
  if any xs then sx ← metric_stats xs; Some (Some sx) else Some None.

(** The body of the loop of [analyze_data] for one target whose list of
    records is not empty; [None] is an exception. *)
Definition analyze_target (name : string) (process_data : list json)
  : option Analysis :=
  timestamps ← timestamps_of process_data;
  cpu_data ← column "cpu_percent" process_data;
  memory_percent_data ← column "memory_percent" process_data;
  memory_mb_data ← column "memory_mb" process_data;
  disk_read_data ← column_default "disk_read_bytes" process_data;
  disk_write_data ← column_default "disk_write_bytes" process_data;
  network_rx_data ← column_default "network_rx_bytes" process_data;
  network_tx_data ← column_default "network_tx_bytes" process_data;
  voluntary_switches_data ← column_default "voluntary_switches" process_data;
  involuntary_switches_data ← column_default "involuntary_switches" process_data;
  thread_count_data ← column_default "thread_count" process_data;
  first ← head process_data;
  v_pid ← subscript first "pid";
  v_command ← subscript first "command";
  v_args ← subscript first "args";
  t_first ← head timestamps;
  t_last ← last timestamps;
  s_cpu ← metric_stats cpu_data;
  s_memory_percent ← metric_stats memory_percent_data;
  s_memory_mb ← metric_stats memory_mb_data;
  v_rss_kb ← subscript first "rss_kb";
  v_vsz_kb ← subscript first "vsz_kb";
  g_disk ← optional_pair disk_read_data disk_write_data;
  g_network ← optional_pair network_rx_data network_tx_data;
  g_switches ← optional_pair voluntary_switches_data involuntary_switches_data;
  g_threads ← optional_single thread_count_data;
  Some {| process_name := name;
          a_pid := v_pid; a_command := v_command; a_args := v_args;
          data_points := length process_data;
          test_duration := total_seconds t_last t_first;
          start_time := t_first; end_time := t_last;
          cpu := s_cpu;
          a_memory_percent := s_memory_percent;
          a_memory_mb := s_memory_mb;
          a_rss_kb := v_rss_kb; a_vsz_kb := v_vsz_kb;
          disk_io := g_disk;
          network_io := g_network;
          context_switches := g_switches;
          a_thread_count := g_threads |}.

(** The loop of [analyze_data] over [self.data.items()], [report_data]
    being the dictionary filled so far. *)
Fixpoint analyze_members (members : list (string * json))
  (report_data : list (string * Analysis)) : outcome :=
  match members with
  | [] => Returned true report_data
  | (name, process_data) :: r =>
      if negb (truthy process_data) then analyze_members r report_data
      else
        match iterate process_data with
        | None => Raised
        | Some items =>
            match analyze_target name items with
            | None => Raised
            | Some analysis =>
                analyze_members r (dict_set name analysis report_data)
            end
        end
  end.

(** [analyze_data] on the loaded document [self.data]; [report_data] is
    the value of [self.report_data] before the call. *)
Definition analyze_data (self_data : json)
  (report_data : list (string * Analysis)) : outcome :=
  if negb (truthy self_data) then Returned false report_data
  else
    match self_data with
    | JObj members => analyze_members members []
    | _ => Raised
    end.

End Analysis.

(** ** Well-formed stores *)

(** Every reference of the store points to an allocated list, and no list
    object is shared between two targets. *)
Definition store_ok (m : Monitor) : Prop :=
  (forall t l, data m !! t = Some l -> is_Some (heap m !! l)) /\
  (forall t1 t2 l, data m !! t1 = Some l -> data m !! t2 = Some l -> t1 = t2).

(** No key of the store maps to an empty list. *)
Definition no_empty_series (m : Monitor) : Prop :=
  forall t l, data m !! t = Some l -> deref (heap m) l <> [].

(** Every timestamp held by the store is a [datetime] object, that is, its
    fields are in range. *)
Definition timestamps_ok (m : Monitor) : Prop :=
  forall t s, s ∈ series m t -> valid_datetime (timestamp s) = true.

(** ** Failed collections *)



(** ** Loadable documents *)

(** Every record of a document converts: what [load_data_from_file]
    needs in order to return [True]. *)
Definition loadable (j : json) : Prop :=
  exists members, j = JObj members /\
    Forall (fun kv => exists items, iterate (snd kv) = Some items /\
                        Forall (fun item => is_Some (load_item item)) items)
           members.

(** ** Notions used to state the properties of the analysis *)

(** [y] is [x] rounded to two decimal digits: a whole number of hundredths
    at distance at most half a hundredth from [x]. *)
Definition rounded_to_2 (x y : Q) : Prop :=
  exists k : Z, (y == inject_Z k / 100)%Q /\
                (- (1 # 2) <= x * 100 - inject_Z k <= 1 # 2)%Q.

(** [st] holds the rounded mean, maximum, minimum and standard deviation
    of the non-empty list [xs]; the standard deviation of fewer than two
    points is 0. *)
Definition stats_of (sqrt : Q -> Q) (xs : list Q) (st : MetricStats) : Prop :=
  xs <> [] /\
  rounded_to_2 (total xs / count xs) (st_avg st) /\
  (exists hi, hi ∈ xs /\ (forall x, x ∈ xs -> (x <= hi)%Q)
              /\ rounded_to_2 hi (st_max st)) /\
  (exists lo, lo ∈ xs /\ (forall x, x ∈ xs -> (lo <= x)%Q)
              /\ rounded_to_2 lo (st_min st)) /\
  (if (length xs <? 2)%nat then st_std st = 0%Q
   else rounded_to_2 (sqrt (variance xs)) (st_std st)).

(** The numbers a series holds under key [k]. *)
Definition numbers_at (k : string) (process_data : list json) : option (list Q) :=
  vs ← column k process_data; mapM as_number vs.

(** The record holds a number different from zero under key [k]. *)
Definition nonzero_at (k : string) (item : json) : Prop :=
  exists v q, subscript item k = Some v /\ as_number v = Some q /\ ~ (q == 0)%Q.

Definition is_number (v : json) : bool :=
  match as_number v with Some _ => true | None => false end.

Definition number_at (k : string) (item : json) : bool :=
  match subscript item k with Some v => is_number v | None => false end.

Definition number_or_absent_at (k : string) (item : json) : bool :=
  match subscript item k with Some v => is_number v | None => true end.

(** A record as [save_data_to_file] writes it, as far as the analysis
    looks at it: a dictionary with a timestamp in the textual encoding,
    numbers for the three basic metrics, the descriptive fields, and
    numbers for the optional metrics that are present. *)
Definition well_formed_record (item : json) : bool :=
  match item with
  | JObj _ =>
      match subscript item "timestamp" with
      | Some (JStr s) => match fromisoformat s with Some _ => true | None => false end
      | _ => false
      end
      && number_at "cpu_percent" item
      && number_at "memory_percent" item
      && number_at "memory_mb" item
      && has_key item "pid" && has_key item "command" && has_key item "args"
      && has_key item "rss_kb" && has_key item "vsz_kb"
      && number_or_absent_at "disk_read_bytes" item
      && number_or_absent_at "disk_write_bytes" item
      && number_or_absent_at "network_rx_bytes" item
      && number_or_absent_at "network_tx_bytes" item
      && number_or_absent_at "voluntary_switches" item
      && number_or_absent_at "involuntary_switches" item
      && number_or_absent_at "thread_count" item
  | _ => false
  end.

(** A document that maps every target to a list of well-formed records. *)
Definition well_formed_members (members : list (string * json)) : Prop :=
  Forall (fun kv => exists items, snd kv = JArr items /\
                      Forall (fun item => well_formed_record item = true) items)
         members.

(** ** Concrete inputs used in the examples *)

Definition ex_time : datetime :=
  {| year := 2024; month := 3; day := 9;
     hour := 7; minute := 5; second := 0; microsecond := 1500 |}.

Definition ex_info : ProcessInfo :=
  {| pi_pid := 7; pi_ppid := 1; pi_cpu_percent := 2; pi_memory_percent := 1 # 2;
     pi_rss_kb := 2048; pi_vsz_kb := 4096;
     pi_etime := "00:01"; pi_comm := "foo"; pi_args := "foo -x" |}.

(** A system on which [foo] runs as process 7, process 1234 and the name
    [nope] do not exist, and a cycle takes two seconds. *)
Definition ex_world : World :=
  {| pgrep_x := fun n => if String.eqb n "foo"
                         then Completed 0 (String "7" (String newline ""))
                         else Completed 1 "";
     pgrep_f := fun _ => Completed 1 "";
     ps_comm := fun p => if (p =? 7)%Z then Completed 0 "/usr/bin/foo"
                         else Completed 1 "";
     ps_info := fun p =>
       if (p =? 7)%Z
       then Completed 0 ("  PID  PPID  %CPU %MEM   RSS   VSZ ELAPSED COMM ARGS"
                         +:+ String newline
                         "    7     1   2.0  0.5  2048  4096   00:01 foo  foo -x")
       else Completed 1 "";
     get_system_info := None;
     get_file_descriptors_info := fun _ => 3%Z;
     get_thread_count_info := fun _ => 0%Z;
     now := fun _ => ex_time;
     unexpected := fun _ => false;
     elapsed := 2;
     display_raises := false;
     stop_requested := false |}.

(** A system on which [ps] reports the command name [foobar] for every
    process. *)
Definition ex_world_foobar : World :=
  {| pgrep_x := fun _ => Completed 0 "7";
     pgrep_f := fun _ => Completed 0 "7";
     ps_comm := fun _ => Completed 0 (String "f" (String "o" (String "o"
                  (String "b" (String "a" (String "r" (String newline "")))))));
     ps_info := fun _ => Completed 1 "";
     get_system_info := None;
     get_file_descriptors_info := fun _ => 3%Z;
     get_thread_count_info := fun _ => 0%Z;
     now := fun _ => ex_time;
     unexpected := fun _ => false;
     elapsed := 2;
     display_raises := false;
     stop_requested := false |}.

Definition ex_monitor : Monitor :=
  {| targets := ["foo"; "1234"; "nope"];
     monitor_config := default_config;
     monitoring := false;
     report_dir := None;
     data := ∅;
     heap := ∅ |}.

(** The run just after [start_monitoring] on [ex_monitor]. *)
Definition ex_start : Run :=
  {| mon := {| targets := ["foo"; "1234"; "nope"];
               monitor_config := default_config;
               monitoring := true;
               report_dir := Some "report/001_20240309_070500";
               data := ∅;
               heap := ∅ |};
     clock := 0; sample_count := O; log := [] |}.

Definition ex_files : FileSystem :=
  {| files := ∅; writable := fun _ => true |}.

(** The run after one cycle on [ex_world], and after one more cycle. *)
Definition ex_after_1 : Run := monitor_loop 5 None [ex_world] ex_start.
Definition ex_after_2 : Run := iteration 5 None 0 ex_world ex_after_1.

(** A file system whose file [bad.json] holds the document
    [{"foo": [{}]}]: valid JSON, but the record has no fields. *)
Definition ex_bad_files : FileSystem :=
  {| files := {[ "bad.json" := Doc (JObj [("foo", JArr [JObj []])]) ]};
     writable := fun _ => true |}.

(** Three saved records of target [foo] with the CPU values 1.0, 3.0 and
    5.0, taken five seconds apart, and a series of a single record. *)
Definition ex_sample (c : Q) (sec : N) : Sample :=
  {| timestamp := {| year := 2024; month := 3; day := 9; hour := 7;
                     minute := 5; second := sec; microsecond := 0 |};
     target := JStr "foo"; target_name := JStr "foo"; pid := JInt 7;
     cpu_percent := JFloat c; memory_percent := JFloat (1 # 2);
     memory_mb := JFloat 2; rss_kb := JInt 2048; vsz_kb := JInt 4096;
     command := JStr "foo"; args := JStr "foo -x";
     system_load := JFloat 0; system_mem_available_mb := JFloat 0;
     fd_count := None; thread_count := Some (JInt 0) |}.

Definition ex_records : list json :=
  map save_item [ex_sample 1 0; ex_sample 3 5; ex_sample 5 10].


(** A stand-in for the square root in the examples: the integer square
    root of the integer part (exact on perfect squares). *)
Definition ex_sqrt (x : Q) : Q := inject_Z (Z.sqrt (Qfloor x)).

(** A document with the three records of [foo] and a target without
    records. *)
Definition ex_document : list (string * json) :=
  [("foo", JArr ex_records); ("idle", JArr [])].

(** * Further parts of the program *)

From Stdlib Require DecimalPos.


(** ** Variations of a world *)

(** The world [w] with other answers of the name lookup: [px] and [pf] for
    the two [pgrep] calls and [pc] for the [ps] call of the executable
    verification. *)
Definition with_resolution (px pf : string -> CompletedProcess)
  (pc : Z -> CompletedProcess) (w : World) : World :=
  {| pgrep_x := px; pgrep_f := pf; ps_comm := pc;
     ps_info := ps_info w;
     get_system_info := get_system_info w;
     get_file_descriptors_info := get_file_descriptors_info w;
     get_thread_count_info := get_thread_count_info w;
     now := now w;
     unexpected := unexpected w;
     elapsed := elapsed w;
     display_raises := display_raises w;
     stop_requested := stop_requested w |}.

(** The world [w] with another answer of the fallback call [pgrep -f]. *)
Definition with_pgrep_f (pf : string -> CompletedProcess) (w : World) : World :=
  with_resolution (pgrep_x w) pf (ps_comm w) w.

(** ** The console summary *)

(** The figures [print_summary] computes for one target. *)
Record Summary := {
  sm_pid : json;
  sm_command : json;
  sm_duration : Q;
  sm_points : nat;
  avg_cpu : Q; max_cpu : Q;
  avg_memory_mb : Q; max_memory_mb : Q;
  avg_memory_percent : Q; max_memory_percent : Q
}.

(** [sum(vs) / len(vs)] and [max(vs)] for a list that is not empty; [None]
    is the [TypeError] of a value that is not a number. *)
Definition average_and_max (vs : list json) : option (Q * Q) :=
  xs ← mapM as_number vs;
  hi ← py_max xs;
  Some ((total xs / count xs)%Q, hi).

(** The body of the loop of [print_summary] for one target whose series is
    not empty. *)
Definition summarize (target_data : list Sample) : option Summary :=
  '(a_cpu, m_cpu) ← average_and_max (map cpu_percent target_data);
  '(a_mb, m_mb) ← average_and_max (map memory_mb target_data);
  '(a_pct, m_pct) ← average_and_max (map memory_percent target_data);
  first ← head target_data;
  final ← last target_data;
  Some {| sm_pid := pid first;
          sm_command := command first;
          sm_duration := total_seconds (timestamp final) (timestamp first);
          sm_points := length target_data;
          avg_cpu := a_cpu; max_cpu := m_cpu;
          avg_memory_mb := a_mb; max_memory_mb := m_mb;
          avg_memory_percent := a_pct; max_memory_percent := m_pct |}.

(** [print_summary]: the summaries of the targets of a snapshot whose
    series is not empty; [None] when a summary raises. *)
Definition print_summary (m : Monitor) : option (list (string * Summary)) :=
  mapM (fun tl => sm ← summarize (deref (heap m) (snd tl)); Some (fst tl, sm))
       (filter (fun tl => deref (heap m) (snd tl) <> []) (map_to_list (get_data m))).

(** ** The report directory *)

(** [os.path.basename(path)] *)
Definition basename (path : string) : string :=
  List.last (PyStr.split "/" path) "".

(** [int(os.path.basename(dir_path).split('_')[0])]; [None] is the
    [ValueError] after which the directory is skipped. *)
Definition seq_number (dir_path : string) : option Z :=
  PyStr.int (hd "" (PyStr.split "_" (basename dir_path))).

(** The sequence number of the next report directory, [existing_dirs]
    being the paths found by [glob]. *)
Definition next_seq (existing_dirs : list string) : Z :=
  match existing_dirs with
  | [] => 1
  | _ =>
      match omap seq_number existing_dirs with
      | [] => 1
      | x :: r => fold_left Z.max r x + 1
      end
  end%Z.

(** [f"{n:03d}"]: at least three characters, the sign included. *)
Definition format_03d (n : Z) : string :=
  let digits := str (Z.abs n) in
  let width := if (n <? 0)%Z then 2%nat else 3%nat in
  (if (n <? 0)%Z then "-" else "")
  +:+ String.concat "" (repeat "0" (width - String.length digits))
  +:+ digits.

(** [create_report_directory]: the path stored in [self.report_dir];
    [raised] is an exception inside the [try] block. *)
Definition create_report_directory (existing_dirs : list string)
  (today : datetime) (raised : bool) : string :=
  if raised then "report/monitor_" +:+ strftime_compact today
  else "report/" +:+ format_03d (next_seq existing_dirs) +:+ "_"
       +:+ strftime_compact today.

(** Records of a process with a constant CPU load. *)
Definition ex_constant_records : list json :=
  map save_item [ex_sample 2 0; ex_sample 2 5; ex_sample 2 10].


(** Report directories found by [glob]. *)
Definition ex_dirs : list string :=
  ["report/001_20240101_000000"; "report/007_20240102_000000"].

(** ** The performance report *)

(** [PerformanceReportTemplate.load_data()]: the document read from
    [self.data_file]; [None] is the return value [False] (no file name, a
    file that cannot be opened, text that is not JSON). *)
Definition load_data (data_file : option string) (fs : FileSystem)
  : option json :=
  match data_file with
  | None => None
  | Some f =>
      if String.eqb f "" then None
      else match files fs !! f with
           | Some (Doc j) => Some j
           | _ => None
           end
  end.

(** [os.path.join(d, f)] for a relative name [f]. *)
Definition path_join (d f : string) : string :=
  if String.eqb d "" then f
  else if PyStr.endswith d "/" then d +:+ f
  else d +:+ "/" +:+ f.

(** The name under which [generate_report] writes the report. *)
Definition report_file (report_dir output_file : option string)
  (today : datetime) : string :=
  let default_name :=
    match report_dir with
    | Some d =>
        if String.eqb d ""
        then "performance_report_" +:+ strftime_compact today +:+ ".md"
        else path_join d "performance_report.md"
    | None => "performance_report_" +:+ strftime_compact today +:+ ".md"
    end in
  match output_file with
  | Some f => if String.eqb f "" then default_name else f
  | None => default_name
  end.

Section Report.

(** The square root used by [statistics.stdev], and the text of the report
    built from [self.report_data] (the f-string of [generate_report] with
    the tables of [generate_summary_table], [generate_detailed_analysis]
    and [generate_conclusions]); [None] when building the text raises. *)
Variable sqrt : Q -> Q.
Variable render : list (string * Analysis) -> option string.

(** [PerformanceReportTemplate.generate_report(output_file)]: the returned
    Boolean and the file system afterwards; [None] is an exception that
    leaves the function.  The written report is Markdown text, which is
    not a JSON document. *)
Definition generate_report (data_file report_dir output_file : option string)
  (today : datetime) (fs : FileSystem) : option (bool * FileSystem) :=
  match load_data data_file fs with
  | None => Some (false, fs)
  | Some self_data =>
      match analyze_data sqrt self_data [] with
      | Raised => None
      | Returned false _ => Some (false, fs)
      | Returned true report_data =>
          match report_data with
          | [] => Some (false, fs)
          | (first_process, _) :: _ =>
              if String.eqb first_process "" then Some (false, fs)
              else
                match render report_data with
                | None => None
                | Some _ =>
                    let output := report_file report_dir output_file today in
                    if writable fs output
                    then Some (true,
                               {| files := <[output := Garbage]> (files fs);
                                  writable := writable fs |})
                    else Some (false, fs)
                end
          end
      end
  end.

(** [ProcessMonitor.generate_performance_report(data_file)]; [newest] is
    the most recently created file among those [glob] finds under
    [monitor_data_*.json] in the report directory, if there is one. *)
Definition generate_performance_report (m : Monitor)
  (data_file newest : option string) (today : datetime) (fs : FileSystem)
  : bool * FileSystem :=
  let found_file :=
    match report_dir m with
    | Some d => if String.eqb d "" then None else newest
    | None => None
    end in
  let chosen :=
    match data_file with
    | Some f => if String.eqb f "" then found_file else Some f
    | None => found_file
    end in
  match chosen with
  | None => (false, fs)
  | Some f =>
      match files fs !! f with
      | None => (false, fs)
      | Some _ =>
          match generate_report (Some f) (report_dir m) None today fs with
          | Some result => result
          | None => (false, fs)
          end
      end
  end.

End Report.

(** ** Characters of a string *)

(** Every character of [s] satisfies [P]. *)
Fixpoint all_chars (P : ascii -> bool) (s : string) : bool :=
  match s with
  | EmptyString => true
  | String c r => P c && all_chars P r
  end.

(** The character is not [sep]. *)
Definition other_than (sep c : ascii) : bool := negb (Ascii.eqb c sep).
(** * Properties *)

(** ** The model on concrete inputs *)

Example strip_example : PyStr.strip ("  /usr/bin/foo " +:+ String newline "") = "/usr/bin/foo".
Proof. reflexivity. Qed.

Example int_examples :
  PyStr.int "1234" = Some 1234%Z /\ PyStr.int " -12 " = Some (-12)%Z
  /\ PyStr.int "foo" = None /\ PyStr.int "12a" = None /\ PyStr.int "" = None.
Proof. repeat split; reflexivity. Qed.

Example float_examples :
  PyStr.float "2.0" = Some 2%Q /\ PyStr.float "0.5" = Some (1 # 2)%Q
  /\ PyStr.float "12" = Some 12%Q /\ PyStr.float "2,0" = None
  /\ PyStr.float "." = None.
Proof. repeat split; reflexivity. Qed.

Example words_example :
  PyStr.words "    7     1   2.0 foo  " = ["7"; "1"; "2.0"; "foo"].
Proof. reflexivity. Qed.

Example isoformat_examples :
  isoformat ex_time = "2024-03-09T07:05:00.001500"
  /\ fromisoformat "2024-03-09T07:05:00.001500" = Some ex_time
  /\ fromisoformat "2024-02-30T07:05:00" = None
  /\ fromisoformat "yesterday" = None.
Proof. repeat split; reflexivity. Qed.

Example round2_examples :
  round2 (1 # 8) = (3 # 25)%Q /\ round2 (3 # 8) = (19 # 50)%Q
  /\ round2 (10 # 3) = (333 # 100)%Q /\ round2 (- (1 # 8)) = (- (3 # 25))%Q.
Proof. repeat split; reflexivity. Qed.

(** The [ps] output of the example system parses to [ex_info]; a line with
    too few columns, or with a number that does not parse, gives nothing. *)
Example get_process_info_examples :
  get_process_info ex_world 7 = Some ex_info
  /\ get_process_info ex_world 1234 = None
  /\ parse_process_line "7 1 2.0 0.5 2048" = None
  /\ parse_process_line "7 1 n/a 0.5 2048 4096 00:01 foo" = None.
Proof. repeat split; reflexivity. Qed.

Example find_process_by_name_examples :
  find_process_by_name ex_world "foo" = [7%Z]
  /\ find_process_by_name ex_world "nope" = []
  /\ find_process_by_name ex_world_foobar "foo" = [].
Proof. repeat split; reflexivity. Qed.

(** The samples of one cycle on the example system. *)
Example collect_all_data_example :
  map (fun ts => (fst ts, pid (snd ts), target_name (snd ts), cpu_percent (snd ts)))
      (collect_all_data ex_world ex_monitor)
  = [("foo", JInt 7, JStr "foo", JFloat 2);
     ("1234", JInt 1234, JStr "PID_1234", JFloat 0);
     ("nope", JInt 0, JStr "nope", JFloat 0)].
Proof. reflexivity. Qed.

(** ** Executable verification *)

Section Strings.




End Strings.



(** ** The data store *)

Section Store.

Implicit Types (m : Monitor) (t : string) (s : Sample).

Lemma store_ok_empty m h : store_ok (set_store ∅ h m).
Proof. split; simpl; intros *; rewrite lookup_empty; discriminate. Qed.

Lemma append_sample_fields m t s :
  targets (append_sample t s m) = targets m /\
  monitor_config (append_sample t s m) = monitor_config m /\
  monitoring (append_sample t s m) = monitoring m /\
  report_dir (append_sample t s m) = report_dir m.
Proof. unfold append_sample. now destruct (data m !! t). Qed.

Lemma fresh_not_allocated m t l :
  store_ok m -> data m !! t = Some l -> l <> fresh (dom (heap m)).
Proof.
  intros [Hdom _] Ht ->. apply Hdom in Ht.
  apply elem_of_dom in Ht. now apply is_fresh in Ht.
Qed.

Lemma append_sample_ok m t s : store_ok m -> store_ok (append_sample t s m).
Proof.
  intros Hok. pose proof Hok as [Hdom Hinj]. unfold append_sample.
  destruct (data m !! t) as [l|] eqn:Ht; split; simpl.
  - intros t' l' H. destruct (decide (l = l')) as [->|Hne].
    + rewrite lookup_insert_eq. eauto.
    + rewrite lookup_insert_ne by done. eauto.
  - exact Hinj.
  - intros t' l' H. destruct (decide (t = t')) as [E|Hne].
    + subst t'. rewrite lookup_insert_eq in H. injection H as <-.
      rewrite lookup_insert_eq. eauto.
    + rewrite lookup_insert_ne in H by done.
      rewrite lookup_insert_ne; [eauto|].
      intros <-. now apply (fresh_not_allocated m t' _ Hok H).
  - intros t1 t2 l H1 H2.
    destruct (decide (t = t1)) as [E1|N1], (decide (t = t2)) as [E2|N2];
      try subst t1; try subst t2; try done.
    + rewrite lookup_insert_eq in H1. rewrite lookup_insert_ne in H2 by done.
      injection H1 as <-. now destruct (fresh_not_allocated m t2 _ Hok H2).
    + rewrite lookup_insert_eq in H2. rewrite lookup_insert_ne in H1 by done.
      injection H2 as <-. now destruct (fresh_not_allocated m t1 _ Hok H1).
    + rewrite lookup_insert_ne in H1, H2 by done. eauto.
Qed.

(** Appending to the series of [t] adds the sample at the end of that
    series and leaves the series of every other target as it was. *)
Lemma series_append_sample m t s t' :
  store_ok m ->
  series (append_sample t s m) t' =
  if decide (t = t') then series m t' ++ [s] else series m t'.
Proof.
  intros Hok. pose proof Hok as [Hdom Hinj].
  unfold series, read_series, append_sample, deref.
  destruct (data m !! t) as [l|] eqn:Ht; simpl.
  - case_decide as E.
    + subst t'. rewrite Ht. now rewrite lookup_insert_eq.
    + destruct (data m !! t') as [l'|] eqn:Ht'; [|done].
      rewrite lookup_insert_ne; [done|]. intros ->. eauto.
  - case_decide as E.
    + subst t'. rewrite lookup_insert_eq, Ht. now rewrite lookup_insert_eq.
    + rewrite lookup_insert_ne by done.
      destruct (data m !! t') as [l'|] eqn:Ht'; [|done].
      rewrite lookup_insert_ne; [done|].
      intros <-. now apply (fresh_not_allocated m t' _ Hok Ht').
Qed.

Lemma append_sample_no_empty m t s :
  store_ok m -> no_empty_series m -> no_empty_series (append_sample t s m).
Proof.
  intros Hok Hne t' l' H. unfold append_sample, deref in *.
  destruct (data m !! t) as [l|] eqn:Ht; simpl in *.
  - destruct (decide (l = l')) as [<-|N].
    + rewrite lookup_insert_eq. simpl. now destruct (default [] (heap m !! l)).
    + rewrite lookup_insert_ne by done. eauto.
  - destruct (decide (t = t')) as [E|N].
    + subst t'. rewrite lookup_insert_eq in H. injection H as <-.
      now rewrite lookup_insert_eq.
    + rewrite lookup_insert_ne in H by done.
      rewrite lookup_insert_ne; [eauto|].
      intros <-. now apply (fresh_not_allocated m t' _ Hok H).
Qed.

Lemma no_empty_series_keys m t :
  no_empty_series m -> (is_Some (data m !! t) <-> series m t <> []).
Proof.
  intros Hne. unfold series, read_series. split.
  - intros [l Hl]. rewrite Hl. eauto.
  - destruct (data m !! t); [eauto|done].
Qed.

End Store.

(** ** Ordered dictionaries *)

Section Dict.

Context {V : Type}.
Implicit Types (d : list (string * V)) (k : string) (v : V).

Lemma dict_get_set k v d k' :
  dict_get k' (dict_set k v d) = if decide (k = k') then Some v else dict_get k' d.
Proof.
  induction d as [|[k0 v0] d IH]; simpl.
  - destruct (String.eqb_spec k k'); case_decide; congruence.
  - destruct (String.eqb_spec k0 k) as [->|N]; simpl.
    + destruct (String.eqb_spec k k'); case_decide; congruence.
    + destruct (String.eqb_spec k0 k'); [case_decide; congruence|apply IH].
Qed.

Lemma dict_get_None k d : dict_get k d = None <-> k ∉ d.*1.
Proof.
  induction d as [|[k0 v0] d IH]; simpl.
  - split; [intros _; apply not_elem_of_nil|done].
  - rewrite not_elem_of_cons. destruct (String.eqb_spec k0 k) as [->|N].
    + split; [discriminate|tauto].
    + rewrite IH. split; [intros H; split; [congruence|exact H]|tauto].
Qed.

Lemma dict_set_keys k v d :
  (dict_set k v d).*1 = if decide (k ∈ d.*1) then d.*1 else d.*1 ++ [k].
Proof.
  induction d as [|[k0 v0] d IH].
  - destruct (decide (k ∈ ([] : list (string * V)).*1)) as [E|E]; [|done].
    now apply elem_of_nil in E.
  - cbn [dict_set]. destruct (String.eqb_spec k0 k) as [->|N].
    + now rewrite decide_True by apply list_elem_of_here.
    + rewrite fmap_cons, IH, fmap_cons. cbn [fst].
      destruct (decide (k ∈ d.*1)) as [H|H].
      * now rewrite decide_True by (apply list_elem_of_further; exact H).
      * rewrite decide_False; [done|].
        rewrite elem_of_cons. intros [->|H']; [congruence|contradiction].
Qed.

Lemma dict_set_NoDup k v d : NoDup d.*1 -> NoDup (dict_set k v d).*1.
Proof.
  intros H. rewrite dict_set_keys. case_decide as E; [done|].
  apply NoDup_app. split; [done|]. split; [|apply NoDup_singleton].
  intros x Hx Hk. apply list_elem_of_singleton in Hk. congruence.
Qed.

(** Filling a dictionary with [f t] for the keys [ts], in order. *)
Lemma fold_dict_set (f : string -> V) (ts : list string) d :
  NoDup d.*1 ->
  NoDup (fold_left (fun acc t => dict_set t (f t) acc) ts d).*1 /\
  forall t, dict_get t (fold_left (fun acc t => dict_set t (f t) acc) ts d)
            = if decide (t ∈ ts) then Some (f t) else dict_get t d.
Proof.
  revert d. induction ts as [|t0 ts IH]; intros d Hd; cbn [fold_left].
  - split; [done|]. intros t.
    destruct (decide (t ∈ ([] : list string))) as [E|E]; [|done].
    now apply elem_of_nil in E.
  - destruct (IH (dict_set t0 (f t0) d) (dict_set_NoDup _ _ _ Hd)) as [H1 H2].
    split; [done|]. intros t. rewrite H2, dict_get_set.
    destruct (decide (t ∈ ts)) as [H|H].
    + now rewrite decide_True by (apply list_elem_of_further; exact H).
    + destruct (decide (t0 = t)) as [->|N].
      * now rewrite decide_True by apply list_elem_of_here.
      * rewrite decide_False; [done|].
        rewrite elem_of_cons. intros [->|H']; [congruence|contradiction].
Qed.

End Dict.

(** ** One sampling cycle *)

Section Cycle.

Implicit Types (m : Monitor) (w : World) (t : string).

(** [all_data] has one entry per configured target, the sample collected
    for it, and no other entry. *)
Lemma collect_all_data_spec w m :
  NoDup (collect_all_data w m).*1 /\
  forall t, dict_get t (collect_all_data w m)
            = if decide (t ∈ targets m)
              then Some (sample_for w (monitor_config m) t) else None.
Proof.
  unfold collect_all_data.
  apply (fold_dict_set (sample_for w (monitor_config m)) (targets m) []).
  apply NoDup_nil_2.
Qed.

Lemma store_batch_fields all_data m :
  targets (store_batch all_data m) = targets m /\
  monitor_config (store_batch all_data m) = monitor_config m /\
  monitoring (store_batch all_data m) = monitoring m /\
  report_dir (store_batch all_data m) = report_dir m.
Proof.
  revert m. induction all_data as [|[t s] r IH]; intros m; [done|].
  simpl. destruct (IH (append_sample t s m)) as (-> & -> & -> & ->).
  apply append_sample_fields.
Qed.

(** The batch of a cycle extends the series of every key of [all_data] by
    the sample of that key, and keeps the store well formed. *)
Lemma store_batch_spec all_data m :
  store_ok m -> NoDup all_data.*1 ->
  store_ok (store_batch all_data m) /\
  forall t, series (store_batch all_data m) t
            = series m t ++ match dict_get t all_data with
                            | Some s => [s]
                            | None => []
                            end.
Proof.
  revert m. induction all_data as [|[k s] r IH]; intros m Hok Hnd; simpl.
  - split; [done|]. intros t. now rewrite app_nil_r.
  - apply NoDup_cons in Hnd as [Hk Hnd].
    destruct (IH (append_sample k s m) (append_sample_ok _ _ _ Hok) Hnd)
      as [Hok' Hser].
    split; [done|]. intros t. rewrite Hser, series_append_sample by done.
    destruct (String.eqb_spec k t) as [->|N].
    + rewrite decide_True by done.
      apply dict_get_None in Hk. simpl in Hk. rewrite Hk. now rewrite app_nil_r.
    + now rewrite decide_False by done.
Qed.

Lemma series_set_monitoring b m t : series (set_monitoring b m) t = series m t.
Proof. reflexivity. Qed.

End Cycle.

(** ** The loop *)

Section Loop.

Variables (interval : Q) (duration : option Q) (start : Q).
Implicit Types (w : World) (r : Run) (t : string).

(** Whatever path an iteration takes (normal, display exception, duration
    reached), it stores the batch of the cycle and adds one log entry. *)
Lemma iteration_mon w r :
  exists b, mon (iteration interval duration start w r)
            = set_monitoring b (store_batch (collect_all_data w (mon r)) (mon r)).
Proof.
  unfold iteration.
  assert (E : match collect_all_data w (mon r) with
              | [] => mon r
              | _ => store_batch (collect_all_data w (mon r)) (mon r)
              end = store_batch (collect_all_data w (mon r)) (mon r))
    by now destruct (collect_all_data w (mon r)).
  rewrite E. clear E.
  set (m1 := store_batch _ _).
  assert (Hid : set_monitoring (monitoring m1) m1 = m1) by now destruct m1.
  destruct (display_raises w), (stop_requested w),
    (duration_reached duration start (clock r + elapsed w)); simpl;
    first [ now exists false | exists (monitoring m1); now rewrite Hid ].
Qed.

Lemma iteration_log w r :
  length (log (iteration interval duration start w r)) = S (length (log r)).
Proof.
  unfold iteration.
  destruct (display_raises w),
    (duration_reached duration start (clock r + elapsed w)); simpl;
    rewrite length_app; simpl; lia.
Qed.

Lemma iteration_spec w r :
  store_ok (mon r) ->
  store_ok (mon (iteration interval duration start w r)) /\
  targets (mon (iteration interval duration start w r)) = targets (mon r) /\
  monitor_config (mon (iteration interval duration start w r))
    = monitor_config (mon r) /\
  forall t, series (mon (iteration interval duration start w r)) t
            = series (mon r) t
              ++ (if decide (t ∈ targets (mon r))
                  then [sample_for w (monitor_config (mon r)) t] else []).
Proof.
  intros Hok. destruct (iteration_mon w r) as [b ->].
  destruct (collect_all_data_spec w (mon r)) as [Hnd Hget].
  destruct (store_batch_spec _ _ Hok Hnd) as [Hok' Hser].
  destruct (store_batch_fields (collect_all_data w (mon r)) (mon r))
    as (Ht & Hc & _).
  split; [exact Hok'|]. split; [exact Ht|]. split; [exact Hc|].
  intros t. rewrite series_set_monitoring, Hser, Hget.
  now destruct (decide (t ∈ targets (mon r))).
Qed.

(** Invariant of the loop: the store is well formed and the series of
    every configured target has one sample per logged iteration. *)
Lemma loop_aligned (ws : list World) r :
  store_ok (mon r) ->
  (forall t, t ∈ targets (mon r) -> length (series (mon r) t) = length (log r)) ->
  store_ok (mon (loop interval duration start ws r)) /\
  targets (mon (loop interval duration start ws r)) = targets (mon r) /\
  forall t, t ∈ targets (mon r) ->
            length (series (mon (loop interval duration start ws r)) t)
            = length (log (loop interval duration start ws r)).
Proof.
  revert r. induction ws as [|w ws IH]; intros r Hok Hlen; simpl; [done|].
  destruct (monitoring (mon r)); [|done].
  destruct (iteration_spec w r Hok) as (Hok' & Ht & _ & Hser).
  assert (Hlen' : forall t,
             t ∈ targets (mon (iteration interval duration start w r)) ->
             length (series (mon (iteration interval duration start w r)) t)
             = length (log (iteration interval duration start w r))).
  { intros t Hin. rewrite Ht in Hin.
    rewrite Hser, decide_True, length_app, iteration_log, Hlen by done.
    simpl. lia. }
  destruct (IH _ Hok' Hlen') as (H1 & H2 & H3).
  split; [exact H1|]. split; [now rewrite H2|].
  intros t Hin. apply H3. now rewrite Ht.
Qed.


End Loop.


(** ** The textual encoding of timestamps *)

Section Isoformat.

Lemma digit_char_is_digit (d : N) :
  (d < 10)%N ->
  PyStr.is_digit (digit_char d) = true /\ (N_of_ascii (digit_char d) - 48 = d)%N.
Proof.
  intros H.
  assert (E : d = 0%N \/ d = 1%N \/ d = 2%N \/ d = 3%N \/ d = 4%N \/ d = 5%N
              \/ d = 6%N \/ d = 7%N \/ d = 8%N \/ d = 9%N) by lia.
  repeat (destruct E as [-> | E]; [now vm_compute|]). subst d. now vm_compute.
Qed.

Lemma append_cons (c : ascii) (s r : string) :
  String c s +:+ r = String c (s +:+ r).
Proof. reflexivity. Qed.

Lemma append_empty_l (r : string) : "" +:+ r = r.
Proof. reflexivity. Qed.

Lemma read_digits_step (k : nat) (acc : N) (c : ascii) (r : string) :
  read_digits (S k) acc (String c r) =
  if PyStr.is_digit c then read_digits k (10 * acc + (N_of_ascii c - 48)) r
  else None.
Proof. reflexivity. Qed.

(** Reading back [k] digits written by [pad]. *)
Lemma read_digits_pad (k : nat) (n acc : N) (rest : string) :
  read_digits k acc (pad k n +:+ rest)
  = Some ((acc * 10 ^ N.of_nat k + n mod 10 ^ N.of_nat k)%N, rest).
Proof.
  revert acc. induction k as [|k IH]; intros acc.
  - cbn [pad read_digits]. rewrite append_empty_l. f_equal. f_equal.
    change (10 ^ N.of_nat 0)%N with 1%N. rewrite N.mod_1_r. lia.
  - cbn [pad]. rewrite append_cons, read_digits_step.
    destruct (digit_char_is_digit ((n / 10 ^ N.of_nat k) mod 10)) as [-> ->].
    { apply N.mod_lt. lia. }
    rewrite IH. f_equal. f_equal.
    replace (N.of_nat (S k)) with (N.succ (N.of_nat k)) by lia.
    rewrite N.pow_succ_r'.
    rewrite (N.mul_comm 10 (10 ^ N.of_nat k)).
    rewrite (N.Div0.mod_mul_r n (10 ^ N.of_nat k) 10). lia.
Qed.

Lemma read_padded (k : nat) (n : N) (rest : string) :
  (n < 10 ^ N.of_nat k)%N ->
  read_digits k 0 (pad k n +:+ rest) = Some (n, rest).
Proof.
  intros H. rewrite read_digits_pad. f_equal. f_equal.
  rewrite N.mod_small by exact H. lia.
Qed.

Lemma append_empty_r (s : string) : s +:+ "" = s.
Proof.
  induction s as [|c s IH]; [reflexivity|]. now rewrite append_cons, IH.
Qed.

Lemma valid_datetime_bounds (t : datetime) :
  valid_datetime t = true ->
  (year t < 10 ^ N.of_nat 4 /\ month t < 10 ^ N.of_nat 2 /\ day t < 10 ^ N.of_nat 2
   /\ hour t < 10 ^ N.of_nat 2 /\ minute t < 10 ^ N.of_nat 2
   /\ second t < 10 ^ N.of_nat 2 /\ microsecond t < 10 ^ N.of_nat 6)%N.
Proof.
  unfold valid_datetime. rewrite !andb_true_iff, !N.leb_le, !N.ltb_lt.
  intros H. decompose [and] H.
  assert (Hd : (days_in_month (year t) (month t) <= 31)%N).
  { unfold days_in_month.
    repeat match goal with |- context [if ?b then _ else _] => destruct b end; lia. }
  change (10 ^ N.of_nat 4)%N with 10000%N.
  change (10 ^ N.of_nat 2)%N with 100%N.
  change (10 ^ N.of_nat 6)%N with 1000000%N.
  lia.
Qed.

(** After a field has been read: consume the one-character separator that
    follows it. *)
Ltac skip_separator :=
  cbn [mbind option_bind];
  rewrite append_cons, append_empty_l;
  cbn [expect skip_char mbind option_bind];
  rewrite ?Ascii.eqb_refl;
  cbn [mbind option_bind].

(** Parsing the encoding of a timestamp gives the timestamp back. *)
Lemma fromisoformat_isoformat (t : datetime) :
  valid_datetime t = true -> fromisoformat (isoformat t) = Some t.
Proof.
  intros Hv.
  destruct (valid_datetime_bounds t Hv) as (Hy & Hmo & Hd & Hh & Hmi & Hs & Hus).
  unfold fromisoformat, isoformat.
  rewrite (read_padded 4 _ _ Hy). skip_separator.
  rewrite (read_padded 2 _ _ Hmo). skip_separator.
  rewrite (read_padded 2 _ _ Hd). skip_separator.
  rewrite (read_padded 2 _ _ Hh). skip_separator.
  rewrite (read_padded 2 _ _ Hmi). skip_separator.
  rewrite (read_padded 2 _ _ Hs). cbn [mbind option_bind].
  destruct (N.eqb_spec (microsecond t) 0) as [E|E].
  - cbn [mbind option_bind]. destruct t; simpl in *. subst. now rewrite Hv.
  - skip_separator.
    rewrite <- (append_empty_r (pad 6 (microsecond t))).
    rewrite (read_padded 6 _ _ Hus). cbn [mbind option_bind].
    destruct t; simpl in *. now rewrite Hv.
Qed.

End Isoformat.

(** ** Saving and loading *)

Section Persistence.

Local Arguments fromisoformat : simpl never.
Local Arguments isoformat : simpl never.

Implicit Types (m : Monitor) (t : string) (s : Sample).

(** A saved record is read back as the sample it was made from: every
    field has its value again and an optional field that was absent is
    absent. *)
Lemma load_item_save_item s :
  valid_datetime (timestamp s) = true -> load_item (save_item s) = Some s.
Proof.
  intros Hv. destruct s as [ts a1 a2 a3 a4 a5 a6 a7 a8 a9 a10 a11 a12 fd th].
  simpl in Hv. unfold load_item, save_item.
  destruct fd, th; simpl; rewrite (fromisoformat_isoformat ts Hv); reflexivity.
Qed.

Lemma load_items_saved t (ss : list Sample) m :
  store_ok m ->
  Forall (fun s => valid_datetime (timestamp s) = true) ss ->
  exists m', load_items t (map save_item ss) m = (true, m') /\ store_ok m' /\
    (no_empty_series m -> no_empty_series m') /\
    forall t', series m' t' = if decide (t = t') then series m t' ++ ss
                              else series m t'.
Proof.
  revert m. induction ss as [|s ss IH]; intros m Hok Hv; simpl.
  - exists m. split; [done|]. split; [done|]. split; [done|]. intros t'.
    case_decide; [now rewrite app_nil_r|done].
  - apply Forall_cons in Hv as [Hs Hv]. rewrite (load_item_save_item s Hs).
    destruct (IH (append_sample t s m) (append_sample_ok _ _ _ Hok) Hv)
      as (m' & -> & Hok' & Hne & Hser).
    exists m'. split; [done|]. split; [done|].
    split; [intros H; now apply Hne, append_sample_no_empty|]. intros t'.
    rewrite Hser, series_append_sample by done.
    case_decide; [now rewrite <- app_assoc|done].
Qed.

Lemma load_members_saved (kvs : list (string * list Sample)) m :
  store_ok m -> NoDup kvs.*1 ->
  Forall (fun kv => Forall (fun s => valid_datetime (timestamp s) = true) (snd kv)) kvs ->
  exists m',
    load_members (map (fun kv => (fst kv, JArr (map save_item (snd kv)))) kvs) m
    = (true, m') /\ store_ok m' /\
    (no_empty_series m -> no_empty_series m') /\
    forall t, series m' t = series m t ++ default [] (dict_get t kvs).
Proof.
  revert m. induction kvs as [|[k ss] kvs IH]; intros m Hok Hnd Hv; simpl.
  - exists m. split; [done|]. split; [done|]. split; [done|].
    intros t. now rewrite app_nil_r.
  - apply NoDup_cons in Hnd as [Hk Hnd]. apply Forall_cons in Hv as [Hs Hv].
    destruct (load_items_saved k ss m Hok Hs) as (m1 & -> & Hok1 & Hne1 & Hser1).
    destruct (IH m1 Hok1 Hnd Hv) as (m' & -> & Hok' & Hne' & Hser).
    exists m'. split; [done|]. split; [done|]. split; [auto|]. intros t.
    rewrite Hser, Hser1. destruct (String.eqb_spec k t) as [->|N].
    + rewrite decide_True by done. simpl in Hk.
      apply dict_get_None in Hk. rewrite Hk. simpl. now rewrite app_nil_r.
    + now rewrite decide_False by done.
Qed.

Lemma dict_get_elem {V : Type} (l : list (string * V)) (k : string) (v : V) :
  NoDup l.*1 -> (k, v) ∈ l -> dict_get k l = Some v.
Proof.
  induction l as [|[k0 v0] l IH]; intros Hnd Hin.
  - now apply elem_of_nil in Hin.
  - apply NoDup_cons in Hnd as [Hk Hnd]. apply elem_of_cons in Hin as [E|Hin]; simpl.
    + injection E as <- <-. now rewrite String.eqb_refl.
    + destruct (String.eqb_spec k0 k) as [->|N]; [|auto].
      destruct Hk. apply list_elem_of_fmap. now exists (k, v).
Qed.

Lemma dict_get_map_to_list {V : Type} (d : gmap string V) (k : string) :
  dict_get k (map_to_list d) = d !! k.
Proof.
  destruct (d !! k) as [v|] eqn:E.
  - apply dict_get_elem; [apply NoDup_fst_map_to_list|].
    now apply elem_of_map_to_list.
  - apply dict_get_None. intros Hin. apply list_elem_of_fmap in Hin as ([k' v] & -> & Hin).
    apply elem_of_map_to_list in Hin. simpl in E. congruence.
Qed.

Lemma dict_get_fmap {V W : Type} (f : V -> W) (l : list (string * V)) (k : string) :
  dict_get k (map (fun kv => (fst kv, f (snd kv))) l) = f <$> dict_get k l.
Proof.
  induction l as [|[k0 v0] l IH]; simpl; [done|].
  now destruct (String.eqb k0 k).
Qed.

Lemma fst_map_pair {V W : Type} (f : V -> W) (l : list (string * V)) :
  (map (fun kv => (fst kv, f (snd kv))) l).*1 = l.*1.
Proof.
  induction l as [|[k v] l IH]; [done|].
  cbn [map]. rewrite !fmap_cons. cbn [fst]. now rewrite IH.
Qed.

(** The document written by [save_data_to_file] is read back by the loops
    of [load_data_from_file] into a store with the same series. *)
Lemma load_members_data_to_save m m0 :
  store_ok m -> timestamps_ok m -> store_ok m0 ->
  exists m', load_members (data_to_save m) m0 = (true, m') /\ store_ok m' /\
    (no_empty_series m0 -> no_empty_series m') /\
    forall t, series m' t = series m0 t ++ series m t.
Proof.
  intros Hok Hts Hok0. unfold data_to_save.
  set (kvs := map (fun tl => (fst tl, deref (heap m) (snd tl))) (map_to_list (data m))).
  assert (E : map (fun tl => (fst tl, JArr (map save_item (deref (heap m) (snd tl)))))
                  (map_to_list (data m))
              = map (fun kv => (fst kv, JArr (map save_item (snd kv)))) kvs).
  { unfold kvs. rewrite map_map. reflexivity. }
  rewrite E. clear E.
  assert (Hget : forall t, default [] (dict_get t kvs) = series m t).
  { intros t. unfold kvs. rewrite dict_get_fmap, dict_get_map_to_list.
    unfold series, read_series. now destruct (data m !! t). }
  destruct (load_members_saved kvs m0 Hok0) as (m' & H1 & H2 & Hne & H3).
  - unfold kvs. rewrite fst_map_pair. apply NoDup_fst_map_to_list.
  - apply Forall_forall. intros [k ss] Hin. simpl.
    apply Forall_forall. intros s Hs. apply (Hts k).
    rewrite <- Hget. rewrite (dict_get_elem kvs k ss); [exact Hs| |exact Hin].
    unfold kvs. rewrite fst_map_pair. apply NoDup_fst_map_to_list.
  - exists m'. split; [done|]. split; [done|]. split; [done|].
    intros t. now rewrite H3, Hget.
Qed.

End Persistence.

(** C3. Saving the store and loading the written file back, into any
    monitor, succeeds and yields the same series for every target: the
    samples are equal as records, so every field has the value it had
    (the timestamp through its textual encoding), and [fd_count] and
    [thread_count] are absent exactly where they were absent. *)
Theorem save_load_round_trip
  (today : datetime) (filename : option string) (m m2 : Monitor)
  (fs fs' : FileSystem) (name : string) :
  store_ok m -> timestamps_ok m ->
  save_data_to_file today filename m fs = (Some name, fs') ->
  exists m', load_data_from_file name m2 fs' = (true, m') /\
    (forall t, series m' t = series m t) /\
    (forall t, is_Some (data m' !! t) <-> series m t <> []) /\
    (forall t i s, series m t !! i = Some s ->
       exists s', series m' t !! i = Some s' /\ s' = s /\
         (fd_count s = None -> fd_count s' = None) /\
         (thread_count s = None -> thread_count s' = None)).
Proof.
  intros Hok Hts. unfold save_data_to_file.
  set (nm := match match filename with
                   | Some f => if String.eqb f "" then None else Some f
                   | None => None
                   end with
             | Some f => f
             | None => _
             end).
  destruct (writable fs nm); [|discriminate]. intros [= <- <-].
  unfold load_data_from_file. simpl. rewrite lookup_insert_eq.
  destruct (load_members_data_to_save m (set_store ∅ (heap m2) m2) Hok Hts)
    as (m' & H1 & _ & Hne & H3).
  { apply store_ok_empty. }
  exists m'. split; [exact H1|].
  assert (Hser : forall t, series m' t = series m t).
  { intros t. rewrite H3. unfold series at 1, read_series. simpl.
    now rewrite lookup_empty. }
  split; [exact Hser|]. split.
  - intros t. rewrite <- Hser. apply no_empty_series_keys, Hne.
    intros t' l'. simpl. rewrite lookup_empty. discriminate.
  - intros t i s Hs. exists s. rewrite Hser. auto.
Qed.

(** ** Sleeping between cycles *)

Section Sleep.

Variables (interval : Q) (duration : option Q) (start : Q).
Implicit Types (w : World) (r : Run).



End Sleep.



(** ** Zero-valued samples *)




(** ** Snapshots *)

Section Snapshot.

Implicit Types (m : Monitor) (t : string).

Lemma append_sample_keeps_refs m t' s t l :
  data m !! t = Some l -> data (append_sample t' s m) !! t = Some l.
Proof.
  intros H. unfold append_sample.
  destruct (data m !! t') eqn:E; simpl; [done|].
  rewrite lookup_insert_ne; [done|]. intros ->. congruence.
Qed.

Lemma store_batch_keeps_refs all_data m t l :
  data m !! t = Some l -> data (store_batch all_data m) !! t = Some l.
Proof.
  revert m. induction all_data as [|[k s] r IH]; intros m H; simpl; [done|].
  apply IH. now apply append_sample_keeps_refs.
Qed.

(** The dictionary returned by [get_data] shares its list objects with the
    store: a series read through it after a further iteration shows the
    sample appended by that iteration. *)
Lemma snapshot_aliases_store
  (interval : Q) (duration : option Q) (start : Q) (w : World) (r : Run) t :
  store_ok (mon r) -> is_Some (get_data (mon r) !! t) ->
  read_series (get_data (mon r))
              (heap (mon (iteration interval duration start w r))) t
  = read_series (get_data (mon r)) (heap (mon r)) t
    ++ (if decide (t ∈ targets (mon r))
        then [sample_for w (monitor_config (mon r)) t] else []).
Proof.
  intros Hok [l Hl]. unfold get_data in *.
  destruct (iteration_spec interval duration start w r Hok) as (_ & _ & _ & Hser).
  specialize (Hser t).
  destruct (iteration_mon interval duration start w r) as [b Hb].
  unfold series in Hser. rewrite <- Hser.
  unfold read_series. rewrite Hl, Hb. simpl.
  now rewrite (store_batch_keeps_refs _ _ _ _ Hl).
Qed.

End Snapshot.

(** C4 (as the code has it). [get_data] copies the top-level dictionary
    only.  A target that is not a key of the snapshot stays absent from it
    whatever the sampler stores later; but the series of the snapshot are
    the list objects of the store, so after a further cycle every series
    of the snapshot that belongs to a configured target shows the sample
    appended by that cycle, and the other series are unchanged. *)
Theorem snapshot_shares_series
  (interval : Q) (duration : option Q) (start : Q) (w : World) (r : Run)
  (t : string) :
  store_ok (mon r) ->
  (get_data (mon r) !! t = None ->
   read_series (get_data (mon r))
               (heap (mon (iteration interval duration start w r))) t = [])
  /\ (is_Some (get_data (mon r) !! t) ->
      read_series (get_data (mon r))
                  (heap (mon (iteration interval duration start w r))) t
      = read_series (get_data (mon r)) (heap (mon r)) t
        ++ (if decide (t ∈ targets (mon r))
            then [sample_for w (monitor_config (mon r)) t] else [])).
Proof.
  intros Hok. split.
  - intros H. unfold read_series. now rewrite H.
  - now apply snapshot_aliases_store.
Qed.

(** C4, counterexample to the claim as stated: the snapshot taken after
    the first cycle holds one sample for "foo"; read again once the
    sampler has appended the samples of the second cycle, the same
    snapshot holds two. *)
Lemma snapshot_sees_later_append :
  length (read_series (get_data (mon ex_after_1)) (heap (mon ex_after_1)) "foo") = 1%nat
  /\ length (read_series (get_data (mon ex_after_1)) (heap (mon ex_after_2)) "foo") = 2%nat.
Proof. split; reflexivity. Qed.

(** ** Failures of saving and loading *)

Section LoadFailure.

Lemma load_items_true t (items : list json) (m m' : Monitor) :
  load_items t items m = (true, m') ->
  Forall (fun item => is_Some (load_item item)) items.
Proof.
  revert m. induction items as [|item items IH]; intros m H; simpl in H.
  - constructor.
  - destruct (load_item item) eqn:E; [|discriminate].
    constructor; [eauto|]. eapply IH, H.
Qed.

Lemma load_members_true (members : list (string * json)) (m m' : Monitor) :
  load_members members m = (true, m') ->
  Forall (fun kv => exists items, iterate (snd kv) = Some items /\
                      Forall (fun item => is_Some (load_item item)) items)
         members.
Proof.
  revert m. induction members as [|[t v] members IH]; intros m H; simpl in H.
  - constructor.
  - destruct (iterate v) as [items|] eqn:E; [|discriminate].
    destruct (load_items t items m) as [[] m1] eqn:E1; [|discriminate].
    constructor; [|eapply IH, H].
    exists items. split; [exact E|]. eapply load_items_true, E1.
Qed.

End LoadFailure.

(** C9 (as the code has it). A failed save returns no file name and leaves
    the file system as it was ([save_data_to_file] only reads the store);
    a load from a file that is missing or is not JSON returns [False] and
    leaves the monitor exactly as it was; and a load returns [True] only
    when every record of the document was converted. *)
Theorem persistence_failures_are_explicit :
  (forall today filename m fs,
      fst (save_data_to_file today filename m fs) = None ->
      snd (save_data_to_file today filename m fs) = fs)
  /\ (forall name m fs,
         files fs !! name = None \/ files fs !! name = Some Garbage ->
         load_data_from_file name m fs = (false, m))
  /\ (forall name m fs m',
         load_data_from_file name m fs = (true, m') ->
         exists j, files fs !! name = Some (Doc j) /\ loadable j).
Proof.
  split; [|split].
  - intros today filename m fs. unfold save_data_to_file.
    now destruct (writable fs _).
  - intros name m fs [H|H]; unfold load_data_from_file; now rewrite H.
  - intros name m fs m'. unfold load_data_from_file.
    destruct (files fs !! name) as [[j|]|]; try discriminate.
    destruct j as [| | | | | |members]; try discriminate.
    intros H. exists (JObj members). split; [done|].
    exists members. split; [done|]. eapply load_members_true, H.
Qed.

(** C9, counterexample to the claim as stated: the store holds one sample
    for "foo"; loading a file whose only record has no fields returns
    [False], and the series of "foo" is empty afterwards. *)
Lemma failed_load_clears_store :
  length (series (mon ex_after_1) "foo") = 1%nat
  /\ fst (load_data_from_file "bad.json" (mon ex_after_1) ex_bad_files) = false
  /\ series (snd (load_data_from_file "bad.json" (mon ex_after_1) ex_bad_files)) "foo"
     = [].
Proof. split; [reflexivity|]. split; reflexivity. Qed.

(** ** Statistics *)

Section Statistics.

Lemma round2_spec (x : Q) : rounded_to_2 x (round2 x).
Proof.
  exists (round_half_even (x * 100)). split.
  - unfold round2. apply Qred_correct.
  - unfold round_half_even.
    pose proof (Qfloor_le (x * 100)) as Hlo.
    pose proof (Qlt_floor (x * 100)) as Hhi.
    rewrite inject_Z_plus in Hhi. change (inject_Z 1) with 1%Q in Hhi.
    destruct (Qcompare_spec (x * 100 - inject_Z (Qfloor (x * 100))) (1 # 2))
      as [E|E|E].
    + destruct (Z.even (Qfloor (x * 100)));
        rewrite ?inject_Z_plus; change (inject_Z 1) with 1%Q; lra.
    + lra.
    + rewrite inject_Z_plus. change (inject_Z 1) with 1%Q. lra.
Qed.

Lemma fold_max_spec (r : list Q) (x : Q) :
  let hi := fold_left (fun m y => if Qle_bool y m then m else y) r x in
  hi ∈ x :: r /\ forall y, y ∈ x :: r -> (y <= hi)%Q.
Proof.
  revert x. induction r as [|z r IH]; intros x; simpl.
  - split; [apply list_elem_of_here|].
    intros y Hy. apply list_elem_of_singleton in Hy. subst. lra.
  - destruct (Qle_bool z x) eqn:E.
    + apply Qle_bool_iff in E. destruct (IH x) as [H1 H2]. split.
      * apply elem_of_cons in H1 as [->|H1];
          [apply list_elem_of_here|do 2 apply list_elem_of_further; exact H1].
      * intros y Hy. apply elem_of_cons in Hy as [->|Hy];
          [apply H2, list_elem_of_here|].
        apply elem_of_cons in Hy as [->|Hy].
        -- pose proof (H2 x (list_elem_of_here _ _)). lra.
        -- apply H2, list_elem_of_further, Hy.
    + assert (x < z)%Q.
      { destruct (Qlt_le_dec x z) as [|Hle]; [done|].
        apply Qle_bool_iff in Hle. congruence. }
      destruct (IH z) as [H1 H2]. split.
      * apply list_elem_of_further, H1.
      * intros y Hy. apply elem_of_cons in Hy as [->|Hy].
        -- pose proof (H2 z (list_elem_of_here _ _)). lra.
        -- apply H2, Hy.
Qed.

Lemma fold_min_spec (r : list Q) (x : Q) :
  let lo := fold_left (fun m y => if Qle_bool m y then m else y) r x in
  lo ∈ x :: r /\ forall y, y ∈ x :: r -> (lo <= y)%Q.
Proof.
  revert x. induction r as [|z r IH]; intros x; simpl.
  - split; [apply list_elem_of_here|].
    intros y Hy. apply list_elem_of_singleton in Hy. subst. lra.
  - destruct (Qle_bool x z) eqn:E.
    + apply Qle_bool_iff in E. destruct (IH x) as [H1 H2]. split.
      * apply elem_of_cons in H1 as [->|H1];
          [apply list_elem_of_here|do 2 apply list_elem_of_further; exact H1].
      * intros y Hy. apply elem_of_cons in Hy as [->|Hy];
          [apply H2, list_elem_of_here|].
        apply elem_of_cons in Hy as [->|Hy].
        -- pose proof (H2 x (list_elem_of_here _ _)). lra.
        -- apply H2, list_elem_of_further, Hy.
    + assert (z < x)%Q.
      { destruct (Qlt_le_dec z x) as [|Hle]; [done|].
        apply Qle_bool_iff in Hle. congruence. }
      destruct (IH z) as [H1 H2]. split.
      * apply list_elem_of_further, H1.
      * intros y Hy. apply elem_of_cons in Hy as [->|Hy].
        -- pose proof (H2 z (list_elem_of_here _ _)). lra.
        -- apply H2, Hy.
Qed.

Variable sqrt : Q -> Q.

(** What [metric_stats] returns when it returns. *)
Lemma metric_stats_spec (vs : list json) (st : MetricStats) :
  metric_stats sqrt vs = Some st ->
  exists xs, mapM as_number vs = Some xs /\ stats_of sqrt xs st /\ st_data st = vs.
Proof.
  unfold metric_stats. destruct (mapM as_number vs) as [xs|]; [|discriminate].
  simpl. destruct xs as [|x r]; [discriminate|]. simpl.
  intros [= <-]. exists (x :: r). split; [done|]. split; [|done].
  split; [done|]. simpl. split; [apply round2_spec|].
  destruct (fold_max_spec r x) as [M1 M2]. destruct (fold_min_spec r x) as [N1 N2].
  split; [eexists; split; [exact M1|]; split; [exact M2|apply round2_spec]|].
  split; [eexists; split; [exact N1|]; split; [exact N2|apply round2_spec]|].
  destruct r as [|y r]; simpl; [reflexivity|apply round2_spec].
Qed.

(** A list of numbers that is not empty always has its statistics. *)
Lemma metric_stats_numbers (vs : list json) :
  vs <> [] -> Forall (fun v => is_number v = true) vs ->
  is_Some (metric_stats sqrt vs).
Proof.
  intros Hne Hall. unfold metric_stats.
  assert (H : is_Some (mapM as_number vs)).
  { apply mapM_is_Some. eapply Forall_impl; [exact Hall|].
    intros v Hv. unfold is_number in Hv. simpl.
    destruct (as_number v); [eauto|discriminate]. }
  destruct H as [xs Hxs]. rewrite Hxs. simpl.
  assert (Hlen : length vs = length xs) by (eapply length_mapM; exact Hxs).
  destruct xs as [|x r]; [destruct vs; [done|discriminate]|]. simpl. eauto.
Qed.

End Statistics.

(** ** The analysis of one target *)

Section AnalyzeTarget.

Variable sqrt : Q -> Q.

(** Destructs the first bind of a hypothesis [x ≫= f = Some _]. *)
Ltac invert_bind H :=
  match type of H with
  | mbind _ ?x = Some _ =>
      let E := fresh "E" in
      destruct x eqn:E; cbn [mbind option_bind] in H; [|discriminate H]
  end.

(** The pieces an analysis that returned was computed from. *)
Lemma analyze_target_inv (name : string) (items : list json) (a : Analysis) :
  analyze_target sqrt name items = Some a ->
  items <> [] /\ data_points a = length items /\
  (exists vs, column "cpu_percent" items = Some vs
              /\ metric_stats sqrt vs = Some (cpu a)) /\
  (exists vs, column "memory_percent" items = Some vs
              /\ metric_stats sqrt vs = Some (a_memory_percent a)) /\
  (exists vs, column "memory_mb" items = Some vs
              /\ metric_stats sqrt vs = Some (a_memory_mb a)) /\
  (exists xs ys, column_default "disk_read_bytes" items = Some xs
                 /\ column_default "disk_write_bytes" items = Some ys
                 /\ optional_pair sqrt xs ys = Some (disk_io a)) /\
  (exists xs ys, column_default "network_rx_bytes" items = Some xs
                 /\ column_default "network_tx_bytes" items = Some ys
                 /\ optional_pair sqrt xs ys = Some (network_io a)) /\
  (exists xs ys, column_default "voluntary_switches" items = Some xs
                 /\ column_default "involuntary_switches" items = Some ys
                 /\ optional_pair sqrt xs ys = Some (context_switches a)) /\
  (exists xs, column_default "thread_count" items = Some xs
              /\ optional_single sqrt xs = Some (a_thread_count a)).
Proof.
  unfold analyze_target. intros H.
  do 26 invert_bind H. injection H as <-. simpl.
  split; [now destruct items|]. split; [done|].
  repeat split; eauto.
Qed.

End AnalyzeTarget.

Section Groups.

Variable sqrt : Q -> Q.

(** A number is true exactly when it is not zero. *)
Lemma truthy_number (v : json) (q : Q) :
  as_number v = Some q -> (truthy v = true <-> ~ (q == 0)%Q).
Proof.
  destruct v as [|b|z|x| | |]; try discriminate; simpl; intros [= <-].
  - destruct b; split; intros H.
    + intros E. discriminate E.
    + reflexivity.
    + discriminate H.
    + now destruct H.
  - rewrite negb_true_iff, Z.eqb_neq. unfold Qeq. simpl. lia.
  - rewrite negb_true_iff. rewrite <- not_true_iff_false, Qeq_bool_iff. tauto.
Qed.

(** A value read with [item.get(k, 0)] that is a number and true is a
    number different from zero stored under [k]. *)
Lemma get_default_nonzero (k : string) (item v : json) (q : Q) :
  get_default item k (JInt 0) = Some v -> as_number v = Some q ->
  truthy v = true -> nonzero_at k item.
Proof.
  intros Hg Hq Ht. destruct item; try discriminate. simpl in Hg.
  destruct (dict_get k members) as [v'|] eqn:E; simpl in Hg; injection Hg as <-.
  - exists v', q. split; [exact E|]. split; [exact Hq|].
    now apply (truthy_number v' q Hq).
  - discriminate.
Qed.

Lemma nonzero_get_default (k : string) (item v : json) :
  get_default item k (JInt 0) = Some v -> nonzero_at k item -> truthy v = true.
Proof.
  intros Hg (v' & q & Hs & Hq & Hne). destruct item; try discriminate.
  simpl in Hg, Hs. rewrite Hs in Hg. injection Hg as <-.
  now apply (truthy_number v' q Hq).
Qed.

(** [any] of a column of numbers holds exactly when some record holds a
    number different from zero under the key. *)
Lemma any_column_default (k : string) (items vs : list json) (qs : list Q) :
  column_default k items = Some vs -> mapM as_number vs = Some qs ->
  any vs = true -> Exists (nonzero_at k) items.
Proof.
  unfold column_default, any. intros Hc Hn.
  apply mapM_Some in Hc. apply mapM_Some in Hn. revert qs Hn.
  induction Hc as [|item v items vs Hv Hc IH]; intros qs Hn; [discriminate|].
  inversion Hn as [|? q ? qs' Hq Hn']; subst. simpl.
  rewrite orb_true_iff. intros [Ht|Ht].
  - left. eapply get_default_nonzero; eauto.
  - right. eapply IH; eauto.
Qed.

Lemma column_default_any (k : string) (items vs : list json) :
  column_default k items = Some vs ->
  Exists (nonzero_at k) items -> any vs = true.
Proof.
  unfold column_default, any. intros Hc. apply mapM_Some in Hc.
  induction Hc as [|item v items vs Hv Hc IH]; intros Hex.
  - now apply Exists_nil in Hex.
  - simpl. apply orb_true_iff. apply Exists_cons in Hex as [H|H].
    + left. eapply nonzero_get_default; eauto.
    + right. now apply IH.
Qed.

(** A group of one metric is present exactly when a record holds a
    non-zero number for it. *)
Lemma optional_single_present (k : string) (items xs : list json)
  (g : option MetricStats) :
  column_default k items = Some xs -> optional_single sqrt xs = Some g ->
  (is_Some g <-> Exists (nonzero_at k) items).
Proof.
  intros Hc. unfold optional_single. destruct (any xs) eqn:Ha.
  - destruct (metric_stats sqrt xs) as [st|] eqn:Hs; [|discriminate].
    simpl. intros [= <-]. split; [intros _|eauto].
    destruct (metric_stats_spec sqrt xs st Hs) as (qs & Hq & _).
    eapply any_column_default; eauto.
  - intros [= <-]. split; [intros [? [=]]|].
    intros Hex. rewrite (column_default_any k items xs Hc Hex) in Ha.
    discriminate.
Qed.

(** A group of two metrics is present exactly when a record holds a
    non-zero number for one of them. *)
Lemma optional_pair_present (k1 k2 : string) (items xs ys : list json)
  (g : option (MetricStats * MetricStats)) :
  column_default k1 items = Some xs -> column_default k2 items = Some ys ->
  optional_pair sqrt xs ys = Some g ->
  (is_Some g <->
   Exists (fun item => nonzero_at k1 item \/ nonzero_at k2 item) items).
Proof.
  intros Hx Hy. unfold optional_pair.
  destruct (any xs || any ys) eqn:Ha.
  - destruct (metric_stats sqrt xs) as [sx|] eqn:Hsx; [|discriminate]. simpl.
    destruct (metric_stats sqrt ys) as [sy|] eqn:Hsy; [|discriminate]. simpl.
    intros [= <-]. split; [intros _|eauto].
    destruct (metric_stats_spec sqrt xs sx Hsx) as (qx & Hqx & _).
    destruct (metric_stats_spec sqrt ys sy Hsy) as (qy & Hqy & _).
    apply orb_true_iff in Ha as [Ha|Ha].
    + eapply Exists_impl; [eapply (any_column_default k1); eauto|].
      intros item Hnz. now left.
    + eapply Exists_impl; [eapply (any_column_default k2); eauto|].
      intros item Hnz. now right.
  - intros [= <-]. split; [intros [? [=]]|].
    apply orb_false_iff in Ha as [Hax Hay]. intros Hex.
    apply Exists_exists in Hex as (item & Hin & [Hnz|Hnz]).
    + rewrite (column_default_any k1 items xs Hx) in Hax; [discriminate|].
      apply Exists_exists. eauto.
    + rewrite (column_default_any k2 items ys Hy) in Hay; [discriminate|].
      apply Exists_exists. eauto.
Qed.

End Groups.

(** ** The analysis never fails on well-formed documents *)

Section Total.

Variable sqrt : Q -> Q.

Lemma well_formed_record_facts (item : json) :
  well_formed_record item = true ->
  (exists members, item = JObj members)
  /\ (exists s t, subscript item "timestamp" = Some (JStr s)
                  /\ fromisoformat s = Some t)
  /\ (number_at "cpu_percent" item = true
      /\ number_at "memory_percent" item = true
      /\ number_at "memory_mb" item = true)
  /\ (has_key item "pid" = true /\ has_key item "command" = true
      /\ has_key item "args" = true /\ has_key item "rss_kb" = true
      /\ has_key item "vsz_kb" = true)
  /\ (number_or_absent_at "disk_read_bytes" item = true
      /\ number_or_absent_at "disk_write_bytes" item = true
      /\ number_or_absent_at "network_rx_bytes" item = true
      /\ number_or_absent_at "network_tx_bytes" item = true
      /\ number_or_absent_at "voluntary_switches" item = true
      /\ number_or_absent_at "involuntary_switches" item = true
      /\ number_or_absent_at "thread_count" item = true).
Proof.
  destruct item as [| | | | | |members]; try discriminate.
  unfold well_formed_record. rewrite !andb_true_iff. intros H.
  decompose [and] H. clear H.
  split; [eauto|]. split; [|tauto].
  destruct (subscript (JObj members) "timestamp") as [[| | | |s| |]|];
    try discriminate.
  destruct (fromisoformat s) as [t|] eqn:E; [eauto|discriminate].
Qed.

Lemma timestamps_total (items : list json) :
  Forall (fun item => well_formed_record item = true) items ->
  exists ts, timestamps_of items = Some ts /\ length ts = length items.
Proof.
  intros H.
  assert (S : is_Some (timestamps_of items)).
  { apply mapM_is_Some. eapply Forall_impl; [exact H|]. intros item Hw. simpl.
    destruct (well_formed_record_facts item Hw) as (_ & (s & t & -> & E) & _).
    simpl. rewrite E. eauto. }
  destruct S as [ts E]. exists ts. split; [exact E|].
  symmetry. eapply length_mapM, E.
Qed.

Lemma column_total (k : string) (items : list json) :
  Forall (fun item => number_at k item = true) items ->
  exists vs, column k items = Some vs
             /\ Forall (fun v => is_number v = true) vs
             /\ length vs = length items.
Proof.
  induction 1 as [|item items Hn _ (vs & Hc & Hv & Hl)].
  - exists []. repeat split; constructor.
  - unfold number_at in Hn.
    destruct (subscript item k) as [v|] eqn:E; [|discriminate].
    exists (v :: vs). unfold column in *. split.
    + apply mapM_Some. constructor; [exact E|now apply mapM_Some].
    + split; [now constructor|simpl; congruence].
Qed.

Lemma column_default_total (k : string) (items : list json) :
  Forall (fun item => (exists members, item = JObj members)
                      /\ number_or_absent_at k item = true) items ->
  exists vs, column_default k items = Some vs
             /\ Forall (fun v => is_number v = true) vs
             /\ length vs = length items.
Proof.
  induction 1 as [|item items [[members ->] Hn] _ (vs & Hc & Hv & Hl)].
  - exists []. repeat split; constructor.
  - unfold number_or_absent_at in Hn. simpl in Hn.
    exists (default (JInt 0) (dict_get k members) :: vs).
    unfold column_default in *. split.
    + apply mapM_Some. constructor; [reflexivity|now apply mapM_Some].
    + split; [|simpl; congruence]. constructor; [|exact Hv].
      now destruct (dict_get k members).
Qed.

Lemma metric_stats_total (vs : list json) (n : nat) :
  Forall (fun v => is_number v = true) vs -> length vs = S n ->
  is_Some (metric_stats sqrt vs).
Proof.
  intros Hv Hl. apply metric_stats_numbers; [|exact Hv]. now destruct vs.
Qed.

Lemma optional_pair_total (xs ys : list json) :
  is_Some (metric_stats sqrt xs) -> is_Some (metric_stats sqrt ys) ->
  is_Some (optional_pair sqrt xs ys).
Proof.
  intros [sx Hx] [sy Hy]. unfold optional_pair. rewrite Hx, Hy. simpl.
  destruct (any xs || any ys); eauto.
Qed.

Lemma optional_single_total (xs : list json) :
  is_Some (metric_stats sqrt xs) -> is_Some (optional_single sqrt xs).
Proof.
  intros [sx Hx]. unfold optional_single. rewrite Hx. simpl.
  destruct (any xs); eauto.
Qed.

Lemma has_key_subscript (item : json) (k : string) :
  has_key item k = true -> is_Some (subscript item k).
Proof. unfold has_key. destruct (subscript item k); [eauto|discriminate]. Qed.

(** Rewrites the head of a chain of binds with a known result. *)
Ltac step E := rewrite E; cbn [mbind option_bind].

(** A non-empty list of well-formed records is always analysed. *)
Lemma analyze_target_total (name : string) (items : list json) :
  items <> [] ->
  Forall (fun item => well_formed_record item = true) items ->
  is_Some (analyze_target sqrt name items).
Proof.
  intros Hne Hwf.
  destruct items as [|first rest] eqn:Eitems; [done|]. rewrite <- Eitems in *.
  assert (Hlen : length items = S (length rest)) by now rewrite Eitems.
  assert (Hfacts : Forall (fun item => _) items)
    by (eapply Forall_impl; [exact Hwf|exact well_formed_record_facts]).
  destruct (timestamps_total items Hwf) as (ts & Ets & Lts).
  assert (Hcol : forall k, k = "cpu_percent" \/ k = "memory_percent" \/ k = "memory_mb" ->
             exists vs, column k items = Some vs /\ is_Some (metric_stats sqrt vs)).
  { intros k Hk. destruct (column_total k items) as (vs & Hc & Hv & Hl).
    - eapply Forall_impl; [exact Hfacts|]. simpl. intros item Hi.
      destruct Hi as (_ & _ & (? & ? & ?) & _).
      destruct Hk as [->|[->| ->]]; assumption.
    - exists vs. split; [exact Hc|].
      eapply metric_stats_total; [exact Hv|]. now rewrite Hl, Hlen. }
  assert (Hopt : forall k,
             k = "disk_read_bytes" \/ k = "disk_write_bytes"
             \/ k = "network_rx_bytes" \/ k = "network_tx_bytes"
             \/ k = "voluntary_switches" \/ k = "involuntary_switches"
             \/ k = "thread_count" ->
             exists vs, column_default k items = Some vs
                        /\ is_Some (metric_stats sqrt vs)).
  { intros k Hk. destruct (column_default_total k items) as (vs & Hc & Hv & Hl).
    - eapply Forall_impl; [exact Hfacts|]. simpl. intros item Hi.
      destruct Hi as (Hobj & _ & _ & _ & (? & ? & ? & ? & ? & ? & ?)).
      split; [exact Hobj|].
      destruct Hk as [->|[->|[->|[->|[->|[->| ->]]]]]]; assumption.
    - exists vs. split; [exact Hc|].
      eapply metric_stats_total; [exact Hv|]. now rewrite Hl, Hlen. }
  destruct (Hcol "cpu_percent") as (v1 & C1 & [s1 S1]); [tauto|].
  destruct (Hcol "memory_percent") as (v2 & C2 & [s2 S2]); [tauto|].
  destruct (Hcol "memory_mb") as (v3 & C3 & [s3 S3]); [tauto|].
  destruct (Hopt "disk_read_bytes") as (o1 & D1 & M1); [tauto|].
  destruct (Hopt "disk_write_bytes") as (o2 & D2 & M2); [tauto|].
  destruct (Hopt "network_rx_bytes") as (o3 & D3 & M3); [tauto|].
  destruct (Hopt "network_tx_bytes") as (o4 & D4 & M4); [tauto|].
  destruct (Hopt "voluntary_switches") as (o5 & D5 & M5); [tauto|].
  destruct (Hopt "involuntary_switches") as (o6 & D6 & M6); [tauto|].
  destruct (Hopt "thread_count") as (o7 & D7 & M7); [tauto|].
  destruct (optional_pair_total o1 o2 M1 M2) as [g1 G1].
  destruct (optional_pair_total o3 o4 M3 M4) as [g2 G2].
  destruct (optional_pair_total o5 o6 M5 M6) as [g3 G3].
  destruct (optional_single_total o7 M7) as [g4 G4].
  assert (Hfirst : well_formed_record first = true).
  { rewrite Eitems in Hwf. now apply Forall_cons in Hwf as [? _]. }
  destruct (well_formed_record_facts first Hfirst)
    as (_ & _ & _ & (K1 & K2 & K3 & K4 & K5) & _).
  destruct (has_key_subscript _ _ K1) as [p1 P1].
  destruct (has_key_subscript _ _ K2) as [p2 P2].
  destruct (has_key_subscript _ _ K3) as [p3 P3].
  destruct (has_key_subscript _ _ K4) as [p4 P4].
  destruct (has_key_subscript _ _ K5) as [p5 P5].
  assert (Hts : ts <> []).
  { intros ->. rewrite Hlen in Lts. discriminate Lts. }
  destruct (proj2 (head_is_Some ts) Hts) as [tf Tf].
  destruct (proj2 (last_is_Some ts) Hts) as [tl Tl].
  unfold analyze_target.
  step Ets. step C1. step C2. step C3.
  step D1. step D2. step D3. step D4. step D5. step D6. step D7.
  rewrite Eitems at 1. cbn [head mbind option_bind].
  step P1. step P2. step P3. step Tf. step Tl. step S1. step S2. step S3.
  step P4. step P5. step G1. step G2. step G3. step G4. eauto.
Qed.

(** The loop over the targets of a well-formed document returns, with an
    entry for every target whose list of records is not empty, and for no
    other target. *)
Lemma analyze_members_total (members : list (string * json))
  (rd : list (string * Analysis)) :
  well_formed_members members ->
  exists report, analyze_members sqrt members rd = Returned true report /\
    forall name, is_Some (dict_get name report) <->
                 (is_Some (dict_get name rd) \/
                  exists items, (name, JArr items) ∈ members /\ items <> []).
Proof.
  revert rd. induction members as [|[k v] members IH]; intros rd Hwf.
  - exists rd. split; [reflexivity|]. intros name. split; [tauto|].
    intros [H|(items & Hin & _)]; [exact H|]. now apply elem_of_nil in Hin.
  - apply Forall_cons in Hwf as [(items & Hv & Hitems) Hwf]. simpl in Hv. subst v.
    cbn [analyze_members]. destruct items as [|item items].
    + simpl. destruct (IH rd Hwf) as (report & -> & Hrep).
      exists report. split; [reflexivity|]. intros name. rewrite Hrep.
      split; (intros [H|(its & Hin & Hne)]; [now left|right]).
      * exists its. split; [now apply list_elem_of_further|exact Hne].
      * apply elem_of_cons in Hin as [[= E1 E2]|Hin]; [congruence|eauto].
    + cbn [truthy negb iterate].
      destruct (analyze_target_total k (item :: items)) as [a Ha];
        [done|exact Hitems|].
      rewrite Ha. destruct (IH (dict_set k a rd) Hwf) as (report & -> & Hrep).
      exists report. split; [reflexivity|]. intros name.
      rewrite Hrep, dict_get_set. destruct (decide (k = name)) as [->|N].
      * split; [intros _|eauto]. right. exists (item :: items).
        split; [apply list_elem_of_here|done].
      * split; (intros [H|(its & Hin & Hne)]; [now left|right]).
        -- exists its. split; [now apply list_elem_of_further|exact Hne].
        -- apply elem_of_cons in Hin as [[= E1 E2]|Hin]; [congruence|eauto].
Qed.

End Total.

(** C7. Every non-empty series of well-formed records is analysed, and in
    the analysis of a series each optional group (disk I/O, network I/O,
    context switches, thread count) is present if and only if some record
    of the series holds a non-zero number for a metric of the group;
    otherwise the group is absent.  The configuration of the monitor is
    not an input of the analysis. *)
Theorem optional_groups_present_iff_nonzero :
  (forall (sqrt : Q -> Q) (name : string) (items : list json),
      items <> [] ->
      Forall (fun item => well_formed_record item = true) items ->
      is_Some (analyze_target sqrt name items))
  /\ (forall (sqrt : Q -> Q) (name : string) (items : list json) (a : Analysis),
      analyze_target sqrt name items = Some a ->
      (is_Some (disk_io a) <->
       Exists (fun item => nonzero_at "disk_read_bytes" item
                           \/ nonzero_at "disk_write_bytes" item) items)
      /\ (is_Some (network_io a) <->
          Exists (fun item => nonzero_at "network_rx_bytes" item
                              \/ nonzero_at "network_tx_bytes" item) items)
      /\ (is_Some (context_switches a) <->
          Exists (fun item => nonzero_at "voluntary_switches" item
                              \/ nonzero_at "involuntary_switches" item) items)
      /\ (is_Some (a_thread_count a) <->
          Exists (nonzero_at "thread_count") items)
      /\ ((forall item, item ∈ items -> ~ nonzero_at "thread_count" item) ->
          a_thread_count a = None)).
Proof.
  split; [exact analyze_target_total|].
  intros sqrt name items a H.
  destruct (analyze_target_inv sqrt name items a H)
    as (_ & _ & _ & _ & _ & (dr & dw & Hdr & Hdw & Hd) & (nr & nt & Hnr & Hnt & Hn)
        & (vs & ivs & Hvs & Hivs & Hv) & (th & Hth & Ht)).
  pose proof (optional_single_present sqrt _ _ _ _ Hth Ht) as Hthread.
  split; [eapply optional_pair_present; eauto|].
  split; [eapply optional_pair_present; eauto|].
  split; [eapply optional_pair_present; eauto|].
  split; [exact Hthread|].
  intros Hnone. destruct (a_thread_count a) as [st|]; [|done].
  assert (Hex : Exists (nonzero_at "thread_count") items) by (apply Hthread; eauto).
  apply Exists_exists in Hex as (item & Hin & Hnz).
  now destruct (Hnone item Hin).
Qed.




(** C10 (as the code has it). A target whose list of records is empty is
    skipped, whatever the rest of the document holds; and for every
    document that is not empty and maps its targets to lists of well-formed
    records, [analyze_data] returns [True] with an entry for exactly the
    targets whose list is not empty. *)
Theorem analysis_skips_empty_series :
  (forall (sqrt : Q -> Q) (name : string) (rest : list (string * json))
          (rd : list (string * Analysis)),
      analyze_members sqrt ((name, JArr []) :: rest) rd
      = analyze_members sqrt rest rd)
  /\ (forall (sqrt : Q -> Q) (members : list (string * json))
             (rd : list (string * Analysis)),
         well_formed_members members -> members <> [] ->
         exists report,
           analyze_data sqrt (JObj members) rd = Returned true report /\
           forall name, is_Some (dict_get name report) <->
                        exists items, (name, JArr items) ∈ members /\ items <> []).
Proof.
  split.
  - reflexivity.
  - intros sqrt members rd Hwf Hne. unfold analyze_data.
    destruct members as [|m ms] eqn:E; [done|]. cbn [truthy negb].
    rewrite <- E in *.
    destruct (analyze_members_total sqrt members [] Hwf) as (report & -> & Hrep).
    exists report. split; [reflexivity|]. intros name. rewrite Hrep.
    split; [intros [[? [=]]|H]; exact H|eauto].
Qed.

(** C10, counterexample to the claim as stated: the empty document parses
    and the analysis returns [False] on it; the document [{"foo": [{}]}]
    parses and the analysis raises on it. *)
Lemma analysis_can_fail :
  (forall sqrt : Q -> Q, analyze_data sqrt (JObj []) [] = Returned false [])
  /\ (forall sqrt : Q -> Q,
         analyze_data sqrt (JObj [("foo", JArr [JObj []])]) [] = Raised).
Proof. split; reflexivity. Qed.

(** ** Stores reached by the loop *)

Section Reachable.

Variables (interval : Q) (duration : option Q) (start : Q).

Lemma sample_for_timestamp (w : World) (cfg : Config) (t : string) :
  timestamp (sample_for w cfg t) = now w t.
Proof.
  unfold sample_for, collect_data_for_target.
  destruct (unexpected w t); [reflexivity|].
  destruct (PyStr.int t) as [p|].
  - now destruct (get_process_info w p).
  - destruct (find_process_by_name w t) as [|p ps]; [reflexivity|].
    now destruct (get_process_info w p).
Qed.

Lemma loop_store_ok (ws : list World) (r : Run) :
  store_ok (mon r) -> store_ok (mon (loop interval duration start ws r)).
Proof.
  revert r. induction ws as [|w ws IH]; intros r Hok; simpl; [done|].
  destruct (monitoring (mon r)); [|done].
  apply IH. now apply iteration_spec.
Qed.

(** The loop stores valid timestamps as long as the clock gives valid
    ones. *)
Lemma loop_timestamps_ok (ws : list World) (r : Run) :
  store_ok (mon r) -> timestamps_ok (mon r) ->
  Forall (fun w => forall t, valid_datetime (now w t) = true) ws ->
  timestamps_ok (mon (loop interval duration start ws r)).
Proof.
  revert r. induction ws as [|w ws IH]; intros r Hok Hts Hws; simpl; [done|].
  destruct (monitoring (mon r)); [|done].
  apply Forall_cons in Hws as [Hw Hws].
  destruct (iteration_spec interval duration start w r Hok) as (Hok' & _ & _ & Hser).
  apply IH; [exact Hok'| |exact Hws].
  intros t s Hs. rewrite Hser in Hs. apply elem_of_app in Hs as [Hs|Hs].
  - now apply (Hts t).
  - destruct (decide (t ∈ targets (mon r))); [|now apply elem_of_nil in Hs].
    apply list_elem_of_singleton in Hs. subst s.
    rewrite sample_for_timestamp. apply Hw.
Qed.

End Reachable.

Lemma ex_start_ok : store_ok (mon ex_start) /\ timestamps_ok (mon ex_start).
Proof.
  split.
  - split; simpl; intros *; rewrite lookup_empty; discriminate.
  - intros t s Hs. unfold series, read_series in Hs. simpl in Hs.
    rewrite lookup_empty in Hs. now apply elem_of_nil in Hs.
Qed.

Lemma ex_after_1_ok : store_ok (mon ex_after_1) /\ timestamps_ok (mon ex_after_1).
Proof.
  destruct ex_start_ok as [H1 H2]. split.
  - now apply loop_store_ok.
  - apply loop_timestamps_ok; [exact H1|exact H2|].
    repeat constructor.
Qed.

(** * Instances of the theorems at concrete inputs *)



(** The store after one cycle, saved under the default name and loaded
    into a fresh monitor. *)
Lemma save_load_round_trip_witness :
  fst (save_data_to_file ex_time None (mon ex_after_1) ex_files)
  = Some "report/001_20240309_070500/monitor_data_20240309_070500.json"
  /\ exists m',
       load_data_from_file
         "report/001_20240309_070500/monitor_data_20240309_070500.json"
         ex_monitor
         (snd (save_data_to_file ex_time None (mon ex_after_1) ex_files))
       = (true, m')
       /\ (forall t, series m' t = series (mon ex_after_1) t)
       /\ (forall t, is_Some (data m' !! t) <-> series (mon ex_after_1) t <> [])
       /\ (forall t i s, series (mon ex_after_1) t !! i = Some s ->
             exists s', series m' t !! i = Some s' /\ s' = s /\
               (fd_count s = None -> fd_count s' = None) /\
               (thread_count s = None -> thread_count s' = None)).
Proof.
  split; [reflexivity|].
  apply (save_load_round_trip ex_time None (mon ex_after_1) ex_monitor ex_files
           (snd (save_data_to_file ex_time None (mon ex_after_1) ex_files))).
  - exact (proj1 ex_after_1_ok).
  - exact (proj2 ex_after_1_ok).
  - reflexivity.
Defined.



(** The records of [foo] carry a thread count of 0 throughout: the
    analysis has no thread-count group. *)
Lemma optional_groups_present_iff_nonzero_witness :
  exists a, analyze_target ex_sqrt "foo" ex_records = Some a
    /\ (is_Some (a_thread_count a) <-> Exists (nonzero_at "thread_count") ex_records)
    /\ a_thread_count a = None.
Proof.
  destruct (analyze_target ex_sqrt "foo" ex_records) as [a|] eqn:E;
    [|vm_compute in E; discriminate E].
  exists a. split; [reflexivity|].
  pose proof (proj2 optional_groups_present_iff_nonzero
                    ex_sqrt "foo" ex_records a E) as (_ & _ & _ & H & _).
  split; [exact H|].
  vm_compute in E. injection E as <-. reflexivity.
Defined.


(** The snapshot taken after the first cycle, read after the second. *)
Lemma snapshot_shares_series_witness :
  is_Some (get_data (mon ex_after_1) !! "foo")
  /\ read_series (get_data (mon ex_after_1))
                 (heap (mon (iteration 5 None 0 ex_world ex_after_1))) "foo"
     = read_series (get_data (mon ex_after_1)) (heap (mon ex_after_1)) "foo"
       ++ (if decide ("foo" ∈ targets (mon ex_after_1))
           then [sample_for ex_world (monitor_config (mon ex_after_1)) "foo"]
           else []).
Proof.
  assert (H : is_Some (get_data (mon ex_after_1) !! "foo"))
    by (vm_compute; eauto).
  split; [exact H|].
  exact (proj2 (snapshot_shares_series 5 None 0 ex_world ex_after_1 "foo"
                  (proj1 ex_after_1_ok)) H).
Defined.

(** Loading a file that does not exist. *)
Lemma persistence_failures_are_explicit_witness :
  files ex_files !! "missing.json" = None
  /\ load_data_from_file "missing.json" (mon ex_after_1) ex_files
     = (false, mon ex_after_1).
Proof.
  split; [reflexivity|].
  apply (proj1 (proj2 persistence_failures_are_explicit)). left. reflexivity.
Defined.

Lemma ex_document_well_formed : well_formed_members ex_document.
Proof.
  repeat constructor; eexists; (split; [reflexivity|]); repeat constructor.
Qed.

(** A document with a target that has records and one that has none. *)
Lemma analysis_skips_empty_series_witness :
  exists report,
    analyze_data ex_sqrt (JObj ex_document) [] = Returned true report /\
    forall name, is_Some (dict_get name report) <->
                 exists items, (name, JArr items) ∈ ex_document /\ items <> [].
Proof.
  apply (proj2 analysis_skips_empty_series ex_sqrt ex_document []).
  - exact ex_document_well_formed.
  - discriminate.
Defined.

(** * Further properties of the sampler *)

Section Session.

Variables (interval : Q) (duration : option Q) (start : Q).
Implicit Types (w : World) (r : Run) (t : string).

Lemma loop_stopped (ws : list World) r :
  monitoring (mon r) = false -> loop interval duration start ws r = r.
Proof. intros H. destruct ws; simpl; [done|]. now rewrite H. Qed.



(** Every sample of a series after the loop was there before, or is the
    sample collected for that target in one of the cycles. *)
Lemma loop_samples (ws : list World) r t (s : Sample) :
  store_ok (mon r) ->
  s ∈ series (mon (loop interval duration start ws r)) t ->
  s ∈ series (mon r) t \/
  (t ∈ targets (mon r) /\
   exists w, w ∈ ws /\ s = sample_for w (monitor_config (mon r)) t).
Proof.
  revert r. induction ws as [|w ws IH]; intros r Hok Hs; simpl in Hs; [now left|].
  destruct (monitoring (mon r)); [|now left].
  destruct (iteration_spec interval duration start w r Hok) as (Hok' & Ht & Hc & Hser).
  destruct (IH _ Hok' Hs) as [H|(Hin & w' & Hw' & ->)].
  - rewrite Hser in H. apply elem_of_app in H as [H|H]; [now left|].
    destruct (decide (t ∈ targets (mon r))) as [Hin|]; [|now apply elem_of_nil in H].
    apply list_elem_of_singleton in H. right. split; [exact Hin|].
    exists w. split; [apply list_elem_of_here|exact H].
  - right. rewrite Ht in Hin. split; [exact Hin|].
    exists w'. split; [now apply list_elem_of_further|now rewrite Hc].
Qed.

End Session.

Lemma sample_for_fields (w : World) (cfg : Config) (t : string) :
  target (sample_for w cfg t) = JStr t
  /\ (is_Some (fd_count (sample_for w cfg t)) <-> cfg_file_descriptors cfg = true)
  /\ (is_Some (thread_count (sample_for w cfg t)) <-> cfg_thread_count cfg = true).
Proof.
  assert (Hopt : forall (b : bool) (v : json),
             is_Some (if b then Some v else None) <-> b = true).
  { intros [] v; split; intros H; eauto; done. }
  unfold sample_for, collect_data_for_target.
  destruct (unexpected w t); [simpl; auto|].
  destruct (PyStr.int t) as [p|].
  - destruct (get_process_info w p); simpl; auto.
  - destruct (find_process_by_name w t) as [|p ps]; [simpl; auto|].
    destruct (get_process_info w p); simpl; auto.
Qed.

Lemma start_monitoring_inv (dir : string) (t0 : Q) (m : Monitor) (r0 : Run) :
  start_monitoring dir t0 m = Some r0 ->
  store_ok (mon r0) /\ targets (mon r0) = targets m
  /\ monitor_config (mon r0) = monitor_config m
  /\ monitoring (mon r0) = true /\ data (mon r0) = ∅
  /\ clock r0 = t0 /\ sample_count r0 = O /\ log r0 = [].
Proof.
  unfold start_monitoring. destruct (monitoring m); [discriminate|].
  intros [= <-]. simpl. repeat split; try done.
  all: intros *; rewrite lookup_empty; discriminate.
Qed.

(** X1. After a monitoring session only configured targets have samples,
    and every stored sample names the target under which it is stored and
    was collected in one of the cycles. *)
Theorem stored_samples_belong_to_their_target
  (dir : string) (t0 interval : Q) (duration : option Q)
  (m : Monitor) (ws : list World) (r0 : Run) (t : string) (s : Sample) :
  start_monitoring dir t0 m = Some r0 ->
  s ∈ series (mon (monitor_loop interval duration ws r0)) t ->
  t ∈ targets m /\ target s = JStr t
  /\ exists w, w ∈ ws /\ s = sample_for w (monitor_config m) t.
Proof.
  intros Hstart Hs.
  destruct (start_monitoring_inv _ _ _ _ Hstart) as (Hok & Ht & Hc & _ & Hd & _).
  unfold monitor_loop in Hs.
  destruct (loop_samples interval duration (clock r0) ws r0 t s Hok Hs)
    as [H|(Hin & w & Hw & ->)].
  - unfold series, read_series in H. rewrite Hd, lookup_empty in H.
    now apply elem_of_nil in H.
  - rewrite Ht in Hin. rewrite Hc. split; [exact Hin|].
    split; [apply sample_for_fields|eauto].
Qed.

(** X2. All samples stored in a session have the same optional fields:
    [fd_count] is present exactly when file-descriptor monitoring is
    enabled and [thread_count] exactly when thread monitoring is enabled,
    for real and for zero-valued samples alike. *)
Theorem optional_fields_follow_configuration
  (dir : string) (t0 interval : Q) (duration : option Q)
  (m : Monitor) (ws : list World) (r0 : Run) (t : string) (s : Sample) :
  start_monitoring dir t0 m = Some r0 ->
  s ∈ series (mon (monitor_loop interval duration ws r0)) t ->
  (is_Some (fd_count s) <-> cfg_file_descriptors (monitor_config m) = true)
  /\ (is_Some (thread_count s) <-> cfg_thread_count (monitor_config m) = true).
Proof.
  intros Hstart Hs.
  destruct (start_monitoring_inv _ _ _ _ Hstart) as (Hok & Ht & Hc & _ & Hd & _).
  unfold monitor_loop in Hs.
  destruct (loop_samples interval duration (clock r0) ws r0 t s Hok Hs)
    as [H|(Hin & w & Hw & ->)].
  - unfold series, read_series in H. rewrite Hd, lookup_empty in H.
    now apply elem_of_nil in H.
  - rewrite Hc. apply sample_for_fields.
Qed.

Section Counting.

Variables (interval : Q) (duration : option Q) (start : Q).
Implicit Types (w : World) (r : Run).

Lemma collect_all_data_nil w (m : Monitor) :
  collect_all_data w m = [] <-> targets m = [].
Proof.
  split.
  - intros E. destruct (targets m) as [|t ts] eqn:Et; [done|].
    destruct (collect_all_data_spec w m) as [_ H]. specialize (H t).
    rewrite E, Et, decide_True in H by apply list_elem_of_here. discriminate.
  - intros E. unfold collect_all_data. now rewrite E.
Qed.

Lemma iteration_monitoring w r :
  monitoring (mon (iteration interval duration start w r))
  = monitoring (mon r) && negb (stop_requested w)
    && (display_raises w
        || negb (duration_reached duration start (clock r + elapsed w))).
Proof.
  unfold iteration.
  assert (E : monitoring (match collect_all_data w (mon r) with
                          | [] => mon r
                          | _ => store_batch (collect_all_data w (mon r)) (mon r)
                          end) = monitoring (mon r)).
  { destruct (collect_all_data w (mon r)) as [|p l]; [done|].
    now destruct (store_batch_fields (p :: l) (mon r)) as (_ & _ & -> & _). }
  destruct (display_raises w), (stop_requested w),
    (duration_reached duration start (clock r + elapsed w)); simpl;
    rewrite ?E; now destruct (monitoring (mon r)).
Qed.

Lemma iteration_counts w r :
  sample_count (iteration interval duration start w r)
  = if display_raises w then sample_count r
    else match targets (mon r) with
         | [] => sample_count r
         | _ => S (sample_count r)
         end.
Proof.
  unfold iteration. destruct (display_raises w); [done|].
  destruct (collect_all_data w (mon r)) as [|p l] eqn:E.
  - apply collect_all_data_nil in E. rewrite E.
    now destruct (duration_reached duration start (clock r + elapsed w)).
  - destruct (targets (mon r)) as [|t ts] eqn:Et.
    + apply (collect_all_data_nil w) in Et. congruence.
    + now destruct (duration_reached duration start (clock r + elapsed w)).
Qed.

(** The loop executes a prefix of the worlds; [sample_count] grows by one
    for each executed cycle whose display did not raise, when there is a
    target to sample. *)
Lemma loop_counts (ws : list World) r :
  store_ok (mon r) ->
  exists n, (n <= length ws)%nat
    /\ length (log (loop interval duration start ws r)) = (length (log r) + n)%nat
    /\ sample_count (loop interval duration start ws r)
       = (sample_count r
          + match targets (mon r) with
            | [] => O
            | _ => length (filter (fun w => display_raises w = false) (take n ws))
            end)%nat.
Proof.
  revert r. induction ws as [|w ws IH]; intros r Hok; simpl.
  - exists O. repeat split; try lia. destruct (targets (mon r)); simpl; lia.
  - destruct (monitoring (mon r)).
    + destruct (iteration_spec interval duration start w r Hok) as (Hok' & Ht & _).
      destruct (IH _ Hok') as (n & Hn & Hlog & Hcount).
      exists (S n). split; [lia|]. rewrite Hlog, Hcount, iteration_log.
      split; [lia|]. rewrite iteration_counts, Ht. simpl.
      destruct (targets (mon r)); [now destruct (display_raises w)|].
      rewrite filter_cons. destruct (display_raises w); simpl; lia.
    + exists O. repeat split; try lia. destruct (targets (mon r)); simpl; lia.
Qed.

End Counting.

(** X3. The number of samples announced at the end of a session is the
    number of executed cycles whose live display completed: a cycle whose
    display raised has stored its samples but is not counted, and with no
    configured target nothing is counted and nothing is stored. *)
Theorem sample_count_counts_displayed_cycles
  (dir : string) (t0 interval : Q) (duration : option Q)
  (m : Monitor) (ws : list World) (r0 : Run) :
  start_monitoring dir t0 m = Some r0 ->
  (sample_count (monitor_loop interval duration ws r0)
   <= length (log (monitor_loop interval duration ws r0)))%nat
  /\ (targets m <> [] ->
      sample_count (monitor_loop interval duration ws r0)
      = length (filter (fun w => display_raises w = false)
                       (take (length (log (monitor_loop interval duration ws r0))) ws)))
  /\ (targets m = [] ->
      sample_count (monitor_loop interval duration ws r0) = O
      /\ forall t, series (mon (monitor_loop interval duration ws r0)) t = []).
Proof.
  intros Hstart.
  destruct (start_monitoring_inv _ _ _ _ Hstart)
    as (Hok & Ht & _ & _ & Hd & _ & Hc & Hl).
  unfold monitor_loop.
  destruct (loop_counts interval duration (clock r0) ws r0 Hok)
    as (n & Hn & Hlog & Hcount).
  rewrite Hl in Hlog. simpl in Hlog. rewrite Hc, Ht in Hcount. simpl in Hcount.
  rewrite Hlog, Hcount. split; [|split].
  - destruct (targets m); [lia|].
    etransitivity; [apply length_filter|]. rewrite length_take. lia.
  - intros Hne. now destruct (targets m).
  - intros E. rewrite E. split; [done|]. intros t.
    destruct (series (mon (loop interval duration (clock r0) ws r0)) t)
      as [|s l] eqn:Es; [done|].
    destruct (loop_samples interval duration (clock r0) ws r0 t s Hok)
      as [H|(Hin & _)].
    + rewrite Es. apply list_elem_of_here.
    + unfold series, read_series in H. rewrite Hd, lookup_empty in H.
      now apply elem_of_nil in H.
    + rewrite Ht, E in Hin. now apply elem_of_nil in Hin.
Qed.

Section Termination.

Variables (interval : Q) (start : Q).
Implicit Types (w : World) (r : Run).

Lemma iteration_clock (duration : option Q) w r :
  display_raises w = false ->
  duration_reached duration start (clock r + elapsed w) = false ->
  clock (iteration interval duration start w r)
  = (clock r + elapsed w + interval)%Q.
Proof. intros Hd Hr. unfold iteration. now rewrite Hd, Hr. Qed.

Lemma inject_succ (k : nat) :
  (inject_Z (Z.of_nat (S k)) == inject_Z (Z.of_nat k) + 1)%Q.
Proof. rewrite Nat2Z.inj_succ, <- Z.add_1_r, inject_Z_plus. reflexivity. Qed.

(** With a duration [d], cycles that take no negative time and whose
    display does not raise: once [k] intervals have gone by the loop ends
    by itself at the latest after the cycle that sees [K * interval >= d]. *)
Lemma loop_reaches_duration (d : Q) (K : nat) (ws : list World) :
  (0 < d)%Q -> (0 <= interval)%Q ->
  (d <= inject_Z (Z.of_nat K) * interval)%Q ->
  forall r k,
    (k <= K)%nat -> (K < k + length ws)%nat ->
    (start + inject_Z (Z.of_nat k) * interval <= clock r)%Q ->
    Forall (fun w => (0 <= elapsed w)%Q /\ display_raises w = false) ws ->
    monitoring (mon r) = true ->
    monitoring (mon (loop interval (Some d) start ws r)) = false
    /\ (length (log (loop interval (Some d) start ws r))
        <= length (log r) + (K + 1 - k))%nat.
Proof.
  intros Hd Hi HK. induction ws as [|w ws IH]; intros r k Hk Hlen Hclock Hws Hm.
  - simpl in Hlen. lia.
  - simpl. rewrite Hm. apply Forall_cons in Hws as [[He Hdisp] Hws].
    pose proof (iteration_monitoring interval (Some d) start w r) as Hmon.
    pose proof (iteration_log interval (Some d) start w r) as Hlog.
    rewrite Hm, Hdisp in Hmon. cbn [andb orb] in Hmon.
    destruct (duration_reached (Some d) start (clock r + elapsed w)) eqn:Hr.
    + cbn [negb] in Hmon. rewrite andb_false_r in Hmon.
      rewrite loop_stopped by exact Hmon.
      split; [exact Hmon|]. rewrite Hlog. lia.
    + cbn [negb] in Hmon. rewrite andb_true_r in Hmon.
      assert (Hlt : ~ (d <= clock r + elapsed w - start)%Q).
      { intros Hle. unfold duration_reached in Hr.
        apply Qle_bool_iff in Hle. rewrite Hle, andb_true_r in Hr.
        apply negb_false_iff, Qeq_bool_iff in Hr. lra. }
      assert (Hk' : (k < K)%nat).
      { destruct (decide (k = K)) as [->|]; [|lia]. lra. }
      destruct (stop_requested w).
      * simpl in Hmon. rewrite loop_stopped by exact Hmon.
        split; [exact Hmon|]. rewrite Hlog. lia.
      * simpl in Hmon.
        destruct (IH (iteration interval (Some d) start w r) (S k)) as [H1 H2];
          try done; try (simpl in Hlen; lia).
        -- rewrite (iteration_clock (Some d) w r Hdisp Hr), inject_succ. lra.
        -- split; [exact H1|]. rewrite Hlog in H2. lia.
Qed.


End Termination.

(** X4. A session with a duration ends by itself: when the cycles take no
    negative time and their display does not raise, the loop has stopped
    after at most [K + 1] cycles, [K] being any number of intervals that
    covers the duration, without any call of [stop_monitoring]. *)
Theorem duration_ends_the_session
  (dir : string) (t0 interval d : Q) (K : nat)
  (m : Monitor) (ws : list World) (r0 : Run) :
  start_monitoring dir t0 m = Some r0 ->
  (0 < d)%Q -> (0 <= interval)%Q ->
  (d <= inject_Z (Z.of_nat K) * interval)%Q ->
  (K < length ws)%nat ->
  Forall (fun w => (0 <= elapsed w)%Q /\ display_raises w = false) ws ->
  monitoring (mon (monitor_loop interval (Some d) ws r0)) = false
  /\ (length (log (monitor_loop interval (Some d) ws r0)) <= K + 1)%nat.
Proof.
  intros Hstart Hd Hi HK Hlen Hws.
  destruct (start_monitoring_inv _ _ _ _ Hstart)
    as (_ & _ & _ & Hm & _ & _ & _ & Hl).
  unfold monitor_loop.
  destruct (loop_reaches_duration interval (clock r0) d K ws Hd Hi HK r0 O)
    as [H1 H2]; try done; try lia.
  - change (inject_Z (Z.of_nat 0)) with 0%Q. lra.
  - split; [exact H1|]. rewrite Hl in H2. simpl in H2. lia.
Qed.


(** * Further properties of target resolution *)

Section Resolution.

Implicit Types (w : World) (name : string).

Lemma digit_val_nonneg (c : ascii) : PyStr.is_digit c = true -> (0 <= PyStr.digit_val c)%Z.
Proof.
  unfold PyStr.is_digit, PyStr.digit_val. rewrite andb_true_iff, !Nat.leb_le. lia.
Qed.

Lemma digits_val_nonneg (s : string) (acc : Z) :
  PyStr.all_digits s = true -> (0 <= acc)%Z -> (0 <= PyStr.digits_val acc s)%Z.
Proof.
  revert acc. induction s as [|c s IH]; intros acc Hs Hacc; simpl in *; [done|].
  apply andb_true_iff in Hs as [Hc Hs]. apply IH; [exact Hs|].
  pose proof (digit_val_nonneg c Hc). lia.
Qed.

Lemma isdigit_all_digits (s : string) :
  PyStr.isdigit s = true -> PyStr.all_digits s = true.
Proof. now destruct s. Qed.

(** Every PID kept by the loop over the [pgrep] lines is a number that
    passed the verification. *)
Lemma valid_pids_sound w name (lines : list string) (p : Z) :
  p ∈ valid_pids w name lines ->
  verify_process_executable w p name = true /\ (0 <= p)%Z
  /\ exists line, line ∈ lines /\ PyStr.isdigit line = true
                  /\ p = PyStr.digits_val 0 line.
Proof.
  induction lines as [|l lines IH]; simpl; intros H.
  - now apply elem_of_nil in H.
  - assert (Hrest : p ∈ valid_pids w name lines ->
                    verify_process_executable w p name = true /\ (0 <= p)%Z
                    /\ exists line, line ∈ l :: lines /\ PyStr.isdigit line = true
                                    /\ p = PyStr.digits_val 0 line).
    { intros H'. destruct (IH H') as (H1 & H2 & line & H3 & H4).
      repeat split; try done. exists line.
      split; [now apply list_elem_of_further|done]. }
    destruct (PyStr.isdigit l) eqn:Hd; [|auto].
    destruct (verify_process_executable w (PyStr.digits_val 0 l) name) eqn:Hv; [|auto].
    apply elem_of_cons in H as [->|H]; [|auto].
    split; [exact Hv|]. split.
    + apply digits_val_nonneg; [now apply isdigit_all_digits|lia].
    + exists l. split; [apply list_elem_of_here|done].
Qed.

Lemma verify_with_resolution px pf w (p : Z) name :
  verify_process_executable (with_resolution px pf (ps_comm w) w) p name
  = verify_process_executable w p name.
Proof. reflexivity. Qed.

Lemma valid_pids_with_resolution px pf w name (lines : list string) :
  valid_pids (with_resolution px pf (ps_comm w) w) name lines
  = valid_pids w name lines.
Proof.
  induction lines as [|l lines IH]; simpl; [done|].
  rewrite verify_with_resolution, IH. reflexivity.
Qed.

End Resolution.


(** X6. Name resolution is sound: every PID returned by
    [find_process_by_name] is a non-negative number printed on a line of
    [pgrep] and passed the executable verification for the requested
    name. *)
Theorem find_process_by_name_sound (w : World) (name : string) (p : Z) :
  p ∈ find_process_by_name w name ->
  verify_process_executable w p name = true /\ (0 <= p)%Z
  /\ exists out line,
       (found (pgrep_x w name) = Some out \/ found (pgrep_f w name) = Some out)
       /\ line ∈ PyStr.split newline out /\ PyStr.isdigit line = true
       /\ p = PyStr.digits_val 0 line.
Proof.
  unfold find_process_by_name.
  destruct (raised (pgrep_x w name)); [intros H; now apply elem_of_nil in H|].
  destruct (found (pgrep_x w name)) as [out|] eqn:Ex.
  - intros H. destruct (valid_pids_sound w name _ p H) as (H1 & H2 & l & H3 & H4 & H5).
    repeat split; try done. exists out, l. auto.
  - destruct (raised (pgrep_f w name)); [intros H; now apply elem_of_nil in H|].
    destruct (found (pgrep_f w name)) as [out|] eqn:Ef;
      [|intros H; now apply elem_of_nil in H].
    intros H. destruct (valid_pids_sound w name _ p H) as (H1 & H2 & l & H3 & H4 & H5).
    repeat split; try done. exists out, l. auto.
Qed.

(** X7. The exact match is preferred: when [pgrep -x] prints something,
    the result is decided by that output alone, whatever the fallback
    [pgrep -f] would answer, also when no printed PID passes the
    verification and the result is empty; and when [pgrep -x] times out or
    fails, nothing is found and the fallback is not tried. *)
Theorem exact_match_is_preferred :
  (forall (w : World) (name out : string) (pf : string -> CompletedProcess),
      found (pgrep_x w name) = Some out ->
      find_process_by_name (with_pgrep_f pf w) name
      = valid_pids w name (PyStr.split newline out))
  /\ (forall (w : World) (name : string) (pf : string -> CompletedProcess),
         raised (pgrep_x w name) = true ->
         find_process_by_name (with_pgrep_f pf w) name = []).
Proof.
  split.
  - intros w name out pf Hx. unfold find_process_by_name, with_pgrep_f.
    cbn [pgrep_x with_resolution]. rewrite Hx.
    destruct (pgrep_x w name); [|discriminate|discriminate].
    cbn [raised]. apply valid_pids_with_resolution.
  - intros w name pf Hr. unfold find_process_by_name, with_pgrep_f.
    cbn [pgrep_x with_resolution]. now rewrite Hr.
Qed.


(** * Further properties of saving and loading *)

Section Reload.

Implicit Types (m : Monitor) (t : string).

Lemma load_items_sim t (items : list json) m1 m2 :
  store_ok m1 -> store_ok m2 -> (forall t', series m1 t' = series m2 t') ->
  fst (load_items t items m1) = fst (load_items t items m2)
  /\ store_ok (snd (load_items t items m1))
  /\ store_ok (snd (load_items t items m2))
  /\ forall t', series (snd (load_items t items m1)) t'
                = series (snd (load_items t items m2)) t'.
Proof.
  revert m1 m2. induction items as [|item items IH]; intros m1 m2 H1 H2 Hs; simpl.
  - done.
  - destruct (load_item item) as [s|]; [|done].
    apply IH; try now apply append_sample_ok.
    intros t'. rewrite !series_append_sample by done. now rewrite Hs.
Qed.

Lemma load_members_sim (members : list (string * json)) m1 m2 :
  store_ok m1 -> store_ok m2 -> (forall t', series m1 t' = series m2 t') ->
  fst (load_members members m1) = fst (load_members members m2)
  /\ forall t', series (snd (load_members members m1)) t'
                = series (snd (load_members members m2)) t'.
Proof.
  revert m1 m2. induction members as [|[t v] members IH]; intros m1 m2 H1 H2 Hs; simpl.
  - done.
  - destruct (iterate v) as [items|]; [|done].
    destruct (load_items_sim t items m1 m2 H1 H2 Hs) as (Hb & Hok1 & Hok2 & Hser).
    destruct (load_items t items m1) as [b1 n1], (load_items t items m2) as [b2 n2].
    simpl in *. subst b2. destruct b1; [now apply IH|done].
Qed.

Lemma loop_no_empty (interval : Q) (duration : option Q) (start : Q)
  (ws : list World) (r : Run) :
  store_ok (mon r) -> no_empty_series (mon r) ->
  no_empty_series (mon (loop interval duration start ws r)).
Proof.
  revert r. induction ws as [|w ws IH]; intros r Hok Hne; simpl; [done|].
  destruct (monitoring (mon r)); [|done].
  apply IH; [now apply iteration_spec|].
  destruct (iteration_mon interval duration start w r) as [b ->].
  assert (H : forall (ad : list (string * Sample)) m,
             store_ok m -> no_empty_series m -> no_empty_series (store_batch ad m)).
  { induction ad as [|[k s] ad IHad]; intros m H1 H2; simpl; [done|].
    apply IHad; [now apply append_sample_ok|now apply append_sample_no_empty]. }
  exact (H _ _ Hok Hne).
Qed.

(** The entry of a target in the document written by
    [save_data_to_file]. *)
Lemma data_to_save_lookup m t :
  dict_get t (data_to_save m)
  = (fun l => JArr (map save_item (deref (heap m) l))) <$> data m !! t.
Proof.
  unfold data_to_save.
  rewrite (dict_get_fmap (fun l => JArr (map save_item (deref (heap m) l)))).
  now rewrite dict_get_map_to_list.
Qed.

End Reload.

(** X9. Loading replaces, it never merges: when the file holds a JSON
    document, the result of [load_data_from_file] and every series in
    memory afterwards are the same whatever the monitor held before the
    call, also when the load fails half way. *)
Theorem load_discards_previous_data
  (name : string) (fs : FileSystem) (m1 m2 : Monitor) (j : json) :
  files fs !! name = Some (Doc j) ->
  fst (load_data_from_file name m1 fs) = fst (load_data_from_file name m2 fs)
  /\ forall t, series (snd (load_data_from_file name m1 fs)) t
               = series (snd (load_data_from_file name m2 fs)) t.
Proof.
  intros Hf. unfold load_data_from_file. rewrite Hf.
  assert (He : forall t, series (set_store ∅ (heap m1) m1) t
                         = series (set_store ∅ (heap m2) m2) t).
  { intros t. unfold series, read_series. simpl. now rewrite !lookup_empty. }
  destruct j as [| | | | | |members]; try (split; [reflexivity|exact He]).
  apply load_members_sim; [apply store_ok_empty|apply store_ok_empty|exact He].
Qed.

(** X10. What a monitoring session collected survives saving and loading:
    for every session started by [start_monitoring] whose clock readings
    are valid dates, a successful save followed by a load into any monitor
    returns [True] and gives back every series. *)
Theorem session_data_survives_save_and_load
  (dir : string) (t0 interval : Q) (duration : option Q)
  (m m2 : Monitor) (ws : list World) (r0 : Run)
  (today : datetime) (filename : option string) (fs fs' : FileSystem)
  (name : string) :
  start_monitoring dir t0 m = Some r0 ->
  Forall (fun w => forall t, valid_datetime (now w t) = true) ws ->
  save_data_to_file today filename (mon (monitor_loop interval duration ws r0)) fs
  = (Some name, fs') ->
  fst (load_data_from_file name m2 fs') = true
  /\ forall t, series (snd (load_data_from_file name m2 fs')) t
               = series (mon (monitor_loop interval duration ws r0)) t.
Proof.
  intros Hstart Hws.
  destruct (start_monitoring_inv _ _ _ _ Hstart) as (Hok & _ & _ & _ & Hd & _).
  unfold monitor_loop. set (r := loop interval duration (clock r0) ws r0).
  assert (Hokr : store_ok (mon r)) by now apply loop_store_ok.
  assert (Htsr : timestamps_ok (mon r)).
  { apply loop_timestamps_ok; [exact Hok| |exact Hws].
    intros t s Hs. unfold series, read_series in Hs.
    rewrite Hd, lookup_empty in Hs. now apply elem_of_nil in Hs. }
  unfold save_data_to_file.
  match goal with |- context [writable fs ?n] => set (nm := n) end.
  destruct (writable fs nm); [|discriminate]. intros [= <- <-].
  unfold load_data_from_file. simpl. rewrite lookup_insert_eq.
  destruct (load_members_data_to_save (mon r) (set_store ∅ (heap m2) m2) Hokr Htsr)
    as (m' & -> & _ & _ & H3).
  { apply store_ok_empty. }
  split; [reflexivity|]. intros t. simpl. rewrite H3.
  unfold series at 1, read_series. simpl. now rewrite lookup_empty.
Qed.

(** X11. Saving is stable under reloading: for a store without empty
    series, the store obtained by loading the written file would be saved
    as a document with the same entry for every target. *)
Theorem reloaded_store_saves_the_same_document
  (today : datetime) (filename : option string) (m m0 : Monitor)
  (fs fs' : FileSystem) (name : string) :
  store_ok m -> timestamps_ok m -> no_empty_series m ->
  save_data_to_file today filename m fs = (Some name, fs') ->
  forall t, dict_get t (data_to_save (snd (load_data_from_file name m0 fs')))
            = dict_get t (data_to_save m).
Proof.
  intros Hok Hts Hne. unfold save_data_to_file.
  match goal with |- context [writable fs ?n] => set (nm := n) end.
  destruct (writable fs nm); [|discriminate]. intros [= <- <-] t.
  unfold load_data_from_file. simpl. rewrite lookup_insert_eq.
  destruct (load_members_data_to_save m (set_store ∅ (heap m0) m0) Hok Hts)
    as (m' & -> & _ & Hne' & Hser).
  { apply store_ok_empty. }
  simpl.
  assert (Hs : series m' t = series m t).
  { rewrite Hser. unfold series at 1, read_series. simpl. now rewrite lookup_empty. }
  assert (Hne0 : no_empty_series m').
  { apply Hne'. intros t' l'. simpl. rewrite lookup_empty. discriminate. }
  rewrite !data_to_save_lookup.
  pose proof (no_empty_series_keys m' t Hne0) as K'.
  pose proof (no_empty_series_keys m t Hne) as K.
  unfold series, read_series in *.
  destruct (data m' !! t) as [l'|], (data m !! t) as [l|]; simpl.
  - now rewrite Hs.
  - rewrite Hs in K'. exfalso. apply (proj1 K'); [eauto|reflexivity].
  - rewrite <- Hs in K. exfalso. apply (proj1 K); [eauto|reflexivity].
  - reflexivity.
Qed.

(** * Further properties of the statistics *)

Section Rounding.

Lemma round_half_even_mono (x y : Q) :
  (x <= y)%Q -> (round_half_even x <= round_half_even y)%Z.
Proof.
  intros H. unfold round_half_even.
  pose proof (Qfloor_resp_le x y H) as Hf.
  pose proof (Qfloor_le x) as Hx1. pose proof (Qlt_floor x) as Hx2.
  pose proof (Qfloor_le y) as Hy1. pose proof (Qlt_floor y) as Hy2.
  rewrite inject_Z_plus in Hx2, Hy2. change (inject_Z 1) with 1%Q in Hx2, Hy2.
  destruct (Z.eq_dec (Qfloor x) (Qfloor y)) as [E|N].
  - rewrite E in *.
    destruct (Qcompare_spec (x - inject_Z (Qfloor y)) (1 # 2)),
             (Qcompare_spec (y - inject_Z (Qfloor y)) (1 # 2)),
             (Z.even (Qfloor y));
      first [lia | exfalso; lra].
  - destruct (Qcompare_spec (x - inject_Z (Qfloor x)) (1 # 2)),
             (Qcompare_spec (y - inject_Z (Qfloor y)) (1 # 2)),
             (Z.even (Qfloor x)), (Z.even (Qfloor y)); lia.
Qed.

(** Rounding to two decimals preserves the order. *)
Lemma round2_mono (x y : Q) : (x <= y)%Q -> (round2 x <= round2 y)%Q.
Proof.
  intros H. unfold round2. rewrite !Qred_correct.
  assert (Hz : (round_half_even (x * 100) <= round_half_even (y * 100))%Z)
    by (apply round_half_even_mono; lra).
  rewrite Zle_Qle in Hz. unfold Qdiv.
  apply Qmult_le_compat_r; [exact Hz|]. vm_compute. discriminate.
Qed.

(** Equal numbers are rounded to the same fraction. *)
Lemma round2_compat (x y : Q) : (x == y)%Q -> round2 x = round2 y.
Proof.
  intros H. unfold round2. f_equal. f_equal. f_equal.
  apply Z.le_antisymm; apply round_half_even_mono; lra.
Qed.

Lemma count_cons (x : Q) (xs : list Q) : (count (x :: xs) == count xs + 1)%Q.
Proof. unfold count. simpl length. apply inject_succ. Qed.

Lemma count_nonneg (xs : list Q) : (0 <= count xs)%Q.
Proof.
  unfold count. change 0%Q with (inject_Z 0). rewrite <- Zle_Qle. lia.
Qed.

Lemma total_upper (xs : list Q) (hi : Q) :
  (forall x, x ∈ xs -> (x <= hi)%Q) -> (total xs <= count xs * hi)%Q.
Proof.
  induction xs as [|x xs IH]; intros H.
  - change (0 <= 0 * hi)%Q. lra.
  - rewrite count_cons. cbn [total fold_right].
    change (fold_right Qplus 0%Q xs) with (total xs).
    pose proof (H x (list_elem_of_here _ _)).
    assert (total xs <= count xs * hi)%Q
      by (apply IH; intros z Hz; apply H; now apply list_elem_of_further).
    lra.
Qed.

Lemma total_lower (xs : list Q) (lo : Q) :
  (forall x, x ∈ xs -> (lo <= x)%Q) -> (count xs * lo <= total xs)%Q.
Proof.
  induction xs as [|x xs IH]; intros H.
  - change (0 * lo <= 0)%Q. lra.
  - rewrite count_cons. cbn [total fold_right].
    change (fold_right Qplus 0%Q xs) with (total xs).
    pose proof (H x (list_elem_of_here _ _)).
    assert (count xs * lo <= total xs)%Q
      by (apply IH; intros z Hz; apply H; now apply list_elem_of_further).
    lra.
Qed.

Lemma count_pos (x : Q) (xs : list Q) : (0 < count (x :: xs))%Q.
Proof. rewrite count_cons. pose proof (count_nonneg xs). lra. Qed.

(** The mean of a non-empty list lies between any lower and upper bound of
    its elements. *)
Lemma mean_between (x : Q) (xs : list Q) (lo hi : Q) :
  (forall z, z ∈ x :: xs -> (lo <= z <= hi)%Q) ->
  (lo <= total (x :: xs) / count (x :: xs) <= hi)%Q.
Proof.
  intros H. pose proof (count_pos x xs) as Hc. split.
  - apply Qle_shift_div_l; [exact Hc|]. rewrite Qmult_comm.
    apply total_lower. intros z Hz. now apply H.
  - apply Qle_shift_div_r; [exact Hc|]. rewrite Qmult_comm.
    apply total_upper. intros z Hz. now apply H.
Qed.

End Rounding.

Section StatsOrder.

Variable sqrt : Q -> Q.

(** The values [metric_stats] computes, before rounding. *)
Lemma metric_stats_exact (vs : list json) (st : MetricStats) :
  metric_stats sqrt vs = Some st ->
  exists x r,
    mapM as_number vs = Some (x :: r)
    /\ st_avg st = round2 (total (x :: r) / count (x :: r))
    /\ st_max st = round2 (fold_left (fun m y => if Qle_bool y m then m else y) r x)
    /\ st_min st = round2 (fold_left (fun m y => if Qle_bool m y then m else y) r x)
    /\ st_std st = round2 (if (1 <? length (x :: r))%nat
                           then sqrt (variance (x :: r)) else 0).
Proof.
  unfold metric_stats. destruct (mapM as_number vs) as [[|x r]|]; try discriminate.
  simpl. intros [= <-]. exists x, r. repeat split.
Qed.

Lemma metric_stats_ordered (vs : list json) (st : MetricStats) :
  metric_stats sqrt vs = Some st ->
  (st_min st <= st_avg st)%Q /\ (st_avg st <= st_max st)%Q.
Proof.
  intros H. destruct (metric_stats_exact vs st H) as (x & r & _ & -> & -> & -> & _).
  destruct (fold_max_spec r x) as [_ Hhi]. destruct (fold_min_spec r x) as [_ Hlo].
  simpl in Hhi, Hlo.
  destruct (mean_between x r _ _ (fun z Hz => conj (Hlo z Hz) (Hhi z Hz))) as [H1 H2].
  split; apply round2_mono; assumption.
Qed.

End StatsOrder.

(** X12. In every analysis the rounded statistics are ordered: for cpu,
    memory-percent and memory-MB the minimum is at most the average and
    the average at most the maximum. *)
Theorem analysis_min_avg_max_ordered
  (sqrt : Q -> Q) (name : string) (items : list json) (a : Analysis) :
  analyze_target sqrt name items = Some a ->
  (st_min (cpu a) <= st_avg (cpu a) <= st_max (cpu a))%Q
  /\ (st_min (a_memory_percent a) <= st_avg (a_memory_percent a)
      <= st_max (a_memory_percent a))%Q
  /\ (st_min (a_memory_mb a) <= st_avg (a_memory_mb a)
      <= st_max (a_memory_mb a))%Q.
Proof.
  intros H.
  destruct (analyze_target_inv sqrt name items a H)
    as (_ & _ & (v1 & _ & S1) & (v2 & _ & S2) & (v3 & _ & S3) & _).
  repeat split; eapply metric_stats_ordered; eauto.
Qed.

Section Constant.

Variable sqrt : Q -> Q.
Hypothesis sqrt_zero : forall q : Q, (q == 0)%Q -> (sqrt q == 0)%Q.

Lemma total_constant (xs : list Q) (c : Q) :
  Forall (fun x => (x == c)%Q) xs -> (total xs == count xs * c)%Q.
Proof.
  induction 1 as [|x xs Hx _ IH].
  - change (0 == 0 * c)%Q. lra.
  - rewrite count_cons. cbn [total fold_right].
    change (fold_right Qplus 0%Q xs) with (total xs). rewrite IH, Hx. lra.
Qed.

Lemma total_zero (xs : list Q) :
  Forall (fun x => (x == 0)%Q) xs -> (total xs == 0)%Q.
Proof. intros H. rewrite (total_constant xs 0 H). lra. Qed.

Lemma mean_constant (x : Q) (r : list Q) (c : Q) :
  Forall (fun z => (z == c)%Q) (x :: r) ->
  (total (x :: r) / count (x :: r) == c)%Q.
Proof.
  intros H. rewrite (total_constant _ c H).
  pose proof (count_pos x r). field. lra.
Qed.

Lemma variance_constant (x : Q) (r : list Q) (c : Q) :
  Forall (fun z => (z == c)%Q) (x :: r) -> (variance (x :: r) == 0)%Q.
Proof.
  intros H. unfold variance.
  assert (Hz : (total (map (fun z => (z - total (x :: r) / count (x :: r))
                                     * (z - total (x :: r) / count (x :: r)))%Q
                           (x :: r)) == 0)%Q).
  { apply total_zero. apply Forall_map. eapply Forall_impl; [exact H|].
    intros z Hzc. simpl. rewrite (mean_constant x r c H), Hzc. lra. }
  unfold Qdiv. rewrite Hz. apply Qmult_0_l.
Qed.

(** The statistics of a list of values that are all the number [c]. *)
Lemma metric_stats_constant (vs : list json) (st : MetricStats) (xs : list Q) (c : Q) :
  metric_stats sqrt vs = Some st -> mapM as_number vs = Some xs ->
  Forall (fun z => (z == c)%Q) xs ->
  st_avg st = round2 c /\ st_max st = round2 c /\ st_min st = round2 c
  /\ st_std st = 0%Q.
Proof.
  intros Hs Hn Hc.
  destruct (metric_stats_exact sqrt vs st Hs) as (x & r & E & -> & -> & -> & ->).
  rewrite Hn in E. injection E as ->.
  destruct (fold_max_spec r x) as [Hhi _]. destruct (fold_min_spec r x) as [Hlo _].
  simpl in Hhi, Hlo. rewrite Forall_forall in Hc.
  split; [apply round2_compat, mean_constant, Forall_forall, Hc|].
  split; [apply round2_compat, Hc, Hhi|].
  split; [apply round2_compat, Hc, Hlo|].
  change 0%Q with (round2 0). apply round2_compat.
  destruct (1 <? length (x :: r))%nat; [|reflexivity].
  apply sqrt_zero. apply (variance_constant x r c). now apply Forall_forall.
Qed.

End Constant.

(** X13. A series whose values of a basic metric are all the same number
    has that number, rounded, as average, maximum and minimum of the
    metric and a standard deviation of 0 (for a square root that maps 0 to
    0): a process with a constant CPU load of 2.0 gets avg 2.0 and std
    0.0. *)
Theorem constant_series_statistics
  (sqrt : Q -> Q) (name : string) (items : list json) (a : Analysis) :
  (forall q : Q, (q == 0)%Q -> (sqrt q == 0)%Q) ->
  analyze_target sqrt name items = Some a ->
  (forall xs c, numbers_at "cpu_percent" items = Some xs ->
     Forall (fun z => (z == c)%Q) xs ->
     st_avg (cpu a) = round2 c /\ st_max (cpu a) = round2 c
     /\ st_min (cpu a) = round2 c /\ st_std (cpu a) = 0%Q)
  /\ (forall xs c, numbers_at "memory_percent" items = Some xs ->
        Forall (fun z => (z == c)%Q) xs ->
        st_avg (a_memory_percent a) = round2 c
        /\ st_max (a_memory_percent a) = round2 c
        /\ st_min (a_memory_percent a) = round2 c
        /\ st_std (a_memory_percent a) = 0%Q)
  /\ (forall xs c, numbers_at "memory_mb" items = Some xs ->
        Forall (fun z => (z == c)%Q) xs ->
        st_avg (a_memory_mb a) = round2 c /\ st_max (a_memory_mb a) = round2 c
        /\ st_min (a_memory_mb a) = round2 c /\ st_std (a_memory_mb a) = 0%Q).
Proof.
  intros Hsqrt H.
  destruct (analyze_target_inv sqrt name items a H)
    as (_ & _ & (v1 & C1 & S1) & (v2 & C2 & S2) & (v3 & C3 & S3) & _).
  repeat apply conj; intros xs c Hn Hc; unfold numbers_at in Hn.
  - rewrite C1 in Hn. exact (metric_stats_constant sqrt Hsqrt v1 _ xs c S1 Hn Hc).
  - rewrite C2 in Hn. exact (metric_stats_constant sqrt Hsqrt v2 _ xs c S2 Hn Hc).
  - rewrite C3 in Hn. exact (metric_stats_constant sqrt Hsqrt v3 _ xs c S3 Hn Hc).
Qed.

Example create_report_directory_examples :
  create_report_directory [] ex_time false = "report/001_20240309_070500"
  /\ create_report_directory ["report/001_20240101_000000"; "report/007_20240102_000000"]
       ex_time false = "report/008_20240309_070500"
  /\ create_report_directory ["report/abc_x"] ex_time false
     = "report/001_20240309_070500"
  /\ create_report_directory [] ex_time true = "report/monitor_20240309_070500"
  /\ format_03d 1000 = "1000" /\ format_03d (-5) = "-05".
Proof. repeat split; reflexivity. Qed.

(** * The console summary and the report *)

Section SummaryVsAnalysis.

Variable sqrt : Q -> Q.

Local Arguments fromisoformat : simpl never.
Local Arguments isoformat : simpl never.




(** Destructs the first bind of a hypothesis [x ≫= f = Some _]. *)
Ltac invert_bind H :=
  match type of H with
  | mbind _ ?x = Some _ =>
      let E := fresh "E" in
      destruct x eqn:E; cbn [mbind option_bind] in H; [|discriminate H]
  end.

(** Where the descriptive fields of an analysis come from. *)
Lemma analyze_target_meta (name : string) (items : list json) (a : Analysis) :
  analyze_target sqrt name items = Some a ->
  exists first ts,
    head items = Some first /\ timestamps_of items = Some ts
    /\ subscript first "pid" = Some (a_pid a)
    /\ subscript first "command" = Some (a_command a)
    /\ head ts = Some (start_time a) /\ last ts = Some (end_time a)
    /\ test_duration a = total_seconds (end_time a) (start_time a)
    /\ data_points a = length items /\ process_name a = name.
Proof.
  unfold analyze_target. intros H.
  do 26 invert_bind H. injection H as <-. simpl.
  eexists _, _. repeat split; eauto.
Qed.


End SummaryVsAnalysis.


(** * The report directory *)

Lemma fold_max_ge (r : list Z) (x : Z) :
  (x <= fold_left Z.max r x)%Z
  /\ (forall y, y ∈ r -> (y <= fold_left Z.max r x)%Z)
  /\ fold_left Z.max r x ∈ x :: r.
Proof.
  revert x. induction r as [|z r IH]; intros x; simpl.
  - split; [lia|]. split; [|apply list_elem_of_here].
    intros y Hy. now apply elem_of_nil in Hy.
  - destruct (IH (Z.max x z)) as (H1 & H2 & H3). split; [lia|]. split.
    + intros y Hy. apply elem_of_cons in Hy as [->|Hy]; [lia|auto].
    + apply elem_of_cons in H3 as [E|H3].
      * rewrite E. destruct (Z.max_spec x z) as [[_ ->]|[_ ->]].
        -- apply list_elem_of_further, list_elem_of_here.
        -- apply list_elem_of_here.
      * now do 2 apply list_elem_of_further.
Qed.

Lemma next_seq_above (existing_dirs : list string) (d : string) (n : Z) :
  d ∈ existing_dirs -> seq_number d = Some n ->
  (n < next_seq existing_dirs)%Z.
Proof.
  intros Hd Hn. unfold next_seq.
  destruct existing_dirs as [|d0 ds] eqn:E; [now apply elem_of_nil in Hd|].
  rewrite <- E in *.
  assert (Hn' : n ∈ omap seq_number existing_dirs)
    by (apply list_elem_of_omap; eauto).
  destruct (omap seq_number existing_dirs) as [|x r];
    [now apply elem_of_nil in Hn'|].
  destruct (fold_max_ge r x) as (H1 & H2 & _).
  apply elem_of_cons in Hn' as [->|Hn']; [lia|]. specialize (H2 n Hn'). lia.
Qed.

(** X15. The sequence number of a new report directory is 1 when no
    existing directory carries a number, and otherwise one more than the
    highest number carried by an existing directory, so it is larger than
    the number of every existing directory. *)
Theorem next_seq_is_above_existing (existing_dirs : list string) :
  (forall d n, d ∈ existing_dirs -> seq_number d = Some n ->
               (n < next_seq existing_dirs)%Z)
  /\ ((forall d, d ∈ existing_dirs -> seq_number d = None) ->
      next_seq existing_dirs = 1%Z)
  /\ ((exists d, d ∈ existing_dirs /\ is_Some (seq_number d)) ->
      exists d, d ∈ existing_dirs
                /\ seq_number d = Some (next_seq existing_dirs - 1)%Z).
Proof.
  split; [exact (next_seq_above existing_dirs)|].
  assert (Hin : forall n, n ∈ omap seq_number existing_dirs <->
                          exists d, d ∈ existing_dirs /\ seq_number d = Some n)
    by (intros n; apply list_elem_of_omap).
  unfold next_seq. split.
  - intros Hnone. destruct existing_dirs as [|d0 ds] eqn:E; [done|].
    rewrite <- E in *.
    destruct (omap seq_number existing_dirs) as [|x r] eqn:Eo; [done|].
    destruct (proj1 (Hin x) (list_elem_of_here _ _)) as (d & Hd & Hs).
    rewrite (Hnone d Hd) in Hs. discriminate.
  - intros (d & Hd & [n Hn]). destruct existing_dirs as [|d0 ds] eqn:E;
      [now apply elem_of_nil in Hd|]. rewrite <- E in *.
    assert (Hn' : n ∈ omap seq_number existing_dirs) by (apply Hin; eauto).
    destruct (omap seq_number existing_dirs) as [|x r] eqn:Eo;
      [now apply elem_of_nil in Hn'|].
    destruct (fold_max_ge r x) as (_ & _ & H3).
    apply Hin in H3 as (d' & Hd' & Hs').
    exists d'. split; [exact Hd'|]. rewrite Hs'. f_equal. lia.
Qed.

(** * From a session to its report *)

Lemma sample_for_numbers (w : World) (cfg : Config) (t : string) :
  is_number (cpu_percent (sample_for w cfg t)) = true
  /\ is_number (memory_percent (sample_for w cfg t)) = true
  /\ is_number (memory_mb (sample_for w cfg t)) = true
  /\ forall v, thread_count (sample_for w cfg t) = Some v -> is_number v = true.
Proof.
  assert (Hopt : forall (b : bool) (z : Z) (v : json),
             (if b then Some (JInt z) else None) = Some v -> is_number v = true).
  { intros [] z v [= <-]. reflexivity. }
  unfold sample_for, collect_data_for_target.
  destruct (unexpected w t); [simpl; eauto 6|].
  destruct (PyStr.int t) as [p|].
  - destruct (get_process_info w p); simpl; eauto 6.
  - destruct (find_process_by_name w t) as [|p ps]; [simpl; eauto 6|].
    destruct (get_process_info w p); simpl; eauto 6.
Qed.

Section SavedRecords.

Local Arguments fromisoformat : simpl never.
Local Arguments isoformat : simpl never.

(** A sample with a valid timestamp and numbers for the metrics is saved
    as a record the analysis accepts. *)
Lemma save_item_well_formed (s : Sample) :
  valid_datetime (timestamp s) = true ->
  is_number (cpu_percent s) = true ->
  is_number (memory_percent s) = true ->
  is_number (memory_mb s) = true ->
  (forall v, thread_count s = Some v -> is_number v = true) ->
  well_formed_record (save_item s) = true.
Proof.
  destruct s as [ts tg tn pd cp mp mm rs vs cm ar sl sm fd tc]. simpl.
  intros Hv Hc Hp Hm Ht.
  unfold well_formed_record, save_item, number_at, number_or_absent_at, has_key.
  simpl. rewrite (fromisoformat_isoformat ts Hv), Hc, Hp, Hm.
  destruct fd as [f|], tc as [c|]; simpl; try reflexivity;
    now rewrite (Ht c eq_refl).
Qed.

End SavedRecords.

Section SessionReport.

Variable sqrt : Q -> Q.

(** Entries of [report_data] whose key is not among the members still to be
    analysed are left alone. *)
Lemma analyze_members_other (members : list (string * json))
  (rd report : list (string * Analysis)) (ok : bool) (name : string) :
  analyze_members sqrt members rd = Returned ok report ->
  name ∉ members.*1 ->
  dict_get name report = dict_get name rd.
Proof.
  revert rd. induction members as [|[k v] r IH]; intros rd H Hn; simpl in H.
  - now injection H as _ <-.
  - apply not_elem_of_cons in Hn as [Hk Hn]. simpl in Hk.
    destruct (negb (truthy v)); [now apply IH|].
    destruct (iterate v) as [items|]; [|discriminate].
    destruct (analyze_target sqrt k items) as [a|]; [|discriminate].
    rewrite (IH _ H Hn), dict_get_set.
    destruct (decide (k = name)); [congruence|reflexivity].
Qed.

(** The entry of a target with records is the analysis of its records. *)
Lemma analyze_members_entries (members : list (string * json))
  (rd report : list (string * Analysis)) (ok : bool)
  (name : string) (items : list json) :
  NoDup members.*1 ->
  analyze_members sqrt members rd = Returned ok report ->
  (name, JArr items) ∈ members -> items <> [] ->
  dict_get name report = analyze_target sqrt name items
  /\ is_Some (dict_get name report).
Proof.
  revert rd. induction members as [|[k v] r IH]; intros rd Hnd H Hin Hne.
  - now apply elem_of_nil in Hin.
  - apply NoDup_cons in Hnd as [Hk Hnd]. simpl in Hk, Hnd, H.
    apply elem_of_cons in Hin as [[= <- <-]|Hin].
    + destruct items as [|i items]; [done|]. simpl in H.
      destruct (analyze_target sqrt name (i :: items)) as [a|]; [|discriminate].
      rewrite (analyze_members_other _ _ _ _ _ H Hk), dict_get_set.
      rewrite decide_True by reflexivity. eauto.
    + destruct (negb (truthy v)); [now apply (IH rd)|].
      destruct (iterate v) as [its|]; [|discriminate].
      destruct (analyze_target sqrt k its) as [a|]; [|discriminate].
      now apply (IH _ Hnd H).
Qed.

(** What a session leaves in the store: series of configured targets
    only, one sample per cycle, each of them well formed. *)
Lemma session_store (dir : string) (t0 interval : Q) (duration : option Q)
  (m : Monitor) (ws : list World) (r0 : Run) :
  start_monitoring dir t0 m = Some r0 ->
  Forall (fun w => forall t, valid_datetime (now w t) = true) ws ->
  store_ok (mon (monitor_loop interval duration ws r0))
  /\ no_empty_series (mon (monitor_loop interval duration ws r0))
  /\ (forall t, t ∈ targets m ->
        length (series (mon (monitor_loop interval duration ws r0)) t)
        = length (log (monitor_loop interval duration ws r0)))
  /\ (forall t s, s ∈ series (mon (monitor_loop interval duration ws r0)) t ->
        t ∈ targets m /\ well_formed_record (save_item s) = true)
  /\ (ws <> [] -> (0 < length (log (monitor_loop interval duration ws r0)))%nat).
Proof.
  intros Hst Hv.
  destruct (start_monitoring_inv _ _ _ _ Hst)
    as (Hok & Htg & Hcfg & Hmon & Hdata & _ & _ & Hlog).
  assert (Hser0 : forall t, series (mon r0) t = []).
  { intros t. unfold series, read_series. now rewrite Hdata, lookup_empty. }
  unfold monitor_loop.
  destruct (loop_aligned interval duration (clock r0) ws r0 Hok) as (H1 & _ & H3).
  { intros t _. now rewrite Hser0, Hlog. }
  split; [exact H1|]. split.
  { apply loop_no_empty; [exact Hok|].
    intros t l. rewrite Hdata, lookup_empty. discriminate. }
  split; [intros t Ht; apply H3; now rewrite Htg|]. split.
  - intros t s Hs.
    apply (loop_samples interval duration (clock r0) ws r0 t s Hok) in Hs
      as [Hs|(Ht & w & Hw & ->)].
    { rewrite Hser0 in Hs. now apply elem_of_nil in Hs. }
    split; [now rewrite <- Htg|].
    destruct (sample_for_numbers w (monitor_config (mon r0)) t)
      as (N1 & N2 & N3 & N4).
    apply save_item_well_formed; try assumption.
    rewrite sample_for_timestamp.
    rewrite Forall_forall in Hv. now apply Hv.
  - destruct ws as [|w ws']; [done|]. intros _. simpl. rewrite Hmon.
    destruct (iteration_spec interval duration (clock r0) w r0 Hok) as (Hok' & _).
    destruct (loop_counts interval duration (clock r0) ws' _ Hok')
      as (n & _ & -> & _).
    rewrite iteration_log. lia.
Qed.

(** The members of the saved document. *)
Lemma data_to_save_members (m : Monitor) (t : string) (items : list json) :
  (t, JArr items) ∈ data_to_save m <->
  exists l, data m !! t = Some l /\ items = map save_item (deref (heap m) l).
Proof.
  unfold data_to_save. rewrite list_elem_of_fmap. split.
  - intros ([t' l] & [= -> ->] & Hin). apply elem_of_map_to_list in Hin. eauto.
  - intros (l & Hl & ->). exists (t, l). split; [reflexivity|].
    now apply elem_of_map_to_list.
Qed.

Lemma data_to_save_NoDup (m : Monitor) : NoDup (data_to_save m).*1.
Proof.
  unfold data_to_save.
  rewrite (fst_map_pair (fun l => JArr (map save_item (deref (heap m) l)))).
  apply NoDup_fst_map_to_list.
Qed.

Lemma append_not_empty (a b : string) :
  String.eqb a "" = false -> String.eqb (a +:+ b) "" = false.
Proof. destruct a; [discriminate|]. now rewrite append_cons. Qed.

(** A successful save wrote the document of the store under a name that
    is not empty. *)
Lemma save_data_to_file_written (today : datetime) (filename : option string)
  (m : Monitor) (fs fs' : FileSystem) (name : string) :
  save_data_to_file today filename m fs = (Some name, fs') ->
  String.eqb name "" = false
  /\ files fs' = <[name := Doc (JObj (data_to_save m))]> (files fs)
  /\ writable fs' = writable fs.
Proof.
  unfold save_data_to_file.
  set (nm := match match filename with
                   | Some f => if String.eqb f "" then None else Some f
                   | None => None
                   end with
             | Some f => f
             | None => _
             end).
  assert (Hnm : String.eqb nm "" = false).
  { subst nm. destruct filename as [f|].
    - destruct (String.eqb f "") eqn:E; [|exact E].
      destruct (report_dir m) as [d|]; [|reflexivity].
      destruct (String.eqb d "") eqn:Ed; [reflexivity|].
      now apply append_not_empty.
    - destruct (report_dir m) as [d|]; [|reflexivity].
      destruct (String.eqb d "") eqn:Ed; [reflexivity|].
      now apply append_not_empty. }
  destruct (writable fs nm); [|discriminate]. intros [= <- <-]. auto.
Qed.

(** The analysis of the document of a session: it does not raise, and its
    entries are the analyses of the configured targets. *)
Lemma session_analysis (dir : string) (t0 interval : Q) (duration : option Q)
  (m : Monitor) (ws : list World) (r0 : Run) :
  start_monitoring dir t0 m = Some r0 ->
  Forall (fun w => forall t, valid_datetime (now w t) = true) ws ->
  targets m <> [] -> ws <> [] ->
  exists report,
    analyze_data sqrt
      (JObj (data_to_save (mon (monitor_loop interval duration ws r0)))) []
    = Returned true report
    /\ (forall t, is_Some (dict_get t report) <-> t ∈ targets m)
    /\ forall t a, dict_get t report = Some a ->
         process_name a = t
         /\ data_points a = length (log (monitor_loop interval duration ws r0)).
Proof.
  intros Hst Hv Htg Hws.
  destruct (session_store dir t0 interval duration m ws r0 Hst Hv)
    as (Hok & Hne & Hlen & Hwf & Hpos).
  specialize (Hpos Hws).
  set (final := monitor_loop interval duration ws r0) in *.
  assert (Hkey : forall t, t ∈ targets m ->
            exists l, data (mon final) !! t = Some l
                      /\ series (mon final) t = deref (heap (mon final)) l).
  { intros t Ht. specialize (Hlen t Ht). unfold series, read_series in *.
    destruct (data (mon final) !! t) as [l|]; [eauto|]. simpl in Hlen. lia. }
  assert (Hmem : forall t items, (t, JArr items) ∈ data_to_save (mon final) ->
            t ∈ targets m /\ items <> []
            /\ length items = length (log final)
            /\ Forall (fun item => well_formed_record item = true) items).
  { intros t items (l & Hl & ->)%data_to_save_members.
    assert (Es : series (mon final) t = deref (heap (mon final)) l).
    { unfold series, read_series. now rewrite Hl. }
    pose proof (Hne t l Hl) as Hn. rewrite <- Es in *.
    assert (Ht : t ∈ targets m).
    { destruct (series (mon final) t) as [|s ss] eqn:E; [done|].
      apply (Hwf t s). rewrite E. apply list_elem_of_here. }
    split; [exact Ht|]. split.
    { intros E. apply Hn. now apply map_eq_nil in E. }
    split; [now rewrite length_map, Hlen|].
    apply Forall_forall. intros item (s & -> & Hs)%list_elem_of_fmap.
    now apply (Hwf t s). }
  assert (Hwfm : well_formed_members (data_to_save (mon final))).
  { apply Forall_forall. intros [t v] Hin.
    assert (exists items, v = JArr items) as [items ->].
    { unfold data_to_save in Hin. apply list_elem_of_fmap in Hin
        as (tl & [= _ ->] & _). eauto. }
    exists items. split; [reflexivity|]. now apply (Hmem t items). }
  destruct (analyze_members_total sqrt _ [] Hwfm) as (report & Hrep & Hkeys).
  exists report. split.
  { unfold analyze_data.
    destruct (data_to_save (mon final)) as [|kv r] eqn:E; [|exact Hrep].
    exfalso. destruct (targets m) as [|t ts] eqn:Et; [done|].
    destruct (Hkey t) as (l & Hl & _); [apply list_elem_of_here|].
    assert (Hin : (t, JArr (map save_item (deref (heap (mon final)) l)))
                  ∈ data_to_save (mon final))
      by (apply data_to_save_members; eauto).
    rewrite E in Hin. now apply elem_of_nil in Hin. }
  split.
  - intros t. rewrite Hkeys. split.
    + intros [[x Hx]|(items & Hin & _)]; [discriminate Hx|].
      now apply (Hmem t items).
    + intros Ht. right. destruct (Hkey t Ht) as (l & Hl & Es).
      exists (map save_item (deref (heap (mon final)) l)). split.
      * apply data_to_save_members; eauto.
      * intros E. apply map_eq_nil in E. now apply (Hne t l Hl).
  - intros t a Ha.
    assert (Hs : is_Some (dict_get t report)) by eauto.
    apply Hkeys in Hs as [[x Hx]|(items & Hin & Hn)]; [discriminate Hx|].
    destruct (analyze_members_entries _ _ _ _ t items
                (data_to_save_NoDup (mon final)) Hrep Hin Hn) as [E _].
    rewrite Ha in E. symmetry in E.
    destruct (analyze_target_meta sqrt t items a E)
      as (_ & _ & _ & _ & _ & _ & _ & _ & _ & Hp & Hn').
    split; [exact Hn'|]. rewrite Hp. now apply (Hmem t items).
Qed.

End SessionReport.

(** X16. The analysis never fails on what a session saved: when a session
    with at least one target has run at least one cycle with valid clock
    readings and its data were saved, the report template loads the file,
    [analyze_data] returns [True] without raising, and the result has one
    entry for every configured target and no other, named after the
    target and counting one data point per cycle. *)
Theorem session_data_is_analyzable
  (sqrt : Q -> Q) (dir : string) (t0 interval : Q) (duration : option Q)
  (m : Monitor) (ws : list World) (r0 : Run)
  (today : datetime) (filename : option string) (fs fs' : FileSystem)
  (name : string) :
  start_monitoring dir t0 m = Some r0 ->
  Forall (fun w => forall t, valid_datetime (now w t) = true) ws ->
  targets m <> [] -> ws <> [] ->
  save_data_to_file today filename (mon (monitor_loop interval duration ws r0)) fs
  = (Some name, fs') ->
  exists j report,
    load_data (Some name) fs' = Some j
    /\ analyze_data sqrt j [] = Returned true report
    /\ (forall t, is_Some (dict_get t report) <-> t ∈ targets m)
    /\ forall t a, dict_get t report = Some a ->
         process_name a = t
         /\ data_points a = length (log (monitor_loop interval duration ws r0)).
Proof.
  intros Hst Hv Htg Hws Hsave.
  destruct (save_data_to_file_written _ _ _ _ _ _ Hsave) as (Hn & Hf & _).
  destruct (session_analysis sqrt dir t0 interval duration m ws r0 Hst Hv Htg Hws)
    as (report & H1 & H2 & H3).
  exists (JObj (data_to_save (mon (monitor_loop interval duration ws r0)))), report.
  split; [|auto].
  unfold load_data. now rewrite Hn, Hf, lookup_insert_eq.
Qed.

Section ReportGeneration.

Variable sqrt : Q -> Q.
Variable render : list (string * Analysis) -> option string.





(** What [generate_performance_report] does once the data file is chosen. *)
Lemma generate_performance_report_chosen (m : Monitor)
  (data_file newest : option string) (today : datetime) (fs : FileSystem)
  (name : string) :
  String.eqb name "" = false ->
  is_Some (files fs !! name) ->
  data_file = Some name
  \/ (data_file = None /\ newest = Some name
      /\ exists d, report_dir m = Some d /\ String.eqb d "" = false) ->
  generate_performance_report sqrt render m data_file newest today fs
  = match generate_report sqrt render (Some name) (report_dir m) None today fs with
    | Some result => result
    | None => (false, fs)
    end.
Proof.
  intros Hn [x Hx] [->|(-> & -> & d & Hd & Hde)];
    unfold generate_performance_report.
  - now rewrite Hn, Hx.
  - now rewrite Hd, Hde, Hx.
Qed.

End ReportGeneration.

(** X17. The report of a session.  After a session with at least one
    target, none of them the empty string, and at least one cycle, whose
    data were saved, [generate_performance_report] on the saved file gets
    as far as building the report text from the analysis of all targets:
    it returns [True] and writes the report file, and returns [False],
    writing nothing, only when building the text raises or the report
    file cannot be written.  After a session without target or without
    cycle it returns [False] and writes nothing. *)
Theorem session_report
  (sqrt : Q -> Q) (render : list (string * Analysis) -> option string)
  (dir : string) (t0 interval : Q) (duration : option Q)
  (m : Monitor) (ws : list World) (r0 : Run)
  (today now' : datetime) (filename data_file newest : option string)
  (fs fs' : FileSystem) (name : string) :
  start_monitoring dir t0 m = Some r0 ->
  Forall (fun w => forall t, valid_datetime (now w t) = true) ws ->
  save_data_to_file today filename (mon (monitor_loop interval duration ws r0)) fs
  = (Some name, fs') ->
  data_file = Some name
  \/ (data_file = None /\ newest = Some name /\ String.eqb dir "" = false) ->
  (targets m <> [] -> "" ∉ targets m -> ws <> [] ->
   exists report,
     analyze_data sqrt
       (JObj (data_to_save (mon (monitor_loop interval duration ws r0)))) []
     = Returned true report
     /\ (forall t, is_Some (dict_get t report) <-> t ∈ targets m)
     /\ generate_performance_report sqrt render
          (mon (monitor_loop interval duration ws r0)) data_file newest now' fs'
        = match render report with
          | Some _ =>
              if writable fs' (report_file (Some dir) None now')
              then (true,
                    {| files := <[report_file (Some dir) None now' := Garbage]>
                                  (files fs');
                       writable := writable fs' |})
              else (false, fs')
          | None => (false, fs')
          end)
  /\ (targets m = [] \/ ws = [] ->
      generate_performance_report sqrt render
        (mon (monitor_loop interval duration ws r0)) data_file newest now' fs'
      = (false, fs')).
Proof.
  intros Hst Hv Hsave Hchoice.
  set (final := monitor_loop interval duration ws r0) in *.
  destruct (save_data_to_file_written _ _ _ _ _ _ Hsave) as (Hn & Hf & Hw).
  assert (Hdir : report_dir (mon final) = Some dir).
  { clear Hsave Hf. subst final. unfold monitor_loop.
    assert (H : forall ws r, report_dir (mon (loop interval duration (clock r0) ws r))
                             = report_dir (mon r)).
    { induction ws0 as [|w ws0 IH]; intros r; simpl; [done|].
      destruct (monitoring (mon r)); [|done]. rewrite IH.
      destruct (iteration_mon interval duration (clock r0) w r) as [b ->].
      unfold set_monitoring. simpl.
      generalize (collect_all_data w (mon r)). intros ad. generalize (mon r).
      induction ad as [|[k s] ad IHad]; intros m0; simpl; [done|].
      rewrite IHad. unfold append_sample.
      destruct (data m0 !! k); reflexivity. }
    rewrite H. unfold start_monitoring in Hst.
    destruct (monitoring m); [discriminate|]. now injection Hst as <-. }
  assert (Hgen : generate_performance_report sqrt render (mon final)
                   data_file newest now' fs'
                 = match generate_report sqrt render (Some name) (Some dir) None
                           now' fs' with
                   | Some result => result
                   | None => (false, fs')
                   end).
  { rewrite <- Hdir. apply generate_performance_report_chosen; [exact Hn| |].
    - rewrite Hf, lookup_insert_eq. eauto.
    - destruct Hchoice as [->|(-> & -> & Hd)]; [now left|right; eauto 6]. }
  assert (Hload : load_data (Some name) fs'
                  = Some (JObj (data_to_save (mon final)))).
  { unfold load_data. now rewrite Hn, Hf, lookup_insert_eq. }
  split.
  - intros Htg Hempty Hws.
    destruct (session_analysis sqrt dir t0 interval duration m ws r0 Hst Hv Htg Hws)
      as (report & H1 & H2 & _).
    fold final in H1. exists report. split; [exact H1|]. split; [exact H2|].
    rewrite Hgen. unfold generate_report. rewrite Hload, H1.
    destruct report as [|[k a] report].
    { exfalso. destruct (targets m) as [|t ts]; [done|].
      destruct (proj2 (H2 t) (list_elem_of_here _ _)) as [x Hx]. discriminate Hx. }
    assert (Hk : String.eqb k "" = false).
    { apply String.eqb_neq. intros ->. apply Hempty, H2. simpl. eauto. }
    rewrite Hk. destruct (render ((k, a) :: report)); [|reflexivity].
    destruct (writable fs' _); reflexivity.
  - intros Hnone.
    assert (Hnil : data_to_save (mon final) = []).
    { destruct (session_store dir t0 interval duration m ws r0 Hst Hv)
        as (_ & Hne & _ & Hwf & _). fold final in Hne, Hwf.
      destruct (data_to_save (mon final)) as [|[t v] r] eqn:E; [reflexivity|].
      exfalso.
      assert (Hin : (t, v) ∈ data_to_save (mon final))
        by (rewrite E; apply list_elem_of_here).
      unfold data_to_save in Hin.
      apply list_elem_of_fmap in Hin as ([t' l] & [= Et _] & Hl).
      simpl in Et. subst t'.
      apply elem_of_map_to_list in Hl. simpl in Hl.
      pose proof (Hne t l Hl) as Hd.
      destruct (deref (heap (mon final)) l) as [|s ss] eqn:Ed; [done|].
      assert (Hs : s ∈ series (mon final) t).
      { unfold series, read_series. rewrite Hl, Ed. apply list_elem_of_here. }
      destruct Hnone as [Ht| ->].
      + apply Hwf in Hs as [Hs _]. rewrite Ht in Hs. now apply elem_of_nil in Hs.
      + subst final. unfold monitor_loop in Hs. simpl in Hs.
        destruct (start_monitoring_inv _ _ _ _ Hst) as (_ & _ & _ & _ & Hd0 & _).
        unfold series, read_series in Hs. rewrite Hd0, lookup_empty in Hs.
        now apply elem_of_nil in Hs. }
    rewrite Hgen. unfold generate_report. rewrite Hload, Hnil. reflexivity.
Qed.


(** * The name of the report directory *)

Lemma all_chars_app (P : ascii -> bool) (a b : string) :
  all_chars P (a +:+ b) = all_chars P a && all_chars P b.
Proof.
  induction a as [|c a IH]; [reflexivity|].
  rewrite append_cons. simpl. now rewrite IH, andb_assoc.
Qed.

Lemma all_digits_chars (P : ascii -> bool) (s : string) :
  (forall c, PyStr.is_digit c = true -> P c = true) ->
  PyStr.all_digits s = true -> all_chars P s = true.
Proof.
  intros HP. induction s as [|c s IH]; [reflexivity|]. simpl.
  intros [Hc Hs]%andb_true_iff. now rewrite (HP c Hc), IH.
Qed.

Lemma all_digits_app (a b : string) :
  PyStr.all_digits (a +:+ b) = PyStr.all_digits a && PyStr.all_digits b.
Proof.
  induction a as [|c a IH]; [reflexivity|].
  rewrite append_cons. simpl. now rewrite IH, andb_assoc.
Qed.

Lemma is_digit_range (c : ascii) :
  PyStr.is_digit c = true <-> (48 <= nat_of_ascii c <= 57)%nat.
Proof.
  unfold PyStr.is_digit. rewrite andb_true_iff, !Nat.leb_le. tauto.
Qed.

Lemma is_digit_not_space (c : ascii) :
  PyStr.is_digit c = true -> negb (PyStr.is_space c) = true.
Proof.
  rewrite is_digit_range. intros H. unfold PyStr.is_space.
  apply negb_true_iff, orb_false_iff.
  split; apply andb_false_iff; rewrite !Nat.leb_gt; lia.
Qed.

Lemma is_digit_other_than (sep c : ascii) :
  PyStr.is_digit sep = false -> PyStr.is_digit c = true ->
  other_than sep c = true.
Proof.
  intros Hs Hc. unfold other_than. apply negb_true_iff, Ascii.eqb_neq.
  intros ->. congruence.
Qed.

Lemma lstrip_id (s : string) :
  all_chars (fun c => negb (PyStr.is_space c)) s = true -> PyStr.lstrip s = s.
Proof.
  destruct s as [|c s]; [reflexivity|]. simpl.
  intros [Hc _]%andb_true_iff. apply negb_true_iff in Hc. now rewrite Hc.
Qed.

Lemma rstrip_id (s : string) :
  all_chars (fun c => negb (PyStr.is_space c)) s = true -> PyStr.rstrip s = s.
Proof.
  induction s as [|c s IH]; [reflexivity|]. simpl.
  intros [Hc Hs]%andb_true_iff. apply negb_true_iff in Hc.
  rewrite (IH Hs), Hc. now destruct s.
Qed.

Lemma strip_id (s : string) :
  all_chars (fun c => negb (PyStr.is_space c)) s = true -> PyStr.strip s = s.
Proof.
  intros H. unfold PyStr.strip. rewrite (lstrip_id s H). now apply rstrip_id.
Qed.

(** [int] of a string of digits, and of one with a minus sign. *)
Lemma int_digits (s : string) :
  PyStr.all_digits s = true -> s <> "" ->
  PyStr.int s = Some (PyStr.digits_val 0 s).
Proof.
  intros Hd Hne. unfold PyStr.int.
  rewrite strip_id by (apply all_digits_chars; [apply is_digit_not_space|exact Hd]).
  destruct s as [|c r]; [done|].
  assert (Hi : PyStr.isdigit (String c r) = true) by exact Hd.
  simpl in Hd. apply andb_true_iff in Hd as [Hc _].
  destruct c as [[] [] [] [] [] [] [] []]; try discriminate Hc; now rewrite Hi.
Qed.

Lemma int_minus_digits (s : string) :
  PyStr.all_digits s = true -> s <> "" ->
  PyStr.int (String "-" s) = Some (- PyStr.digits_val 0 s)%Z.
Proof.
  intros Hd Hne. unfold PyStr.int.
  rewrite strip_id.
  - assert (Hi : PyStr.isdigit s = true) by (destruct s; [done|exact Hd]).
    now rewrite Hi.
  - simpl. apply all_digits_chars; [apply is_digit_not_space|exact Hd].
Qed.

(** The decimal numeral of a number. *)
Lemma string_of_uint_digits (d : Decimal.uint) :
  PyStr.all_digits (NilEmpty.string_of_uint d) = true.
Proof. induction d; simpl; auto. Qed.

Lemma digits_val_uint_acc (d : Decimal.uint) (acc : positive) :
  PyStr.digits_val (Z.pos acc) (NilEmpty.string_of_uint d)
  = Z.pos (Pos.of_uint_acc d acc).
Proof.
  revert acc. induction d; intros acc; cbn [NilEmpty.string_of_uint
    PyStr.digits_val Pos.of_uint_acc]; [reflexivity|..];
    rewrite <- IHd; f_equal;
    match goal with
    | |- context [PyStr.digit_val ?c] =>
        let v := eval vm_compute in (PyStr.digit_val c) in
        change (PyStr.digit_val c) with v
    end; lia.
Qed.

Lemma digits_val_uint (d : Decimal.uint) :
  PyStr.digits_val 0 (NilEmpty.string_of_uint d) = Z.of_N (Pos.of_uint d).
Proof.
  induction d; cbn [NilEmpty.string_of_uint PyStr.digits_val Pos.of_uint];
    [reflexivity|exact IHd|..];
    apply (digits_val_uint_acc d).
Qed.

Lemma str_digits (n : Z) :
  (0 <= n)%Z ->
  PyStr.all_digits (str n) = true /\ str n <> ""
  /\ PyStr.digits_val 0 (str n) = n.
Proof.
  intros Hn. destruct n as [|p|p]; [done| |lia].
  unfold str. cbn [Z.to_int NilZero.string_of_int].
  pose proof (DecimalPos.Unsigned.to_uint_nonnil p) as Hnil.
  pose proof (DecimalPos.Unsigned.of_to p) as Hof.
  pose proof (digits_val_uint (Pos.to_uint p)) as Hval.
  pose proof (string_of_uint_digits (Pos.to_uint p)) as Hdig.
  destruct (Pos.to_uint p) eqn:E; [done|..];
    cbn [NilZero.string_of_uint]; (split; [exact Hdig|]);
    (split; [discriminate|]); rewrite Hval, Hof; reflexivity.
Qed.

(** The zeros [format_03d] puts in front do not change the value. *)
Lemma zeros_spec (k : nat) :
  PyStr.all_digits (String.concat "" (repeat "0" k)) = true
  /\ forall s, PyStr.digits_val 0 (String.concat "" (repeat "0" k) +:+ s)
               = PyStr.digits_val 0 s.
Proof.
  induction k as [|k [IH1 IH2]]; [done|].
  destruct k as [|k]; [done|].
  change (String.concat "" (repeat "0" (S (S k))))
    with (String "0" (String.concat "" (repeat "0" (S k)))).
  split; [exact IH1|]. intros s. rewrite append_cons. exact (IH2 s).
Qed.

Lemma format_03d_int (n : Z) : PyStr.int (format_03d n) = Some n.
Proof.
  unfold format_03d.
  destruct (str_digits (Z.abs n) (Z.abs_nonneg n)) as (Hd & Hne & Hv).
  set (k := (_ - String.length (str (Z.abs n)))%nat).
  destruct (zeros_spec k) as [Hz1 Hz2].
  assert (Hall : PyStr.all_digits (String.concat "" (repeat "0" k)
                                   +:+ str (Z.abs n)) = true)
    by now rewrite all_digits_app, Hz1, Hd.
  assert (Hnon : String.concat "" (repeat "0" k) +:+ str (Z.abs n) <> "").
  { destruct (String.concat "" (repeat "0" k)); [exact Hne|discriminate]. }
  destruct (n <? 0)%Z eqn:E.
  - rewrite append_cons, append_empty_l, int_minus_digits, Hz2, Hv by done.
    f_equal. lia.
  - rewrite append_empty_l, int_digits, Hz2, Hv by done.
    f_equal. lia.
Qed.

Lemma format_03d_chars (P : ascii -> bool) (n : Z) :
  P "-"%char = true -> (forall c, PyStr.is_digit c = true -> P c = true) ->
  all_chars P (format_03d n) = true.
Proof.
  intros Hm HP. unfold format_03d.
  destruct (str_digits (Z.abs n) (Z.abs_nonneg n)) as (Hd & _).
  set (k := (_ - String.length (str (Z.abs n)))%nat).
  destruct (zeros_spec k) as [Hz1 _].
  rewrite !all_chars_app, (all_digits_chars P _ HP Hz1), (all_digits_chars P _ HP Hd).
  destruct (n <? 0)%Z; simpl; [now rewrite Hm|reflexivity].
Qed.

Lemma digit_char_digit (d : N) :
  (d < 10)%N -> PyStr.is_digit (digit_char d) = true.
Proof.
  intros H.
  assert (d = 0 \/ d = 1 \/ d = 2 \/ d = 3 \/ d = 4 \/ d = 5 \/ d = 6
          \/ d = 7 \/ d = 8 \/ d = 9)%N as Hd by lia.
  repeat (destruct Hd as [-> | Hd]; [reflexivity|]). now subst d.
Qed.

Lemma pad_digits (k : nat) (n : N) : PyStr.all_digits (pad k n) = true.
Proof.
  induction k as [|k IH]; [reflexivity|]. simpl.
  rewrite IH, digit_char_digit; [reflexivity|].
  apply N.mod_lt. discriminate.
Qed.

Lemma strftime_compact_chars (P : ascii -> bool) (t : datetime) :
  P "_"%char = true -> (forall c, PyStr.is_digit c = true -> P c = true) ->
  all_chars P (strftime_compact t) = true.
Proof.
  intros Hu HP. unfold strftime_compact.
  rewrite !all_chars_app, !(all_digits_chars P _ HP (pad_digits _ _)).
  simpl. now rewrite Hu.
Qed.

(** [split] on a text without the separator, and up to its first
    occurrence. *)
Lemma split_free (sep : ascii) (s : string) :
  all_chars (other_than sep) s = true -> PyStr.split sep s = [s].
Proof.
  induction s as [|c s IH]; [reflexivity|]. simpl.
  intros [Hc Hs]%andb_true_iff. unfold other_than in Hc.
  apply negb_true_iff in Hc. now rewrite Hc, (IH Hs).
Qed.

Lemma split_prefix (sep : ascii) (a b : string) :
  all_chars (other_than sep) a = true ->
  PyStr.split sep (a +:+ String sep b) = a :: PyStr.split sep b.
Proof.
  induction a as [|c a IH].
  - intros _. rewrite append_empty_l. simpl. now rewrite Ascii.eqb_refl.
  - cbn [all_chars]. intros [Hc Ha]%andb_true_iff. unfold other_than in Hc.
    apply negb_true_iff in Hc. rewrite append_cons. cbn [PyStr.split].
    now rewrite Hc, (IH Ha).
Qed.

(** The number read back from the name of a directory made of a name, an
    underscore and a time stamp. *)
Lemma seq_number_of_name (n : Z) (t : datetime) :
  seq_number ("report/" +:+ format_03d n +:+ "_" +:+ strftime_compact t)
  = Some n.
Proof.
  unfold seq_number, basename.
  set (rest := format_03d n +:+ "_" +:+ strftime_compact t).
  assert (Hrest : all_chars (other_than "/") rest = true).
  { subst rest. rewrite !all_chars_app, format_03d_chars, strftime_compact_chars;
      try reflexivity; intros c Hc; now apply is_digit_other_than. }
  change ("report/" +:+ rest) with ("report" +:+ String "/" rest).
  rewrite split_prefix by reflexivity. rewrite (split_free _ _ Hrest).
  cbn [List.last]. subst rest.
  change ("_" +:+ strftime_compact t) with (String "_" (strftime_compact t)).
  rewrite split_prefix.
  - cbn [hd]. apply format_03d_int.
  - apply format_03d_chars; [reflexivity|].
    intros c Hc. now apply is_digit_other_than.
Qed.

(** X19. The report directory of a session is new: unless creating it
    raised, its name carries the next sequence number, which reads back
    from the name as [create_report_directory] reads the numbers of the
    existing directories, and the name is none of the existing ones. *)
Theorem report_directory_is_new (existing_dirs : list string) (today : datetime) :
  seq_number (create_report_directory existing_dirs today false)
  = Some (next_seq existing_dirs)
  /\ create_report_directory existing_dirs today false ∉ existing_dirs.
Proof.
  assert (H : seq_number (create_report_directory existing_dirs today false)
              = Some (next_seq existing_dirs))
    by apply seq_number_of_name.
  split; [exact H|]. intros Hin.
  pose proof (next_seq_above existing_dirs _ _ Hin H). lia.
Qed.
(** * Instances of the further properties at concrete inputs *)

(** One cycle on the example system: the sample stored under [foo]. *)
Lemma stored_samples_belong_to_their_target_witness :
  sample_for ex_world default_config "foo" ∈ series (mon ex_after_1) "foo"
  /\ "foo" ∈ targets ex_monitor
  /\ target (sample_for ex_world default_config "foo") = JStr "foo"
  /\ exists w, w ∈ [ex_world]
       /\ sample_for ex_world default_config "foo"
          = sample_for w (monitor_config ex_monitor) "foo".
Proof.
  assert (H : sample_for ex_world default_config "foo"
              ∈ series (mon ex_after_1) "foo")
    by (vm_compute; apply list_elem_of_here).
  split; [exact H|].
  exact (stored_samples_belong_to_their_target
           "report/001_20240309_070500" 0 5 None ex_monitor [ex_world] ex_start
           "foo" _ eq_refl H).
Defined.

(** With the default configuration the zero sample of [nope] carries
    the optional fields the configuration enables. *)
Lemma optional_fields_follow_configuration_witness :
  sample_for ex_world default_config "nope" ∈ series (mon ex_after_1) "nope"
  /\ (is_Some (fd_count (sample_for ex_world default_config "nope"))
      <-> cfg_file_descriptors (monitor_config ex_monitor) = true)
  /\ (is_Some (thread_count (sample_for ex_world default_config "nope"))
      <-> cfg_thread_count (monitor_config ex_monitor) = true).
Proof.
  assert (H : sample_for ex_world default_config "nope"
              ∈ series (mon ex_after_1) "nope")
    by (vm_compute; apply list_elem_of_here).
  split; [exact H|].
  exact (optional_fields_follow_configuration
           "report/001_20240309_070500" 0 5 None ex_monitor [ex_world] ex_start
           "nope" _ eq_refl H).
Defined.

(** Two cycles whose display completes are counted as two samples. *)
Lemma sample_count_counts_displayed_cycles_witness :
  targets ex_monitor <> []
  /\ sample_count (monitor_loop 5 None [ex_world; ex_world] ex_start)
     = length (filter (fun w => display_raises w = false)
                 (take (length (log (monitor_loop 5 None [ex_world; ex_world]
                                                  ex_start)))
                       [ex_world; ex_world])).
Proof.
  assert (H : targets ex_monitor <> []) by discriminate.
  split; [exact H|].
  exact (proj1 (proj2 (sample_count_counts_displayed_cycles
                         "report/001_20240309_070500" 0 5 None ex_monitor
                         [ex_world; ex_world] ex_start eq_refl)) H).
Defined.

(** An interval of 3 and a duration of 10 seconds: four intervals cover
    the duration, so the loop has stopped after at most five cycles. *)
Lemma duration_ends_the_session_witness :
  monitoring (mon (monitor_loop 3 (Some 10%Q)
                     [ex_world; ex_world; ex_world; ex_world; ex_world]
                     ex_start)) = false
  /\ (length (log (monitor_loop 3 (Some 10%Q)
                     [ex_world; ex_world; ex_world; ex_world; ex_world]
                     ex_start)) <= 4 + 1)%nat.
Proof.
  apply (duration_ends_the_session "report/001_20240309_070500" 0 3 10 4
           ex_monitor [ex_world; ex_world; ex_world; ex_world; ex_world]
           ex_start eq_refl).
  - reflexivity.
  - discriminate.
  - discriminate.
  - simpl. lia.
  - repeat constructor; discriminate.
Defined.


(** Process 7 is what the lookup of [foo] returns on the example system. *)
Lemma find_process_by_name_sound_witness :
  7%Z ∈ find_process_by_name ex_world "foo"
  /\ verify_process_executable ex_world 7 "foo" = true /\ (0 <= 7)%Z
  /\ exists out line,
       (found (pgrep_x ex_world "foo") = Some out
        \/ found (pgrep_f ex_world "foo") = Some out)
       /\ line ∈ PyStr.split newline out /\ PyStr.isdigit line = true
       /\ 7%Z = PyStr.digits_val 0 line.
Proof.
  assert (H : 7%Z ∈ find_process_by_name ex_world "foo")
    by (vm_compute; apply list_elem_of_here).
  split; [exact H|].
  exact (find_process_by_name_sound ex_world "foo" 7%Z H).
Defined.

(** [pgrep -x] finds [foo]: a fallback that would answer 999 is ignored. *)
Lemma exact_match_is_preferred_witness :
  found (pgrep_x ex_world "foo") = Some "7"
  /\ find_process_by_name
       (with_pgrep_f (fun _ => Completed 0 "999") ex_world) "foo"
     = valid_pids ex_world "foo" (PyStr.split newline "7").
Proof.
  split; [reflexivity|].
  apply (proj1 exact_match_is_preferred ex_world "foo" "7"
           (fun _ => Completed 0 "999")).
  reflexivity.
Defined.


(** Loading the malformed file into an empty and into a filled monitor. *)
Lemma load_discards_previous_data_witness :
  files ex_bad_files !! "bad.json" = Some (Doc (JObj [("foo", JArr [JObj []])]))
  /\ fst (load_data_from_file "bad.json" ex_monitor ex_bad_files)
     = fst (load_data_from_file "bad.json" (mon ex_after_1) ex_bad_files)
  /\ forall t,
       series (snd (load_data_from_file "bad.json" ex_monitor ex_bad_files)) t
       = series (snd (load_data_from_file "bad.json" (mon ex_after_1)
                                          ex_bad_files)) t.
Proof.
  split; [reflexivity|].
  apply (load_discards_previous_data "bad.json" ex_bad_files ex_monitor
           (mon ex_after_1) (JObj [("foo", JArr [JObj []])])).
  reflexivity.
Defined.

(** The session of one cycle, saved and loaded into a fresh monitor. *)
Lemma session_data_survives_save_and_load_witness :
  fst (load_data_from_file
         "report/001_20240309_070500/monitor_data_20240309_070500.json"
         ex_monitor
         (snd (save_data_to_file ex_time None
                 (mon (monitor_loop 5 None [ex_world] ex_start)) ex_files)))
  = true
  /\ forall t,
       series (snd (load_data_from_file
                      "report/001_20240309_070500/monitor_data_20240309_070500.json"
                      ex_monitor
                      (snd (save_data_to_file ex_time None
                              (mon (monitor_loop 5 None [ex_world] ex_start))
                              ex_files)))) t
       = series (mon (monitor_loop 5 None [ex_world] ex_start)) t.
Proof.
  apply (session_data_survives_save_and_load "report/001_20240309_070500" 0 5
           None ex_monitor ex_monitor [ex_world] ex_start ex_time None ex_files
           (snd (save_data_to_file ex_time None
                   (mon (monitor_loop 5 None [ex_world] ex_start)) ex_files))
           "report/001_20240309_070500/monitor_data_20240309_070500.json"
           eq_refl).
  - repeat constructor.
  - reflexivity.
Defined.

(** The store after one cycle has no empty series; saved, loaded and
    saved again it gives the same entries. *)
Lemma reloaded_store_saves_the_same_document_witness :
  no_empty_series (mon ex_after_1)
  /\ forall t,
       dict_get t (data_to_save
         (snd (load_data_from_file
                 "report/001_20240309_070500/monitor_data_20240309_070500.json"
                 ex_monitor
                 (snd (save_data_to_file ex_time None (mon ex_after_1) ex_files)))))
       = dict_get t (data_to_save (mon ex_after_1)).
Proof.
  assert (H : no_empty_series (mon ex_after_1)).
  { apply loop_no_empty; [exact (proj1 ex_start_ok)|].
    intros t l Hl. simpl in Hl. rewrite lookup_empty in Hl. discriminate Hl. }
  split; [exact H|].
  apply (reloaded_store_saves_the_same_document ex_time None (mon ex_after_1)
           ex_monitor ex_files
           (snd (save_data_to_file ex_time None (mon ex_after_1) ex_files))
           "report/001_20240309_070500/monitor_data_20240309_070500.json"
           (proj1 ex_after_1_ok) (proj2 ex_after_1_ok) H).
  reflexivity.
Defined.

(** The CPU values 1.0, 3.0, 5.0: minimum, average and maximum in order. *)
Lemma analysis_min_avg_max_ordered_witness :
  exists a, analyze_target ex_sqrt "foo" ex_records = Some a
    /\ (st_min (cpu a) <= st_avg (cpu a) <= st_max (cpu a))%Q.
Proof.
  destruct (analyze_target ex_sqrt "foo" ex_records) as [a|] eqn:E;
    [|vm_compute in E; discriminate E].
  exists a. split; [reflexivity|].
  exact (proj1 (analysis_min_avg_max_ordered ex_sqrt "foo" ex_records a E)).
Defined.

Lemma ex_sqrt_zero (q : Q) : (q == 0)%Q -> (ex_sqrt q == 0)%Q.
Proof.
  intros H. unfold ex_sqrt. rewrite (Qfloor_comp _ _ H). reflexivity.
Qed.

(** A process with a constant CPU load of 2.0: avg 2.0 and std 0.0. *)
Lemma constant_series_statistics_witness :
  exists a, analyze_target ex_sqrt "foo" ex_constant_records = Some a
    /\ numbers_at "cpu_percent" ex_constant_records = Some [2%Q; 2%Q; 2%Q]
    /\ st_avg (cpu a) = round2 2 /\ st_max (cpu a) = round2 2
    /\ st_min (cpu a) = round2 2 /\ st_std (cpu a) = 0%Q.
Proof.
  destruct (analyze_target ex_sqrt "foo" ex_constant_records) as [a|] eqn:E;
    [|vm_compute in E; discriminate E].
  exists a. split; [reflexivity|]. split; [reflexivity|].
  apply (proj1 (constant_series_statistics ex_sqrt "foo" ex_constant_records a
                  ex_sqrt_zero E) [2%Q; 2%Q; 2%Q] 2%Q); [reflexivity|].
  repeat constructor; reflexivity.
Defined.


(** Beside the directories 001 and 007 the next number is above 7. *)
Lemma next_seq_is_above_existing_witness :
  "report/007_20240102_000000" ∈ ex_dirs
  /\ seq_number "report/007_20240102_000000" = Some 7%Z
  /\ (7 < next_seq ex_dirs)%Z.
Proof.
  assert (H : "report/007_20240102_000000" ∈ ex_dirs)
    by (apply list_elem_of_further, list_elem_of_here).
  split; [exact H|]. split; [reflexivity|].
  exact (proj1 (next_seq_is_above_existing ex_dirs)
           "report/007_20240102_000000" 7%Z H eq_refl).
Defined.

(** The saved session of one cycle is analysed without failure. *)
Lemma session_data_is_analyzable_witness :
  exists j report,
    load_data
      (Some "report/001_20240309_070500/monitor_data_20240309_070500.json")
      (snd (save_data_to_file ex_time None
              (mon (monitor_loop 5 None [ex_world] ex_start)) ex_files))
    = Some j
    /\ analyze_data ex_sqrt j [] = Returned true report
    /\ (forall t, is_Some (dict_get t report) <-> t ∈ targets ex_monitor)
    /\ forall t a, dict_get t report = Some a ->
         process_name a = t
         /\ data_points a
            = length (log (monitor_loop 5 None [ex_world] ex_start)).
Proof.
  apply (session_data_is_analyzable ex_sqrt "report/001_20240309_070500" 0 5
           None ex_monitor [ex_world] ex_start ex_time None ex_files
           (snd (save_data_to_file ex_time None
                   (mon (monitor_loop 5 None [ex_world] ex_start)) ex_files))
           "report/001_20240309_070500/monitor_data_20240309_070500.json"
           eq_refl).
  - repeat constructor.
  - discriminate.
  - discriminate.
  - reflexivity.
Defined.

(** The report of the session of one cycle, for a text that is always
    built: the newest data file of the report directory is analysed and
    the report is written. *)
Lemma session_report_witness :
  exists report,
    analyze_data ex_sqrt
      (JObj (data_to_save (mon (monitor_loop 5 None [ex_world] ex_start)))) []
    = Returned true report
    /\ (forall t, is_Some (dict_get t report) <-> t ∈ targets ex_monitor)
    /\ generate_performance_report ex_sqrt (fun _ => Some "report")
         (mon (monitor_loop 5 None [ex_world] ex_start)) None
         (Some "report/001_20240309_070500/monitor_data_20240309_070500.json")
         ex_time
         (snd (save_data_to_file ex_time None
                 (mon (monitor_loop 5 None [ex_world] ex_start)) ex_files))
       = (true,
          {| files :=
               <[report_file (Some "report/001_20240309_070500") None ex_time
                 := Garbage]>
                 (files (snd (save_data_to_file ex_time None
                                (mon (monitor_loop 5 None [ex_world] ex_start))
                                ex_files)));
             writable := fun _ => true |}).
Proof.
  assert (Hv : Forall (fun w => forall t, valid_datetime (now w t) = true)
                      [ex_world]) by repeat constructor.
  apply (proj1 (session_report ex_sqrt (fun _ => Some "report")
                  "report/001_20240309_070500" 0 5 None ex_monitor [ex_world]
                  ex_start ex_time ex_time None None
                  (Some "report/001_20240309_070500/monitor_data_20240309_070500.json")
                  ex_files
                  (snd (save_data_to_file ex_time None
                          (mon (monitor_loop 5 None [ex_world] ex_start))
                          ex_files))
                  "report/001_20240309_070500/monitor_data_20240309_070500.json"
                  eq_refl
                  Hv
                  eq_refl
                  (or_intror (conj eq_refl (conj eq_refl eq_refl))))).
  - discriminate.
  - intros H.
    repeat (apply elem_of_cons in H as [H|H]; [discriminate H|]).
    now apply elem_of_nil in H.
  - discriminate.
Defined.

